(** * connectAdvanced: the per-instance update coordination of react-redux

    A shallow embedding of [src/components/connectAdvanced.js].  The
    component function [ConnectFunction], the two layout effects
    [captureWrapperProps] and [subscribeUpdates], and the closures
    [checkForUpdates] and [unsubscribeWrapper] are written in a small
    state-and-exception monad over the cells the JavaScript mutates:
    the React hook cells of one mounted instance, the object heap, and
    the variables captured by the subscription closure.  Calls that
    leave the file (store, selector, notification node, React's
    dispatch) are recorded in a trace.  [connectAdvanced] and
    [wrapWithConnect], which run once per component, are functions of
    the heap and of what their surroundings answer. *)

From Stdlib Require Import ZArith String List Bool Lia.
From stdpp Require Import base option gmap strings.
Import ListNotations.
Open Scope string_scope.

(** ** JavaScript values *)

Module JS.

Definition loc := nat.

(** Primitive values are compared by content, objects (functions, errors
    and React contexts included) by their address. *)
Inductive value :=
| VUndefined
| VNull
| VBool (b : bool)
| VNum (n : Z)
| VNaN
| VStr (s : string)
| VRef (l : loc).

#[global] Instance value_eq_dec : EqDecision value.
Proof. solve_decision. Defined.

(** [Boolean(v)], the test of [if (v)], [!v] and [a && b]. *)
Definition truthy (v : value) : bool :=
  match v with
  | VUndefined | VNull | VNaN => false
  | VBool b => b
  | VNum n => negb (n =? 0)%Z
  | VStr s => negb (String.eqb s "")
  | VRef _ => true
  end.

(** [a === b]. *)
Definition strict_eq (a b : value) : bool :=
  match a, b with
  | VNaN, _ | _, VNaN => false
  | _, _ => bool_decide (a = b)
  end.

(** [Object.is(a, b)], the comparison React applies to hook dependencies. *)
Definition same_value (a b : value) : bool := bool_decide (a = b).

Definition nullish (v : value) : bool :=
  match v with VUndefined | VNull => true | _ => false end.

(** The heap maps the address of an object to its own properties. *)
Definition own_props (h : gmap loc (gmap string value)) (v : value)
  : gmap string value :=
  match v with
  | VRef l => default ∅ (h !! l)
  | _ => ∅
  end.

(** [v.k] for a [v] that is neither [null] nor [undefined]. *)
Definition get_field (h : gmap loc (gmap string value)) (v : value)
  (k : string) : value :=
  default VUndefined (own_props h v !! k).

(** What a call into user code (the selector, [store.getState]) does:
    it returns a value or throws one. *)
Inductive result :=
| Returns (v : value)
| Throws (e : value).

(** What a [throw] of this file carries. *)
Inductive thrown :=
| ThrowValue (e : value)      (* a caught or latched value thrown again *)
| ThrowError (msg : string)   (* throw new Error(msg) *)
| ThrowTypeError.             (* property read or call on null/undefined *)

Inductive completion (A : Type) :=
| Normal (a : A)
| Abrupt (t : thrown).
Arguments Normal {A} a.
Arguments Abrupt {A} t.

End JS.
Export JS.

(** ** The cells of one mounted instance and the monad over them *)

Module Machine.

(** The selector built by [selectorFactory(store.dispatch, options)]:
    [(state, ownProps) => childProps], which may throw. *)
Definition Selector : Type := value -> value -> result.

(** The reducer's action: [{ type: 'STORE_UPDATED', payload: { error } }]. *)
Record Payload := mkPayload { error : value }.
Record Action := mkAction { type : string; payload : Payload }.

#[global] Instance Payload_eq_dec : EqDecision Payload.
Proof. solve_decision. Defined.
#[global] Instance Action_eq_dec : EqDecision Action.
Proof. solve_decision. Defined.

(** The second component of the subscription memo: [null], or
    [subscription.notifyNestedSubs.bind(subscription)]. *)
Inductive callback :=
| NullCallback
| BoundNotifyNestedSubs (subscription : value).

(** Calls that leave the file. *)
Inductive event :=
| EGetState (store : value)                    (* store.getState() *)
| ESelector (state ownProps : value)           (* childPropsSelector(state, ownProps) *)
| ESelectorFactory (dispatch : value)          (* selectorFactory(store.dispatch, options) *)
| ENotifyNestedSubs (subscription : value)     (* notifyNestedSubs() *)
| EDispatch (a : Action)                       (* forceComponentUpdateDispatch(a) *)
| ETrySubscribe                                (* subscription.trySubscribe() *)
| ETryUnsubscribe.                             (* subscription.tryUnsubscribe() *)

#[global] Instance event_eq_dec : EqDecision event.
Proof. solve_decision. Defined.

(** The four [useRef] cells (their [.current]). *)
Record Refs := mkRefs {
  lastChildProps : value;
  lastWrapperProps : value;
  childPropsFromStoreUpdate : value;
  renderIsScheduled : bool
}.

(** The [let] variables captured by [checkForUpdates] and
    [unsubscribeWrapper]. *)
Record Closure := mkClosure {
  didUnsubscribe : bool;
  lastThrownError : value
}.

(** The [useMemo] cells of [ConnectFunction], each holding the
    dependencies and the value of its last computation.  The payload
    object of the reducer state is allocated by each dispatch, so the
    update count stands for its identity in the dependencies of the
    child-props memo. *)
Record Memos := mkMemos {
  memoProps : option (value * (value * value * value));
  memoContextToUse : option ((value * value) * value);
  memoChildPropsSelector : option (value * Selector);
  memoSubscription : option ((value * bool * value) * (value * callback));
  memoOverriddenContextValue : option ((bool * value * value) * value);
  memoActualChildProps : option ((value * nat * value) * value)
}.

Record Inst := mkInst {
  heap : gmap loc (gmap string value);
  memos : Memos;
  stateUpdates : option Payload * nat;   (* useReducer: [payload, updateCount] *)
  refsCreated : bool;                    (* the useRef cells exist *)
  refs : Refs;
  closure : Closure;
  onStateChange : bool                   (* subscription.onStateChange is checkForUpdates *)
}.

Definition set_lastChildProps (v : value) (r : Refs) : Refs :=
  mkRefs v (lastWrapperProps r) (childPropsFromStoreUpdate r) (renderIsScheduled r).
Definition set_lastWrapperProps (v : value) (r : Refs) : Refs :=
  mkRefs (lastChildProps r) v (childPropsFromStoreUpdate r) (renderIsScheduled r).
Definition set_childPropsFromStoreUpdate (v : value) (r : Refs) : Refs :=
  mkRefs (lastChildProps r) (lastWrapperProps r) v (renderIsScheduled r).
Definition set_renderIsScheduled (b : bool) (r : Refs) : Refs :=
  mkRefs (lastChildProps r) (lastWrapperProps r) (childPropsFromStoreUpdate r) b.

Definition set_didUnsubscribe (b : bool) (c : Closure) : Closure :=
  mkClosure b (lastThrownError c).
Definition set_lastThrownError (v : value) (c : Closure) : Closure :=
  mkClosure (didUnsubscribe c) v.

Definition with_heap (f : gmap loc (gmap string value) -> gmap loc (gmap string value))
  (s : Inst) : Inst :=
  mkInst (f (heap s)) (memos s) (stateUpdates s) (refsCreated s) (refs s)
    (closure s) (onStateChange s).
Definition with_memos (f : Memos -> Memos) (s : Inst) : Inst :=
  mkInst (heap s) (f (memos s)) (stateUpdates s) (refsCreated s) (refs s)
    (closure s) (onStateChange s).
Definition with_stateUpdates (f : option Payload * nat -> option Payload * nat)
  (s : Inst) : Inst :=
  mkInst (heap s) (memos s) (f (stateUpdates s)) (refsCreated s) (refs s)
    (closure s) (onStateChange s).
Definition with_refsCreated (b : bool) (s : Inst) : Inst :=
  mkInst (heap s) (memos s) (stateUpdates s) b (refs s) (closure s)
    (onStateChange s).
Definition with_refs (f : Refs -> Refs) (s : Inst) : Inst :=
  mkInst (heap s) (memos s) (stateUpdates s) (refsCreated s) (f (refs s))
    (closure s) (onStateChange s).
Definition with_closure (f : Closure -> Closure) (s : Inst) : Inst :=
  mkInst (heap s) (memos s) (stateUpdates s) (refsCreated s) (refs s)
    (f (closure s)) (onStateChange s).
Definition with_onStateChange (b : bool) (s : Inst) : Inst :=
  mkInst (heap s) (memos s) (stateUpdates s) (refsCreated s) (refs s)
    (closure s) b.

(** A computation runs from a state to a completion, the state it leaves
    (mutations survive a throw) and the calls it made, oldest first. *)
Record Res (A : Type) := mkRes {
  outcome : completion A;
  final : Inst;
  trace : list event
}.
Arguments mkRes {A} _ _ _.
Arguments outcome {A} _.
Arguments final {A} _.
Arguments trace {A} _.

Definition M (A : Type) : Type := Inst -> Res A.

Definition ret {A} (a : A) : M A := fun s => mkRes (Normal a) s [].

Definition bind {A B} (m : M A) (k : A -> M B) : M B := fun s =>
  match m s with
  | mkRes (Normal a) s1 t1 =>
      match k a s1 with
      | mkRes o s2 t2 => mkRes o s2 (t1 ++ t2)
      end
  | mkRes (Abrupt t) s1 t1 => mkRes (Abrupt t) s1 t1
  end.

Definition throw {A} (t : thrown) : M A := fun s => mkRes (Abrupt t) s [].
Definition emit (e : event) : M unit := fun s => mkRes (Normal tt) s [e].
Definition gets {A} (f : Inst -> A) : M A := fun s => mkRes (Normal (f s)) s [].
Definition modify (f : Inst -> Inst) : M unit := fun s => mkRes (Normal tt) (f s) [].

Declare Scope js_scope.
Delimit Scope js_scope with js.
Notation "x <- m ;; k" := (bind m (fun x => k))
  (at level 100, m at next level, right associativity) : js_scope.
Notation "m ;;; k" := (bind m (fun _ => k))
  (at level 100, right associativity) : js_scope.
Open Scope js_scope.

(** [if (c) { m }] *)
Definition when (c : bool) (m : M unit) : M unit := if c then m else ret tt.

(** A call into user code: logged, then its value or its exception. *)
Definition call (e : event) (r : result) : M value :=
  emit e ;;;
  match r with
  | Returns v => ret v
  | Throws x => throw (ThrowValue x)
  end.

(** [v.k]; a TypeError when [v] is null or undefined. *)
Definition read_prop (v : value) (k : string) : M value :=
  if nullish v then throw ThrowTypeError
  else h <- gets heap ;; ret (get_field h v k).

(** [new C(...)] and object literals: a fresh address holding [o]. *)
Definition alloc (o : gmap string value) : M value :=
  h <- gets heap ;;
  let l := fresh (dom h) in
  modify (with_heap (insert l o)) ;;;
  ret (VRef l).

End Machine.
Export Machine.

(** ** The functions of connectAdvanced.js *)

Module Connect.

(** What the surroundings answer at the moment of a call: the state each
    store returns, the value React's [useContext] yields for a context
    object, react-is's verdict on [<propsContext.Consumer />], and
    [process.env.NODE_ENV]. *)
Record World := mkWorld {
  getState : value -> result;
  useContext : value -> value;
  isContextConsumer : value -> bool;
  NODE_ENV : string
}.

(** The arguments of [connectAdvanced] that [ConnectFunction] closes over. *)
Record Config := mkConfig {
  selectorFactory : value -> Selector;
  displayName : string;
  shouldHandleStateChanges : bool;
  pure : bool;
  Context_ : value
}.

Definition initStateUpdates : option Payload * nat := (None, 0).

Definition storeStateUpdatesReducer (state : option Payload * nat)
  (action : Action) : option Payload * nat :=
  let updateCount := snd state in
  (Some (payload action), updateCount + 1).

(** React's dispatch of the [useReducer] cell. *)
Definition forceComponentUpdateDispatch (action : Action) : M unit :=
  emit (EDispatch action) ;;;
  modify (with_stateUpdates (fun state => storeStateUpdatesReducer state action)).

(** Calling the second component of the subscription memo. *)
Definition call_notifyNestedSubs (notifyNestedSubs : callback) : M unit :=
  match notifyNestedSubs with
  | BoundNotifyNestedSubs subscription => emit (ENotifyNestedSubs subscription)
  | NullCallback => throw ThrowTypeError
  end.

Definition captureWrapperProps (wrapperProps actualChildProps : value)
  (notifyNestedSubs : callback) : M unit :=
  modify (with_refs (set_lastWrapperProps wrapperProps)) ;;;
  modify (with_refs (set_lastChildProps actualChildProps)) ;;;
  modify (with_refs (set_renderIsScheduled false)) ;;;
  fromStore <- gets (fun s => childPropsFromStoreUpdate (refs s)) ;;
  when (truthy fromStore)
    (modify (with_refs (set_childPropsFromStoreUpdate VNull)) ;;;
     call_notifyNestedSubs notifyNestedSubs).

Definition checkForUpdates (w : World) (store : value)
  (childPropsSelector : Selector) (notifyNestedSubs : callback) : M unit :=
  unsubscribed <- gets (fun s => didUnsubscribe (closure s)) ;;
  if unsubscribed then ret tt
  else
    latestStoreState <- call (EGetState store) (getState w store) ;;
    ownProps <- gets (fun s => lastWrapperProps (refs s)) ;;
    emit (ESelector latestStoreState ownProps) ;;;
    (* let newChildProps, error; try { ... } catch (e) { ... } *)
    tried <-
      match childPropsSelector latestStoreState ownProps with
      | Returns v => ret (v, VUndefined)
      | Throws e =>
          modify (with_closure (set_lastThrownError e)) ;;;
          ret (VUndefined, e)
      end ;;
    let newChildProps := fst tried in
    let error := snd tried in
    when (negb (truthy error))
      (modify (with_closure (set_lastThrownError VNull))) ;;;
    last <- gets (fun s => lastChildProps (refs s)) ;;
    if strict_eq newChildProps last then
      scheduled <- gets (fun s => renderIsScheduled (refs s)) ;;
      when (negb scheduled) (call_notifyNestedSubs notifyNestedSubs)
    else
      modify (with_refs (set_lastChildProps newChildProps)) ;;;
      modify (with_refs (set_childPropsFromStoreUpdate newChildProps)) ;;;
      modify (with_refs (set_renderIsScheduled true)) ;;;
      forceComponentUpdateDispatch
        (mkAction "STORE_UPDATED" (mkPayload error)).

Definition unsubscribeWrapper : M unit :=
  modify (with_closure (set_didUnsubscribe true)) ;;;
  emit ETryUnsubscribe ;;;
  modify (with_onStateChange false) ;;;
  latched <- gets (fun s => lastThrownError (closure s)) ;;
  if truthy latched then throw (ThrowValue latched) else ret tt.

(** The effect returns [undefined] (false) when the instance does not
    handle state changes and [unsubscribeWrapper] (true) otherwise. *)
Definition subscribeUpdates (shouldHandleStateChanges : bool) (w : World)
  (store : value) (childPropsSelector : Selector)
  (notifyNestedSubs : callback) : M bool :=
  if negb shouldHandleStateChanges then ret false
  else
    modify (with_closure (fun _ => mkClosure false VNull)) ;;;
    modify (with_onStateChange true) ;;;
    emit ETrySubscribe ;;;
    checkForUpdates w store childPropsSelector notifyNestedSubs ;;;
    ret true.

(** *** Hooks *)

Definition set_memoProps (c : option (value * (value * value * value)))
  (m : Memos) : Memos :=
  mkMemos c (memoContextToUse m) (memoChildPropsSelector m) (memoSubscription m)
    (memoOverriddenContextValue m) (memoActualChildProps m).
Definition set_memoContextToUse (c : option ((value * value) * value))
  (m : Memos) : Memos :=
  mkMemos (memoProps m) c (memoChildPropsSelector m) (memoSubscription m)
    (memoOverriddenContextValue m) (memoActualChildProps m).
Definition set_memoChildPropsSelector (c : option (value * Selector))
  (m : Memos) : Memos :=
  mkMemos (memoProps m) (memoContextToUse m) c (memoSubscription m)
    (memoOverriddenContextValue m) (memoActualChildProps m).
Definition set_memoSubscription
  (c : option ((value * bool * value) * (value * callback))) (m : Memos) : Memos :=
  mkMemos (memoProps m) (memoContextToUse m) (memoChildPropsSelector m) c
    (memoOverriddenContextValue m) (memoActualChildProps m).
Definition set_memoOverriddenContextValue
  (c : option ((bool * value * value) * value)) (m : Memos) : Memos :=
  mkMemos (memoProps m) (memoContextToUse m) (memoChildPropsSelector m)
    (memoSubscription m) c (memoActualChildProps m).
Definition set_memoActualChildProps
  (c : option ((value * nat * value) * value)) (m : Memos) : Memos :=
  mkMemos (memoProps m) (memoContextToUse m) (memoChildPropsSelector m)
    (memoSubscription m) (memoOverriddenContextValue m) c.

(** React's [useMemo(callback, deps)] on one cell: the stored value when
    every dependency is the same as at the last computation, otherwise
    the callback's value, stored with the new dependencies. *)
Definition useMemo {D A : Type} (cell : Memos -> option (D * A))
  (set_cell : option (D * A) -> Memos -> Memos) (same : D -> D -> bool)
  (callback : M A) (deps : D) : M A :=
  let compute :=
    v <- callback ;;
    modify (with_memos (set_cell (Some (deps, v)))) ;;;
    ret v in
  stored <- gets (fun s => cell (memos s)) ;;
  match stored with
  | Some (d, v) => if same d deps then ret v else compute
  | None => compute
  end.

(** [const usePureOnlyMemo = pure ? useMemo : (callback) => callback()] *)
Definition usePureOnlyMemo {D A : Type} (pure : bool)
  (cell : Memos -> option (D * A))
  (set_cell : option (D * A) -> Memos -> Memos) (same : D -> D -> bool)
  (callback : M A) (deps : D) : M A :=
  if pure then useMemo cell set_cell same callback deps else callback.

Definition same_props_deps (a b : value) : bool := same_value a b.
Definition same_context_deps (a b : value * value) : bool :=
  same_value (fst a) (fst b) && same_value (snd a) (snd b).
Definition same_subscription_deps (a b : value * bool * value) : bool :=
  same_value (fst (fst a)) (fst (fst b)) && Bool.eqb (snd (fst a)) (snd (fst b))
  && same_value (snd a) (snd b).
Definition same_overridden_deps (a b : bool * value * value) : bool :=
  Bool.eqb (fst (fst a)) (fst (fst b)) && same_value (snd (fst a)) (snd (fst b))
  && same_value (snd a) (snd b).
Definition same_child_deps (a b : value * nat * value) : bool :=
  same_value (fst (fst a)) (fst (fst b)) && Nat.eqb (snd (fst a)) (snd (fst b))
  && same_value (snd a) (snd b).

(** *** ConnectFunction *)

Definition dquote : string := String (Ascii.ascii_of_nat 34) "".

Definition storeNotFoundMessage (displayName : string) : string :=
  "Could not find " ++ dquote ++ "store" ++ dquote ++ " in the context of "
  ++ dquote ++ displayName ++ dquote
  ++ ". Either wrap the root component in a <Provider>, "
  ++ "or pass a custom React context provider to <Provider> and the corresponding "
  ++ "React context consumer to " ++ displayName ++ " in connect options.".

(** [Boolean(props.store) && Boolean(props.store.getState) &&
    Boolean(props.store.dispatch)] *)
Definition storeCameFromProps (h : gmap loc (gmap string value))
  (props : value) : bool :=
  truthy (get_field h props "store")
  && truthy (get_field h (get_field h props "store") "getState")
  && truthy (get_field h (get_field h props "store") "dispatch").

(** [Boolean(contextValue) && Boolean(contextValue.store)] *)
Definition storeCameFromContext (h : gmap loc (gmap string value))
  (contextValue : value) : bool :=
  truthy contextValue && truthy (get_field h contextValue "store").

(** [const { reactReduxForwardedRef, ...wrapperProps } = props] *)
Definition restOfProps (h : gmap loc (gmap string value)) (props : value)
  : gmap string value :=
  delete "reactReduxForwardedRef" (own_props h props).

Definition createChildSelector (cfg : Config) (store : value) : M Selector :=
  dispatch <- read_prop store "dispatch" ;;
  emit (ESelectorFactory dispatch) ;;;
  ret (selectorFactory cfg dispatch).

(** Modelled from the spec: the class of [../utils/Subscription] is not
    among the sources.  A notification node is constructed from the
    store and the parent node it attaches to; the object keeps both. *)
Definition new_Subscription (store parentSub : value) : M value :=
  alloc (<["store" := store]> (<["parentSub" := parentSub]> ∅)).

(** Lines 295-302: the data props, memoized on the [props] object. *)
Definition useWrapperProps (props : value) : M (value * value * value) :=
  useMemo memoProps set_memoProps same_props_deps
    (h <- gets heap ;;
     let reactReduxForwardedRef := get_field h props "reactReduxForwardedRef" in
     wrapperProps <- alloc (restOfProps h props) ;;
     ret (get_field h props "context", reactReduxForwardedRef, wrapperProps))
    props.

(** Lines 305-315. *)
Definition useContextToUse (cfg : Config) (w : World) (propsContext : value)
  : M value :=
  useMemo memoContextToUse set_memoContextToUse same_context_deps
    (h <- gets heap ;;
     ret (if truthy propsContext
             && truthy (get_field h propsContext "Consumer")
             && isContextConsumer w (get_field h propsContext "Consumer")
          then propsContext else Context_ cfg))
    (propsContext, Context_ cfg).

(** Lines 328-351: [didStoreComeFromProps] and [store]. *)
Definition resolveStore (cfg : Config) (w : World)
  (props contextValue : value) : M (bool * value) :=
  h <- gets heap ;;
  let didStoreComeFromProps := storeCameFromProps h props in
  let didStoreComeFromContext := storeCameFromContext h contextValue in
  when (negb (String.eqb (NODE_ENV w) "production")
        && negb didStoreComeFromProps && negb didStoreComeFromContext)
    (throw (ThrowError (storeNotFoundMessage (displayName cfg)))) ;;;
  store <-
    (if didStoreComeFromProps then read_prop props "store"
     else read_prop contextValue "store") ;;
  ret (didStoreComeFromProps, store).

(** Lines 360-380: [[subscription, notifyNestedSubs]]. *)
Definition useSubscription (cfg : Config) (store : value)
  (didStoreComeFromProps : bool) (contextValue : value)
  : M (value * callback) :=
  useMemo memoSubscription set_memoSubscription same_subscription_deps
    (if negb (shouldHandleStateChanges cfg) then ret (VNull, NullCallback)
     else
       parentSub <-
         (if didStoreComeFromProps then ret VNull
          else read_prop contextValue "subscription") ;;
       subscription <- new_Subscription store parentSub ;;
       ret (subscription, BoundNotifyNestedSubs subscription))
    (store, didStoreComeFromProps, contextValue).

(** Lines 384-398. *)
Definition useOverriddenContextValue (didStoreComeFromProps : bool)
  (contextValue subscription : value) : M value :=
  useMemo memoOverriddenContextValue set_memoOverriddenContextValue
    same_overridden_deps
    (if didStoreComeFromProps then ret contextValue
     else
       h <- gets heap ;;
       alloc (<["subscription" := subscription]> (own_props h contextValue)))
    (didStoreComeFromProps, contextValue, subscription).

(** Lines 402-408: the reducer cell, and the error it may carry. *)
Definition usePreviousStateUpdateResult : M (option Payload * nat) :=
  updates <- gets stateUpdates ;;
  let previousStateUpdateResult := fst updates in
  match previousStateUpdateResult with
  | Some p => when (truthy (error p)) (throw (ThrowValue (error p)))
  | None => ret tt
  end ;;;
  ret updates.

(** Lines 412-415: on the first render the four cells are created,
    [lastWrapperProps] with the current [wrapperProps]. *)
Definition useRefs (wrapperProps : value) : M unit :=
  created <- gets refsCreated ;;
  when (negb created)
    (modify (with_refs (fun _ => mkRefs VUndefined wrapperProps VUndefined false)) ;;;
     modify (with_refsCreated true)).

(** Lines 428-439: the callback handed to [usePureOnlyMemo]. *)
Definition computeChildProps (w : World) (store : value)
  (childPropsSelector : Selector) (wrapperProps : value) : M value :=
  fromStore <- gets (fun s => childPropsFromStoreUpdate (refs s)) ;;
  lastProps <- gets (fun s => lastWrapperProps (refs s)) ;;
  if truthy fromStore && strict_eq wrapperProps lastProps then ret fromStore
  else
    state <- call (EGetState store) (getState w store) ;;
    call (ESelector state wrapperProps) (childPropsSelector state wrapperProps).

(** Lines 417-440. *)
Definition useActualChildProps (cfg : Config) (w : World) (store : value)
  (childPropsSelector : Selector) (updateCount : nat) (wrapperProps : value)
  : M value :=
  usePureOnlyMemo (pure cfg) memoActualChildProps set_memoActualChildProps
    same_child_deps
    (computeChildProps w store childPropsSelector wrapperProps)
    (store, updateCount, wrapperProps).

(** What [ConnectFunction] returns and what it hands to its two layout
    effects.  [provider] is [Some (ContextToUse, overriddenContextValue)]
    when the child is wrapped in [<ContextToUse.Provider value=...>].
    The two [useMemo] cells that only keep the identity of the React
    elements are left out. *)
Record Rendered := mkRendered {
  childProps : value;                               (* {...actualChildProps} *)
  childRef : value;                                 (* ref={reactReduxForwardedRef} *)
  provider : option (value * value);
  captureArgs : value * value * callback;           (* wrapperProps, actualChildProps, notifyNestedSubs *)
  subscribeArgs : value * value * Selector * callback  (* store, subscription, childPropsSelector, notifyNestedSubs *)
}.

Definition ConnectFunction (cfg : Config) (w : World) (props : value)
  : M Rendered :=
  destructured <- useWrapperProps props ;;
  let propsContext := fst (fst destructured) in
  let reactReduxForwardedRef := snd (fst destructured) in
  let wrapperProps := snd destructured in
  ContextToUse <- useContextToUse cfg w propsContext ;;
  let contextValue := useContext w ContextToUse in
  resolved <- resolveStore cfg w props contextValue ;;
  let didStoreComeFromProps := fst resolved in
  let store := snd resolved in
  childPropsSelector <-
    useMemo memoChildPropsSelector set_memoChildPropsSelector same_value
      (createChildSelector cfg store) store ;;
  sub <- useSubscription cfg store didStoreComeFromProps contextValue ;;
  let subscription := fst sub in
  let notifyNestedSubs := snd sub in
  overriddenContextValue <-
    useOverriddenContextValue didStoreComeFromProps contextValue subscription ;;
  updates <- usePreviousStateUpdateResult ;;
  useRefs wrapperProps ;;;
  actualChildProps <-
    useActualChildProps cfg w store childPropsSelector (snd updates) wrapperProps ;;
  ret (mkRendered actualChildProps reactReduxForwardedRef
         (if shouldHandleStateChanges cfg
          then Some (ContextToUse, overriddenContextValue) else None)
         (wrapperProps, actualChildProps, notifyNestedSubs)
         (store, subscription, childPropsSelector, notifyNestedSubs)).

(** The commit of a render: React runs the layout effect
    [captureWrapperProps] with the arguments that render gave it. *)
Definition commit (r : Rendered) : M unit :=
  captureWrapperProps (fst (fst (captureArgs r))) (snd (fst (captureArgs r)))
    (snd (captureArgs r)).

End Connect.
Export Connect.

(** The functions of the source are unfolded on request only. *)
Arguments checkForUpdates : simpl never.
Arguments captureWrapperProps : simpl never.
Arguments unsubscribeWrapper : simpl never.
Arguments subscribeUpdates : simpl never.
Arguments ConnectFunction : simpl never.

(** ** Reading a trace *)

Module Trace.

Definition is_dispatch (e : event) : bool :=
  match e with EDispatch _ => true | _ => false end.
Definition is_notify (e : event) : bool :=
  match e with ENotifyNestedSubs _ => true | _ => false end.
Definition is_selector (e : event) : bool :=
  match e with ESelector _ _ => true | _ => false end.

(** Re-renders requested of React, cascades to the nested subscriptions
    and runs of the selector. *)
Definition rendersRequested (t : list event) : nat :=
  length (List.filter is_dispatch t).
Definition cascades (t : list event) : nat :=
  length (List.filter is_notify t).
Definition derivations (t : list event) : nat :=
  length (List.filter is_selector t).

End Trace.
Export Trace.

(** ** Derived notions used in the statements *)

(** What [checkForUpdates] holds in [newChildProps] and [error] after its
    try/catch. *)
Definition newChildPropsOf (r : result) : value :=
  match r with Returns v => v | Throws _ => VUndefined end.
Definition errorOf (r : result) : value :=
  match r with Returns _ => VUndefined | Throws e => e end.

(** The value of [lastThrownError] after the try/catch and the
    [if (!error)] that follows it. *)
Definition latchAfter (r : result) : value :=
  if truthy (errorOf r) then errorOf r else VNull.

(** Store notifications arriving one after the other, each finding the
    store as the world of that moment has it. *)
Fixpoint notifications (ws : list World) (store : value)
  (childPropsSelector : Selector) (notifyNestedSubs : callback) : M unit :=
  match ws with
  | [] => ret tt
  | w :: ws' =>
      checkForUpdates w store childPropsSelector notifyNestedSubs ;;;
      notifications ws' store childPropsSelector notifyNestedSubs
  end.

(** What can happen to a subscribed instance between two renders: the
    store notifies it, or a render commits. *)
Inductive happening :=
| StoreNotifies (w : World)
| RenderCommits (wrapperProps actualChildProps : value).


Fixpoint happen (xs : list happening) (store : value)
  (childPropsSelector : Selector) (notifyNestedSubs : callback) : M unit :=
  match xs with
  | [] => ret tt
  | StoreNotifies w :: xs' =>
      checkForUpdates w store childPropsSelector notifyNestedSubs ;;;
      happen xs' store childPropsSelector notifyNestedSubs
  | RenderCommits wrapperProps actualChildProps :: xs' =>
      captureWrapperProps wrapperProps actualChildProps notifyNestedSubs ;;;
      happen xs' store childPropsSelector notifyNestedSubs
  end.

(** A value is allocated when it is a primitive or the address of an
    object of the heap. *)
Definition allocated (h : gmap loc (gmap string value)) (v : value) : Prop :=
  match v with VRef l => is_Some (h !! l) | _ => True end.

#[global] Instance allocated_dec h v : Decision (allocated h v).
Proof. destruct v; cbn; apply _. Defined.

(** The rule of section 4.4 of the specification for the merged props of
    a render, in its own words: the pending store-derived props if such
    a value exists and the owner props are reference-equal to the last
    rendered ones, otherwise the derivation function on the store's
    current state and the current owner props. *)
Definition specMergedProps (w : World) (store : value)
  (derive : Selector) (r : Refs) (ownerProps : value) : result :=
  if truthy (childPropsFromStoreUpdate r)
     && strict_eq ownerProps (lastWrapperProps r)
  then Returns (childPropsFromStoreUpdate r)
  else
    match getState w store with
    | Returns state => derive state ownerProps
    | Throws e => Throws e
    end.

(** The merged props a render hands to the wrapped component, if it
    returns. *)
Definition renderedChildProps (r : Res Rendered) : option value :=
  match outcome r with
  | Normal x => Some (childProps x)
  | Abrupt _ => None
  end.

(** What is pending was derived by [derive] from the recorded owner
    props. *)
Definition pendingFromRecorded (derive : Selector) (r : Refs) : Prop :=
  truthy (childPropsFromStoreUpdate r) = true ->
  exists state,
    derive state (lastWrapperProps r) = Returns (childPropsFromStoreUpdate r).

(** The completion of a render-time call into user code. *)
Definition completionOf (r : result) : completion value :=
  match r with
  | Returns v => Normal v
  | Throws e => Abrupt (ThrowValue e)
  end.

(** What a [useMemo] cell answers for the dependencies [deps]: its value
    on a hit, nothing when the callback has to run. *)
Definition cellHits {D A : Type} (cell : option (D * A)) (same : D -> D -> bool)
  (deps : D) : option A :=
  match cell with
  | Some (d, v) => if same d deps then Some v else None
  | None => None
  end.

(** The cells that no hook but [useRef] writes during a render. *)
Definition cells (s : Inst) :=
  (stateUpdates s, refsCreated s, refs s, closure s, onStateChange s).

(** The state in which the child props are computed: on the first
    render [useRef] has just created the four cells. *)
Definition refsAtRender (s : Inst) (wrapperProps : value) : Inst :=
  if refsCreated s then s
  else with_refsCreated true
         (with_refs (fun _ => mkRefs VUndefined wrapperProps VUndefined false) s).

(** *** What the memo cells hold

    A cell written by an earlier render holds what its callback computed
    from the dependencies stored with it.  The three predicates below say
    so for the cells whose values are objects of the heap; they hold of
    an unmounted instance and every render that returns keeps them. *)

Definition propsCellOk (s : Inst) : Prop :=
  match memoProps (memos s) with
  | Some (p, (c, f, W)) =>
      allocated (heap s) p /\ allocated (heap s) W
      /\ own_props (heap s) W = restOfProps (heap s) p
      /\ c = get_field (heap s) p "context"
      /\ f = get_field (heap s) p "reactReduxForwardedRef"
  | None => True
  end.

(** [v] is the pair lines 361-379 build for a store, its source and the
    context value: no node at all, or a node that keeps the store and,
    as its parent, [null] or the subscription of the context value. *)
Definition nodeOk (cfg : Config) (h : gmap loc (gmap string value))
  (store : value) (fromProps : bool) (contextValue : value)
  (v : value * callback) : Prop :=
  if shouldHandleStateChanges cfg then
    (exists l, fst v = VRef l
       /\ h !! l = Some (<["store" := store]>
                          (<["parentSub" := if fromProps then VNull
                                            else get_field h contextValue "subscription"]> ∅)))
    /\ snd v = BoundNotifyNestedSubs (fst v)
  else v = (VNull, NullCallback).

Definition subscriptionCellOk (cfg : Config) (s : Inst) : Prop :=
  match memoSubscription (memos s) with
  | Some ((st, d, cv), v) =>
      nodeOk cfg (heap s) st d cv v /\ (d = false -> allocated (heap s) cv)
  | None => True
  end.

(** [v] is what lines 385-397 build: the context value itself, or a new
    object with its properties and [subscription] replaced. *)
Definition providesOk (h : gmap loc (gmap string value)) (fromProps : bool)
  (contextValue subscription v : value) : Prop :=
  if fromProps then v = contextValue
  else exists l, v = VRef l
         /\ h !! l = Some (<["subscription" := subscription]> (own_props h contextValue)).

Definition overriddenCellOk (s : Inst) : Prop :=
  match memoOverriddenContextValue (memos s) with
  | Some ((d, cv, sub), v) =>
      providesOk (heap s) d cv sub v /\ (d = false -> allocated (heap s) cv)
  | None => True
  end.

(** The inputs of a render are live: the props object, the value of its
    [store] property and whatever [useContext] yields are primitives or
    objects of the heap, and the memo cells hold what earlier renders
    computed. *)
Definition renderable (cfg : Config) (w : World) (props : value) (s : Inst)
  : Prop :=
  allocated (heap s) props
  /\ allocated (heap s) (get_field (heap s) props "store")
  /\ (forall c, allocated (heap s) (useContext w c))
  /\ propsCellOk s /\ subscriptionCellOk cfg s /\ overriddenCellOk s.

(** ** A concrete instance *)

Module Example.

(** Addresses: 1 the store, 2 the context value of the Provider, 3 the
    default context, 4 the Provider's subscription, 5 the props object,
    6 a props object that carries the store at 14, 8 a forwarded ref,
    9 a custom context, 10-13 functions and consumers, 20-21 child
    props, 30-31 errors. *)
Definition store : value := VRef 1.
Definition A0 : value := VRef 20.
Definition A1 : value := VRef 21.
Definition e1 : value := VRef 30.
Definition e2 : value := VRef 31.

Definition h0 : gmap loc (gmap string value) :=
  list_to_map
    [ (1, list_to_map [("getState", VRef 10); ("dispatch", VRef 11)]);
      (2, list_to_map [("store", VRef 1); ("subscription", VRef 4)]);
      (3, list_to_map [("Consumer", VRef 12)]);
      (4, list_to_map [("store", VRef 1); ("parentSub", VNull)]);
      (5, list_to_map [("a", VNum 7); ("context", VRef 9);
                       ("reactReduxForwardedRef", VRef 8)]);
      (6, list_to_map [("a", VNum 7); ("store", VRef 14)]);
      (14, list_to_map [("getState", VRef 10); ("dispatch", VRef 11)]);
      (8, list_to_map [("current", VNull)]);
      (9, list_to_map [("Consumer", VRef 13)]);
      (10, ∅); (11, ∅); (12, ∅); (13, ∅);
      (20, list_to_map [("a", VNum 7); ("count", VNum 0)]);
      (21, list_to_map [("a", VNum 7); ("count", VNum 1)]);
      (30, list_to_map [("message", VStr "bad state 2")]);
      (31, list_to_map [("message", VStr "bad state 3")]) ].

(** A mapState that throws on the states 2 and 3. *)
Definition selector : Selector := fun state _ =>
  match state with
  | VNum 1 => Returns A1
  | VNum 2 => Throws e1
  | VNum 3 => Throws e2
  | _ => Returns A0
  end.

(** The world in which the store holds the state [n]; both contexts are
    provided with the context value at address 2. *)
Definition world (n : Z) : World :=
  mkWorld (fun _ => Returns (VNum n)) (fun _ => VRef 2)
    (fun c => bool_decide (c = VRef 12) || bool_decide (c = VRef 13))
    "development".

(** A world without any Provider. *)
Definition orphan (env : string) : World :=
  mkWorld (fun _ => Returns (VNum 0)) (fun _ => VNull) (fun _ => false) env.

Definition config (pure_ : bool) : Config :=
  mkConfig (fun _ => selector) "Connect(Counter)" true pure_ (VRef 3).

Definition props : value := VRef 5.
Definition propsWithStore : value := VRef 6.

Definition unmounted : Inst :=
  mkInst h0 (mkMemos None None None None None None) initStateUpdates false
    (mkRefs VUndefined VUndefined VUndefined false) (mkClosure false VNull) false.

(** Render, then the two layout effects of the commit in their order. *)
Definition renderAndCommit (cfg : Config) (w : World) (p : value)
  (subscribe : bool) : M unit :=
  r <- ConnectFunction cfg w p ;;
  commit r ;;;
  if subscribe then
    subscribeUpdates (shouldHandleStateChanges cfg) w
      (fst (fst (fst (subscribeArgs r)))) (snd (fst (subscribeArgs r)))
      (snd (subscribeArgs r)) ;;;
    ret tt
  else ret tt.

(** The instance mounted and subscribed while the store held state 0. *)
Definition mounted (pure_ : bool) : Inst :=
  final (renderAndCommit (config pure_) (world 0) props true unmounted).

(** The notifier bound to the subscription that the first render
    creates, at address 33. *)
Definition notifier : callback := BoundNotifyNestedSubs (VRef 33).

(** A live instance whose last committed render showed [A0] for the
    owner props at address 5. *)
Definition live (scheduled : bool) : Inst :=
  mkInst h0 (mkMemos None None None None None None) initStateUpdates true
    (mkRefs A0 (VRef 5) VUndefined scheduled) (mkClosure false VNull) true.

(** The first render of the instance, and the same with props that
    carry a store. *)
Definition firstRender : Res Rendered :=
  ConnectFunction (config true) (world 0) props unmounted.
Definition firstRenderWithStore : Res Rendered :=
  ConnectFunction (config true) (world 0) propsWithStore unmounted.

(** What a render returned; the placeholder stands for a render that
    threw. *)
Definition rendered (r : Res Rendered) : Rendered :=
  match outcome r with
  | Normal x => x
  | Abrupt _ =>
      mkRendered VUndefined VUndefined None (VUndefined, VUndefined, NullCallback)
        (VUndefined, VUndefined, fun _ _ => Returns VUndefined, NullCallback)
  end.

End Example.

(** ** Further notions

    The effects of the mount, the calls of the selector factory, the
    options of [connectAdvanced] and the component [wrapWithConnect]
    builds. *)



(** Lines 446-472: at the mount React runs the two layout effects in
    the order the component declares them, [captureWrapperProps] and
    then [subscribeUpdates]; [w] answers for the store at that moment. *)
Definition mountEffects (cfg : Config) (w : World) (r : Rendered) : M bool :=
  commit r ;;;
  subscribeUpdates (shouldHandleStateChanges cfg) w
    (fst (fst (fst (subscribeArgs r)))) (snd (fst (subscribeArgs r)))
    (snd (subscribeArgs r)).

(** The child-props cell was written by an earlier render: the update
    count stored with it is not ahead of the reducer's. *)
Definition childPropsCellOk (s : Inst) : Prop :=
  match memoActualChildProps (memos s) with
  | Some ((_, n, _), _) => n <= snd (stateUpdates s)
  | None => True
  end.

(** Lines 310-314: the context an instance reads and provides. *)
Definition contextRule (cfg : Config) (w : World)
  (h : gmap loc (gmap string value)) (propsContext : value) : value :=
  if truthy propsContext
     && truthy (get_field h propsContext "Consumer")
     && isContextConsumer w (get_field h propsContext "Consumer")
  then propsContext else Context_ cfg.

(** ** connectAdvanced and wrapWithConnect *)

Module Wrap.

(** What the surroundings of [wrapWithConnect] answer: react-is's
    [isValidElementType], [JSON.stringify], the string conversion of a
    number or an object, and a call of the [getDisplayName] the caller
    supplied. *)
Record Host := mkHost {
  isValidElementType : value -> bool;
  JSON_stringify : value -> result;
  toStringOf : value -> completion string;
  callFunction : value -> value -> completion value
}.

(** [String(v)], and the conversion a template literal applies. *)
Definition ToString (host : Host) (v : value) : completion string :=
  match v with
  | VStr s => Normal s
  | VUndefined => Normal "undefined"
  | VNull => Normal "null"
  | VBool true => Normal "true"
  | VBool false => Normal "false"
  | VNaN => Normal "NaN"
  | VNum _ | VRef _ => toStringOf host v
  end.

(** [a || b] *)
Definition orElse (a b : value) : value := if truthy a then a else b.

(** What an option holds: a value the caller gave, or the arrow function
    of line 179. *)
Inductive optionValue :=
| Given (v : value)
| DefaultGetDisplayName.

(** The second parameter of [connectAdvanced] after its destructuring. *)
Record Options := mkOptions {
  getDisplayName : optionValue;
  methodName : value;
  renderCountProp : value;
  shouldHandleStateChanges : value;
  storeKey : value;
  withRef : value;
  forwardRef : value;
  context : value;
  connectOptions : gmap string value
}.

(** The names the parameter pattern of lines 175-213 binds; the other
    properties go to [connectOptions]. *)
Definition optionNames : list string :=
  ["getDisplayName"; "methodName"; "renderCountProp";
   "shouldHandleStateChanges"; "storeKey"; "withRef"; "forwardRef"; "context"].

(** [{ name = dflt }]: the default applies when the property is
    [undefined]. *)
Definition orDefault (v dflt : value) : value :=
  if bool_decide (v = VUndefined) then dflt else v.

(** The pattern [{ ... } = {}]: an omitted argument is the empty object,
    [null] cannot be destructured. *)
Definition destructure (h : gmap loc (gmap string value))
  (ReactReduxContext options : value) : completion Options :=
  if bool_decide (options = VNull) then Abrupt ThrowTypeError
  else
    let given := own_props h options in
    let get k := default VUndefined (given !! k) in
    Normal
      (mkOptions
         (if bool_decide (get "getDisplayName" = VUndefined)
          then DefaultGetDisplayName else Given (get "getDisplayName"))
         (orDefault (get "methodName") (VStr "connectAdvanced"))
         (orDefault (get "renderCountProp") VUndefined)
         (orDefault (get "shouldHandleStateChanges") (VBool true))
         (orDefault (get "storeKey") (VStr "store"))
         (orDefault (get "withRef") (VBool false))
         (orDefault (get "forwardRef") (VBool false))
         (orDefault (get "context") ReactReduxContext)
         (foldr delete given optionNames)).

Definition renderCountPropRemoved : string :=
  "renderCountProp is removed. render counting is built into the latest React Dev Tools profiling extension".

Definition withRefRemoved : string :=
  "withRef is removed. To access the wrapped instance, use a ref on the connected component".

Definition customStoreWarningMessage : string :=
  "To use a custom Redux store for specific components, create a custom React context with "
  ++ "React.createContext(), and pass the context object to React Redux's Provider and specific components"
  ++ " like: <Provider context={MyContext}><ConnectedComponent context={MyContext} /></Provider>. "
  ++ "You may also pass a {context : MyContext} option to connect".

Definition storeKeyRemoved : string :=
  "storeKey has been removed and does not do anything. "
  ++ customStoreWarningMessage.

(** Lines 155-241.  The function returned, [wrapWithConnect], closes
    over the destructured options; they stand for it. *)
Definition connectAdvanced (NODE_ENV : string)
  (h : gmap loc (gmap string value)) (ReactReduxContext options : value)
  : completion Options :=
  match destructure h ReactReduxContext options with
  | Abrupt t => Abrupt t
  | Normal o =>
      if negb (String.eqb NODE_ENV "production") then
        if negb (strict_eq (renderCountProp o) VUndefined)
        then Abrupt (ThrowError renderCountPropRemoved)
        else if truthy (withRef o)
        then Abrupt (ThrowError withRefRemoved)
        else if negb (strict_eq (storeKey o) (VStr "store"))
        then Abrupt (ThrowError storeKeyRemoved)
        else Normal o
      else Normal o
  end.

(** Lines 13-19. *)
Definition stringifyComponent (host : Host) (Comp : value) : completion value :=
  match JSON_stringify host Comp with
  | Returns v => Normal v
  | Throws _ =>
      match ToString host Comp with
      | Normal s => Normal (VStr s)
      | Abrupt t => Abrupt t
      end
  end.

Definition invalidComponentMessage (methodName received : string) : string :=
  "You must pass a component to the function returned by "
  ++ methodName ++ ". Instead received " ++ received.

(** [getDisplayName(name)]; the default is
    [(name) => `ConnectAdvanced(${name})`]. *)
Definition applyGetDisplayName (host : Host) (f : optionValue) (name : value)
  : completion value :=
  match f with
  | DefaultGetDisplayName =>
      match ToString host name with
      | Normal s => Normal (VStr ("ConnectAdvanced(" ++ s ++ ")"))
      | Abrupt t => Abrupt t
      end
  | Given g => callFunction host g name
  end.

(** Lines 262-272: the spread of [connectOptions], then the eight
    properties the literal names. *)
Definition selectorFactoryOptions (o : Options)
  (displayName wrappedComponentName WrappedComponent : value)
  : gmap string optionValue :=
  <["WrappedComponent" := Given WrappedComponent]>
    (<["wrappedComponentName" := Given wrappedComponentName]>
       (<["displayName" := Given displayName]>
          (<["storeKey" := Given (storeKey o)]>
             (<["shouldHandleStateChanges" := Given (shouldHandleStateChanges o)]>
                (<["renderCountProp" := Given (renderCountProp o)]>
                   (<["methodName" := Given (methodName o)]>
                      (<["getDisplayName" := getDisplayName o]>
                         (Given <$> connectOptions o)))))))).

(** What [wrapWithConnect] returns: the component [Connect], or its
    [React.forwardRef] wrapper, with the two statics it sets, and what
    [ConnectFunction] closes over. *)
Record Connected := mkConnected {
  displayName : value;
  WrappedComponent : value;
  factoryOptions : gmap string optionValue;
  pure : value;
  forwardsRef : bool
}.

(** Lines 243-290 and 507-528.  [hoistStatics] returns its first
    argument; the statics it copies are not modelled. *)
Definition wrapWithConnect (NODE_ENV : string) (host : Host)
  (h : gmap loc (gmap string value)) (o : Options) (WrappedComponent : value)
  : completion Connected :=
  if negb (String.eqb NODE_ENV "production")
     && negb (isValidElementType host WrappedComponent)
  then
    match ToString host (methodName o) with
    | Abrupt t => Abrupt t
    | Normal name =>
        match stringifyComponent host WrappedComponent with
        | Abrupt t => Abrupt t
        | Normal c =>
            match ToString host c with
            | Abrupt t => Abrupt t
            | Normal received =>
                Abrupt (ThrowError (invalidComponentMessage name received))
            end
        end
    end
  else if nullish WrappedComponent then Abrupt ThrowTypeError
  else
    let wrappedComponentName :=
      orElse (get_field h WrappedComponent "displayName")
        (orElse (get_field h WrappedComponent "name") (VStr "Component")) in
    match applyGetDisplayName host (getDisplayName o) wrappedComponentName with
    | Abrupt t => Abrupt t
    | Normal displayName =>
        Normal
          (mkConnected displayName WrappedComponent
             (selectorFactoryOptions o displayName wrappedComponentName
                WrappedComponent)
             (default VUndefined (connectOptions o !! "pure"))
             (truthy (forwardRef o)))
    end.

(** Lines 516-521: [<Connect {...props} reactReduxForwardedRef={ref} />],
    the props object [Connect] is rendered with. *)
Definition forwardConnectRef (props ref : value) : M value :=
  h <- gets heap ;;
  alloc (<["reactReduxForwardedRef" := ref]> (own_props h props)).

End Wrap.

(** ** The concrete instance, continued *)

Module Scenario.

Import Example.

(** The instance after the commit of its first render. *)
Definition committed : Inst :=
  final (commit (rendered firstRender) (final firstRender)).

(** The store moves to state 1 and notifies the instance; React then
    renders it again with the same props object. *)
Abbreviation notified :=
  (final (checkForUpdates (world 1) store selector
            (BoundNotifyNestedSubs (VRef 33)) committed)).
Abbreviation secondRender :=
  (ConnectFunction (config true) (world 1) props notified).

(** The store moves to state 2, on which the selector throws. *)
Abbreviation failed :=
  (final (checkForUpdates (world 2) store selector
            (BoundNotifyNestedSubs (VRef 33)) committed)).

(** A store whose [getState] throws. *)
Definition broken : World :=
  mkWorld (fun _ => Throws e1) (fun _ => VRef 2) (fun _ => false) "development".

(** An instance that does not handle state changes, and its first
    render. *)
Definition quiet : Config :=
  mkConfig (fun _ => selector) "Connect(Counter)" false true (VRef 3).
Abbreviation quietRender :=
  (ConnectFunction quiet (world 0) props unmounted).

(** The props object a forwarding wrapper builds from the props at
    address 5 and the ref at address 8, and the render with it. *)
Abbreviation forwarded :=
  (Wrap.forwardConnectRef props (VRef 8) unmounted).
Abbreviation forwardedRender :=
  (ConnectFunction (config true) (world 0) (VRef 32) (final forwarded)).

(** Addresses 40-43: an options object, a component named Counter, a
    function and an anonymous component. *)
Definition hw : gmap loc (gmap string value) :=
  list_to_map
    [ (3, list_to_map [("Consumer", VRef 12)]);
      (40, list_to_map [("pure", VBool true); ("forwardRef", VBool true);
                        ("displayName", VStr "Ignored");
                        ("areStatesEqual", VRef 42)]);
      (41, list_to_map [("name", VStr "Counter")]);
      (42, ∅); (43, ∅) ].

(** Components are the objects at 41 and 43; [JSON.stringify] gives
    [undefined] for them and the digits for the number 5. *)
Definition host : Wrap.Host :=
  Wrap.mkHost
    (fun v => bool_decide (v = VRef 41) || bool_decide (v = VRef 43))
    (fun v => match v with VNum 5 => Returns (VStr "5") | _ => Returns VUndefined end)
    (fun _ => Normal "[object Object]")
    (fun _ _ => Abrupt ThrowTypeError).

(** What a call returned; the placeholder stands for a call that threw. *)
Definition returned {A : Type} (placeholder : A) (r : completion A) : A :=
  match r with Normal a => a | Abrupt _ => placeholder end.

Definition noOptions : Wrap.Options :=
  Wrap.mkOptions Wrap.DefaultGetDisplayName VUndefined VUndefined VUndefined
    VUndefined VUndefined VUndefined VUndefined ∅.
Definition noComponent : Wrap.Connected :=
  Wrap.mkConnected VUndefined VUndefined ∅ VUndefined false.

Definition options : Wrap.Options :=
  returned noOptions (Wrap.connectAdvanced "development" hw (VRef 3) (VRef 40)).
Definition connected : Wrap.Connected :=
  returned noComponent
    (Wrap.wrapWithConnect "development" host hw options (VRef 41)).

End Scenario.

(** * Properties *)

Ltac run :=
  unfold checkForUpdates, captureWrapperProps, unsubscribeWrapper,
    forceComponentUpdateDispatch, call_notifyNestedSubs, call, when,
    bind, ret, gets, modify, emit, throw; cbn.

(** ** Change detection, commit and teardown *)


Section Callbacks.

Variables (w : World) (store : value) (childPropsSelector : Selector)
  (subscription : value).

Let notifyNestedSubs := BoundNotifyNestedSubs subscription.

(** A live callback whose store read throws lets that exception through:
    the read is outside the try block. *)
Lemma checkForUpdates_getState_throws notify (s : Inst) e :
  didUnsubscribe (closure s) = false ->
  getState w store = Throws e ->
  checkForUpdates w store childPropsSelector notify s
  = mkRes (Abrupt (ThrowValue e)) s [EGetState store].
Proof. intros H G. run. rewrite H. cbn. rewrite G. reflexivity. Qed.

(** The pass that finds the output unchanged. *)
Lemma checkForUpdates_unchanged (s : Inst) state :
  didUnsubscribe (closure s) = false ->
  getState w store = Returns state ->
  let derived := childPropsSelector state (lastWrapperProps (refs s)) in
  strict_eq (newChildPropsOf derived) (lastChildProps (refs s)) = true ->
  checkForUpdates w store childPropsSelector notifyNestedSubs s
  = mkRes (Normal tt)
      (with_closure (set_lastThrownError (latchAfter derived)) s)
      ([EGetState store; ESelector state (lastWrapperProps (refs s))]
       ++ (if renderIsScheduled (refs s) then []
           else [ENotifyNestedSubs subscription])).
Proof.
  intros H G derived E. run. rewrite H. cbn. rewrite G. cbn.
  subst derived. unfold latchAfter.
  destruct (childPropsSelector state (lastWrapperProps (refs s))) as [v|e];
    cbn in *.
  - rewrite E. cbn. destruct (renderIsScheduled (refs s)); reflexivity.
  - destruct (truthy e); cbn; rewrite E; cbn;
      destruct (renderIsScheduled (refs s)); cbn; try reflexivity.
    all: destruct s as [? ? ? ? ? [? ?] ?]; reflexivity.
Qed.

(** The pass that finds the output changed. *)
Lemma checkForUpdates_changed (s : Inst) state :
  didUnsubscribe (closure s) = false ->
  getState w store = Returns state ->
  let derived := childPropsSelector state (lastWrapperProps (refs s)) in
  strict_eq (newChildPropsOf derived) (lastChildProps (refs s)) = false ->
  let action := mkAction "STORE_UPDATED" (mkPayload (errorOf derived)) in
  checkForUpdates w store childPropsSelector notifyNestedSubs s
  = mkRes (Normal tt)
      (with_stateUpdates (fun u => storeStateUpdatesReducer u action)
         (with_refs (fun r => mkRefs (newChildPropsOf derived)
                                (lastWrapperProps r) (newChildPropsOf derived) true)
            (with_closure (set_lastThrownError (latchAfter derived)) s)))
      [EGetState store; ESelector state (lastWrapperProps (refs s));
       EDispatch action].
Proof.
  intros H G derived E action. run. rewrite H. cbn. rewrite G. cbn.
  subst action derived. unfold latchAfter.
  destruct (childPropsSelector state (lastWrapperProps (refs s))) as [v|e];
    cbn in *.
  - rewrite E. reflexivity.
  - destruct (truthy e); cbn; rewrite E; cbn; try reflexivity.
    all: try (destruct s as [? ? ? ? ? [? ?] ?]; reflexivity).
Qed.

(** The post-commit step, whatever the state it finds. *)
Lemma captureWrapperProps_commits (s : Inst) wrapperProps actualChildProps :
  let pending := childPropsFromStoreUpdate (refs s) in
  captureWrapperProps wrapperProps actualChildProps notifyNestedSubs s
  = mkRes (Normal tt)
      (with_refs (fun _ => mkRefs actualChildProps wrapperProps
                             (if truthy pending then VNull else pending) false) s)
      (if truthy pending then [ENotifyNestedSubs subscription] else []).
Proof.
  intros pending. subst pending. run.
  destruct (truthy (childPropsFromStoreUpdate (refs s))); cbn;
    destruct s as [? ? ? ? [? ? ? ?] ? ?]; reflexivity.
Qed.




(** C8, as amended.  [lastChildProps] is written at two places.  The
    post-commit step sets it to the merged props of the render that
    committed.  A live change-detection pass whose derivation returns
    sets it at once to that output, before the render it schedules
    commits, and changes nothing when the output is reference-equal to
    the recorded value.  The teardown leaves it alone. *)
Theorem C8_lastChildProps_follows_latest_derivation (s : Inst) state v
  wrapperProps actualChildProps :
  didUnsubscribe (closure s) = false ->
  getState w store = Returns state ->
  childPropsSelector state (lastWrapperProps (refs s)) = Returns v ->
  let committed :=
    final (captureWrapperProps wrapperProps actualChildProps notifyNestedSubs s) in
  let pass := checkForUpdates w store childPropsSelector notifyNestedSubs s in
  lastChildProps (refs committed) = actualChildProps
  /\ lastChildProps (refs (final pass)) = v
  /\ (strict_eq v (lastChildProps (refs s)) = true -> refs (final pass) = refs s)
  /\ (strict_eq v (lastChildProps (refs s)) = false ->
      rendersRequested (trace pass) = 1
      /\ renderIsScheduled (refs (final pass)) = true)
  /\ refs (final (unsubscribeWrapper s)) = refs s.
Proof.
  intros H G D committed pass. subst committed pass.
  rewrite captureWrapperProps_commits.
  assert (T : refs (final (unsubscribeWrapper s)) = refs s).
  { run. destruct (truthy (lastThrownError (closure s))); reflexivity. }
  split; [reflexivity|].
  destruct (strict_eq v (lastChildProps (refs s))) eqn:E.
  - rewrite (checkForUpdates_unchanged s state H G); rewrite D; [|exact E].
    cbn. repeat split; try congruence.
    unfold strict_eq in E. destruct v, (lastChildProps (refs s));
      try discriminate; try reflexivity;
      apply bool_decide_eq_true in E; congruence.
  - rewrite (checkForUpdates_changed s state H G); rewrite D; [|exact E].
    cbn. repeat split; try congruence.
Qed.

(** C10.  The most recent change-detection pass of a live subscription
    decides what the teardown does, whatever renders and commits came
    after it.  The teardown marks the instance unsubscribed, detaches
    from the parent and clears the callback slot; then it throws the
    error of that pass if the derivation threw one, and returns normally
    if the derivation returned. *)
Theorem C10_teardown_rethrows_latched_error (s later : Inst) state :
  didUnsubscribe (closure s) = false ->
  getState w store = Returns state ->
  let pass := checkForUpdates w store childPropsSelector notifyNestedSubs s in
  closure later = closure (final pass) ->
  let down := unsubscribeWrapper later in
  didUnsubscribe (closure (final down)) = true
  /\ onStateChange (final down) = false
  /\ trace down = [ETryUnsubscribe]
  /\ match childPropsSelector state (lastWrapperProps (refs s)) with
     | Throws e => truthy e = true -> outcome down = Abrupt (ThrowValue e)
     | Returns _ => outcome down = Normal tt
     end.
Proof.
  intros H G pass L down.
  assert (C : lastThrownError (closure later)
              = latchAfter (childPropsSelector state (lastWrapperProps (refs s)))).
  { rewrite L. subst pass.
    destruct (strict_eq
                (newChildPropsOf (childPropsSelector state (lastWrapperProps (refs s))))
                (lastChildProps (refs s))) eqn:E.
    - rewrite (checkForUpdates_unchanged s state H G E). reflexivity.
    - rewrite (checkForUpdates_changed s state H G E). reflexivity. }
  subst down. run. rewrite C. unfold latchAfter.
  destruct (childPropsSelector state (lastWrapperProps (refs s))) as [v|e]; cbn.
  - repeat split.
  - destruct (truthy e) eqn:T; cbn; [rewrite T|]; cbn; repeat split.
    discriminate.
Qed.

End Callbacks.

(** The post-commit step records its two arguments whatever the
    notifier is. *)
Lemma captureWrapperProps_records notify (s : Inst) wrapperProps actualChildProps :
  let r := captureWrapperProps wrapperProps actualChildProps notify s in
  lastWrapperProps (refs (final r)) = wrapperProps
  /\ lastChildProps (refs (final r)) = actualChildProps
  /\ renderIsScheduled (refs (final r)) = false
  /\ truthy (childPropsFromStoreUpdate (refs (final r))) = false.
Proof.
  run. destruct (truthy (childPropsFromStoreUpdate (refs s))) eqn:T; cbn;
    [destruct notify|]; cbn; auto.
Qed.

Lemma strict_eq_true a b : strict_eq a b = true -> a = b.
Proof.
  unfold strict_eq. destruct a, b; try discriminate;
    intros E; apply bool_decide_eq_true in E; exact E.
Qed.

(** ** What is pending was derived from the recorded owner props *)

Lemma checkForUpdates_keeps_pending w store childPropsSelector notify (s : Inst) :
  pendingFromRecorded childPropsSelector (refs s) ->
  pendingFromRecorded childPropsSelector
    (refs (final (checkForUpdates w store childPropsSelector notify s))).
Proof.
  intros J. run. destruct (didUnsubscribe (closure s)); cbn; [exact J|].
  destruct (getState w store) as [state|e]; cbn; [|exact J].
  destruct (childPropsSelector state (lastWrapperProps (refs s))) as [v|e] eqn:D;
    cbn.
  - destruct (strict_eq v (lastChildProps (refs s))); cbn.
    + destruct (renderIsScheduled (refs s)); cbn; [exact J|].
      destruct notify; cbn; exact J.
    + intros _. cbn. eauto.
  - assert (K : forall c, pendingFromRecorded childPropsSelector
                (refs (final
                   ((if strict_eq VUndefined (lastChildProps (refs s))
                     then
                       scheduled <- gets (fun s0 => renderIsScheduled (refs s0)) ;;
                       when (negb scheduled) (call_notifyNestedSubs notify)
                     else
                       modify (with_refs (set_lastChildProps VUndefined)) ;;;
                       modify (with_refs (set_childPropsFromStoreUpdate VUndefined)) ;;;
                       modify (with_refs (set_renderIsScheduled true)) ;;;
                       forceComponentUpdateDispatch
                         (mkAction "STORE_UPDATED" (mkPayload e)))
                      (with_closure c s))))).
    { intros c. destruct (strict_eq VUndefined (lastChildProps (refs s))); run.
      - destruct (renderIsScheduled (refs s)); cbn; [exact J|].
        destruct notify; cbn; exact J.
      - intros [=]. }
    destruct (truthy e); cbn.
    + specialize (K (set_lastThrownError e)).
      destruct (_ (with_closure (set_lastThrownError e) s)); exact K.
    + specialize (K (fun c => set_lastThrownError VNull (set_lastThrownError e c))).
      destruct (_ (with_closure _ _)); exact K.
Qed.

Lemma captureWrapperProps_keeps_pending childPropsSelector notify (s : Inst)
  wrapperProps actualChildProps :
  pendingFromRecorded childPropsSelector
    (refs (final (captureWrapperProps wrapperProps actualChildProps notify s))).
Proof.
  intros T.
  destruct (captureWrapperProps_records notify s wrapperProps actualChildProps)
    as (_ & _ & _ & F).
  cbn zeta in F. congruence.
Qed.

(** Whatever happens to a subscribed instance between two renders keeps
    the pending props derived from the recorded owner props. *)
Lemma happen_keeps_pending store childPropsSelector notify
  (xs : list happening) : forall s : Inst,
  pendingFromRecorded childPropsSelector (refs s) ->
  pendingFromRecorded childPropsSelector
    (refs (final (happen xs store childPropsSelector notify s))).
Proof.
  induction xs as [|[w|wp acp] xs IH]; intros s J; cbn; [exact J| |].
  - unfold bind.
    pose proof (checkForUpdates_keeps_pending w store childPropsSelector notify
                  s J) as J1.
    destruct (checkForUpdates w store childPropsSelector notify s)
      as [[[]|e] s1 t1]; cbn in *; [|exact J1].
    specialize (IH s1 J1).
    destruct (happen xs store childPropsSelector notify s1); exact IH.
  - unfold bind.
    pose proof (captureWrapperProps_keeps_pending childPropsSelector notify s
                  wp acp) as J1.
    destruct (captureWrapperProps wp acp notify s) as [[[]|e] s1 t1];
      cbn in *; [|exact J1].
    specialize (IH s1 J1).
    destruct (happen xs store childPropsSelector notify s1); exact IH.
Qed.

(** The rule of section 4.4 yields a value the selector gives for the
    current owner props. *)
Lemma specMergedProps_derived w store derive (r : Refs) ownerProps v :
  specMergedProps w store derive r ownerProps = Returns v ->
  pendingFromRecorded derive r ->
  exists state, derive state ownerProps = Returns v.
Proof.
  unfold specMergedProps, pendingFromRecorded.
  destruct (truthy (childPropsFromStoreUpdate r)) eqn:T; cbn.
  - destruct (strict_eq ownerProps (lastWrapperProps r)) eqn:E.
    + apply strict_eq_true in E. subst ownerProps.
      intros [= <-] J. exact (J eq_refl).
    + destruct (getState w store); [eauto|discriminate].
  - destruct (getState w store); [eauto|discriminate].
Qed.

(** Updates that leave the output as it is, arriving while no render is
    scheduled: no render is requested and each of them cascades once. *)
Lemma unchanged_notifications store childPropsSelector subscription
  (ws : list World) : forall s : Inst,
  didUnsubscribe (closure s) = false ->
  renderIsScheduled (refs s) = false ->
  Forall (fun w' => exists state u,
            getState w' store = Returns state
            /\ childPropsSelector state (lastWrapperProps (refs s)) = Returns u
            /\ strict_eq u (lastChildProps (refs s)) = true) ws ->
  let r := notifications ws store childPropsSelector
             (BoundNotifyNestedSubs subscription) s in
  outcome r = Normal tt
  /\ rendersRequested (trace r) = 0
  /\ cascades (trace r) = length ws
  /\ refs (final r) = refs s.
Proof.
  induction ws as [|w' ws IH]; intros s U R F; cbn.
  - repeat split.
  - inversion F as [|? ? (state & u & G & D & E) F']; subst.
    unfold bind.
    rewrite (checkForUpdates_unchanged w' store childPropsSelector subscription
               s state U G); rewrite D; [|exact E].
    rewrite R.
    set (s1 := with_closure _ s).
    specialize (IH s1 U R F').
    destruct (notifications ws store childPropsSelector _ s1) as [o s2 t2].
    cbn in *. destruct IH as (-> & Rq & Ca & Rf).
    repeat split; auto.
Qed.

(** C1.  A store notification reaches a subscribed instance that is not
    torn down; the derivation function returns a value reference-equal to
    the recorded last merged props.  Then the callback returns normally,
    requests no re-render and leaves the hook cells as they were, and it
    calls [notifyNestedSubs] exactly when no render is scheduled: once
    in that case, not at all otherwise.  So when no render is scheduled,
    any number of such unchanged updates request no render and cascade
    exactly once each. *)
Theorem C1_unchanged_output_cascades_without_render
  (w : World) (store : value) (childPropsSelector : Selector)
  (subscription : value) (s : Inst) state v :
  didUnsubscribe (closure s) = false ->
  getState w store = Returns state ->
  childPropsSelector state (lastWrapperProps (refs s)) = Returns v ->
  strict_eq v (lastChildProps (refs s)) = true ->
  let notifyNestedSubs := BoundNotifyNestedSubs subscription in
  let r := checkForUpdates w store childPropsSelector notifyNestedSubs s in
  (outcome r = Normal tt
   /\ rendersRequested (trace r) = 0
   /\ stateUpdates (final r) = stateUpdates s
   /\ refs (final r) = refs s
   /\ (In (ENotifyNestedSubs subscription) (trace r)
       <-> renderIsScheduled (refs s) = false)
   /\ cascades (trace r) = (if renderIsScheduled (refs s) then 0 else 1))
  /\ (renderIsScheduled (refs s) = false ->
      forall ws : list World,
        Forall (fun w' => exists state' u,
                  getState w' store = Returns state'
                  /\ childPropsSelector state' (lastWrapperProps (refs s))
                     = Returns u
                  /\ strict_eq u (lastChildProps (refs s)) = true) ws ->
        let rs := notifications ws store childPropsSelector notifyNestedSubs s in
        outcome rs = Normal tt
        /\ rendersRequested (trace rs) = 0
        /\ cascades (trace rs) = length ws
        /\ refs (final rs) = refs s).
Proof.
  intros H G D E notifyNestedSubs r. split.
  - subst r notifyNestedSubs.
    rewrite (checkForUpdates_unchanged w store childPropsSelector subscription
               s state H G); rewrite D; [|exact E].
    cbn. destruct (renderIsScheduled (refs s)); cbn;
      repeat split; auto; intros; intuition congruence.
  - intros R ws F. apply unchanged_notifications; assumption.
Qed.

(** *** The callbacks on the concrete instance *)

Section CallbackExamples.

Import Example.

Lemma C1_witness :
  let s := live false in
  (didUnsubscribe (closure s) = false
   /\ getState (world 0) store = Returns (VNum 0)
   /\ selector (VNum 0) (lastWrapperProps (refs s)) = Returns A0
   /\ strict_eq A0 (lastChildProps (refs s)) = true)
  /\ (let r := checkForUpdates (world 0) store selector notifier s in
      outcome r = Normal tt
      /\ rendersRequested (trace r) = 0
      /\ stateUpdates (final r) = stateUpdates s
      /\ refs (final r) = refs s
      /\ (In (ENotifyNestedSubs (VRef 33)) (trace r)
          <-> renderIsScheduled (refs s) = false)
      /\ cascades (trace r) = (if renderIsScheduled (refs s) then 0 else 1))
  /\ (let rs := notifications [world 0; world 4; world 0] store selector
                  notifier s in
      outcome rs = Normal tt
      /\ rendersRequested (trace rs) = 0
      /\ cascades (trace rs) = 3
      /\ refs (final rs) = refs s).
Proof.
  split; [repeat split|].
  pose proof (C1_unchanged_output_cascades_without_render (world 0) store
                selector (VRef 33) (live false) (VNum 0) A0
                eq_refl eq_refl eq_refl eq_refl) as [One Many].
  split; [exact One|].
  apply (Many eq_refl [world 0; world 4; world 0]).
  repeat constructor.
  - exists (VNum 0), A0. repeat split.
  - exists (VNum 4), A0. repeat split.
  - exists (VNum 0), A0. repeat split.
Defined.

(** C8, as stated, fails.  The instance is mounted and its committed
    render showed [A0]; the store then moves to a state for which the
    derivation returns [A1].  After the change-detection pass, and
    before any render has committed, the recorded last merged props are
    [A1]. *)
Lemma C8_counterexample :
  let committed := mounted true in
  let pass := checkForUpdates (world 1) store selector notifier committed in
  renderedChildProps (ConnectFunction (config true) (world 0) props unmounted)
    = Some A0
  /\ lastChildProps (refs committed) = A0
  /\ trace pass = [EGetState store; ESelector (VNum 1) (VRef 32);
                   EDispatch (mkAction "STORE_UPDATED" (mkPayload VUndefined))]
  /\ lastChildProps (refs (final pass)) = A1
  /\ lastChildProps (refs (final pass)) <> A0.
Proof. vm_compute. repeat split; congruence. Qed.

Lemma C8_witness :
  let s := live false in
  (didUnsubscribe (closure s) = false
   /\ getState (world 1) store = Returns (VNum 1)
   /\ selector (VNum 1) (lastWrapperProps (refs s)) = Returns A1)
  /\ (let committed := final (captureWrapperProps (VRef 5) A0 notifier s) in
      let pass := checkForUpdates (world 1) store selector notifier s in
      lastChildProps (refs committed) = A0
      /\ lastChildProps (refs (final pass)) = A1
      /\ (strict_eq A1 (lastChildProps (refs s)) = true ->
          refs (final pass) = refs s)
      /\ (strict_eq A1 (lastChildProps (refs s)) = false ->
          rendersRequested (trace pass) = 1
          /\ renderIsScheduled (refs (final pass)) = true)
      /\ refs (final (unsubscribeWrapper s)) = refs s).
Proof.
  split; [repeat split|].
  apply (C8_lastChildProps_follows_latest_derivation (world 1) store selector
           (VRef 33) (live false) (VNum 1) A1 (VRef 5) A0); reflexivity.
Defined.

Lemma C10_witness :
  let s := live false in
  let pass := checkForUpdates (world 2) store selector notifier s in
  (didUnsubscribe (closure s) = false
   /\ getState (world 2) store = Returns (VNum 2)
   /\ closure (final pass) = closure (final pass)
   /\ truthy e1 = true)
  /\ (let down := unsubscribeWrapper (final pass) in
      didUnsubscribe (closure (final down)) = true
      /\ onStateChange (final down) = false
      /\ trace down = [ETryUnsubscribe]
      /\ outcome down = Abrupt (ThrowValue e1)).
Proof.
  split; [repeat split|].
  pose proof (C10_teardown_rethrows_latched_error (world 2) store selector
                (VRef 33) (live false)
                (final (checkForUpdates (world 2) store selector notifier
                          (live false)))
                (VNum 2) eq_refl eq_refl eq_refl) as (H1 & H2 & H3 & H4).
  exact (conj H1 (conj H2 (conj H3 (H4 eq_refl)))).
Defined.

(** C2 on the code.  Two store notifications reach the mounted instance
    before React renders; the derivation throws [e1] on the first and
    [e2] on the second.  The first pass requests a re-render.  The
    second finds [lastChildProps] set to [undefined] by the first, takes
    its own [undefined] output for unchanged, and requests none. *)
Theorem C2_second_throwing_pass_requests_no_render :
  let first := checkForUpdates (world 2) store selector notifier (mounted true) in
  let second := checkForUpdates (world 3) store selector notifier (final first) in
  selector (VNum 2) (lastWrapperProps (refs (mounted true))) = Throws e1
  /\ rendersRequested (trace first) = 1
  /\ lastChildProps (refs (final first)) = VUndefined
  /\ selector (VNum 3) (lastWrapperProps (refs (final first))) = Throws e2
  /\ outcome second = Normal tt
  /\ trace second = [EGetState store; ESelector (VNum 3) (VRef 32)]
  /\ rendersRequested (trace second) = 0
  /\ stateUpdates (final second) = stateUpdates (final first).
Proof. vm_compute. repeat split. Qed.

(** C4 on the code.  In the same run the second error [e2] is latched in
    the closure only: the reducer still carries [e1], and the next
    render throws [e1], not [e2]. *)
Theorem C4_second_error_is_not_the_one_rethrown :
  let first := checkForUpdates (world 2) store selector notifier (mounted true) in
  let second := checkForUpdates (world 3) store selector notifier (final first) in
  let render := ConnectFunction (config true) (world 3) props (final second) in
  selector (VNum 3) (lastWrapperProps (refs (final first))) = Throws e2
  /\ outcome second = Normal tt
  /\ rendersRequested (trace second) = 0
  /\ lastThrownError (closure (final second)) = e2
  /\ fst (stateUpdates (final second)) = Some (mkPayload e1)
  /\ outcome render = Abrupt (ThrowValue e1)
  /\ e1 <> e2.
Proof. vm_compute. repeat split; congruence. Qed.

End CallbackExamples.

(** ** The heap only grows *)

Lemma fresh_unused (h : gmap loc (gmap string value)) :
  h !! fresh (dom h) = None.
Proof. apply not_elem_of_dom, is_fresh. Qed.

Lemma alloc_grows (h : gmap loc (gmap string value)) o :
  h ⊆ <[fresh (dom h) := o]> h.
Proof. apply insert_subseteq, fresh_unused. Qed.

Lemma allocated_mono (h h' : gmap loc (gmap string value)) v :
  h ⊆ h' -> allocated h v -> allocated h' v.
Proof.
  intros S. destruct v; cbn; auto. intros [o E]. exists o.
  eapply lookup_weaken; eauto.
Qed.

Lemma own_props_mono (h h' : gmap loc (gmap string value)) v :
  h ⊆ h' -> allocated h v -> own_props h' v = own_props h v.
Proof.
  intros S. destruct v; cbn; auto. intros [o E].
  rewrite E, (lookup_weaken _ _ _ _ E S). reflexivity.
Qed.

Lemma get_field_mono (h h' : gmap loc (gmap string value)) v k :
  h ⊆ h' -> allocated h v -> get_field h' v k = get_field h v k.
Proof. intros S A. unfold get_field. rewrite (own_props_mono h h' v S A). reflexivity. Qed.

(** ** useMemo *)

Lemma useMemo_eq {D A : Type} (cell : Memos -> option (D * A)) set_cell same
  (callback : M A) (deps : D) (s : Inst) :
  useMemo cell set_cell same callback deps s
  = match cellHits (cell (memos s)) same deps with
    | Some v => mkRes (Normal v) s []
    | None =>
        match callback s with
        | mkRes (Normal v) s1 t1 =>
            mkRes (Normal v) (with_memos (set_cell (Some (deps, v))) s1) t1
        | mkRes (Abrupt t) s1 t1 => mkRes (Abrupt t) s1 t1
        end
    end.
Proof.
  unfold useMemo, cellHits, bind, gets, modify, ret. cbn.
  destruct (cell (memos s)) as [[d v]|]; [destruct (same d deps)|]; cbn;
    try reflexivity.
  all: destruct (callback s) as [[v'|t] s1 t1]; cbn; rewrite ?app_nil_r; reflexivity.
Qed.

(** ** The hooks of ConnectFunction, one by one *)

Lemma same_value_true a b : same_value a b = true -> a = b.
Proof. apply bool_decide_eq_true. Qed.

Lemma useWrapperProps_eq props s :
  useWrapperProps props s
  = match cellHits (memoProps (memos s)) same_props_deps props with
    | Some v => mkRes (Normal v) s []
    | None =>
        let l := fresh (dom (heap s)) in
        let v := (get_field (heap s) props "context",
                  get_field (heap s) props "reactReduxForwardedRef", VRef l) in
        mkRes (Normal v)
          (with_memos (set_memoProps (Some (props, v)))
             (with_heap (insert l (restOfProps (heap s) props)) s)) []
    end.
Proof. unfold useWrapperProps. rewrite useMemo_eq. reflexivity. Qed.

Lemma useWrapperProps_post props s v s' t :
  useWrapperProps props s = mkRes (Normal v) s' t ->
  propsCellOk s -> allocated (heap s) props ->
  t = [] /\ cells s' = cells s /\ heap s ⊆ heap s'
  /\ (exists c, memos s' = set_memoProps c (memos s))
  /\ fst (fst v) = get_field (heap s) props "context"
  /\ snd (fst v) = get_field (heap s) props "reactReduxForwardedRef"
  /\ allocated (heap s') (snd v)
  /\ own_props (heap s') (snd v) = restOfProps (heap s) props
  /\ propsCellOk s'.
Proof.
  rewrite useWrapperProps_eq. unfold cellHits, propsCellOk, same_props_deps.
  intros E Ok A.
  assert (Miss : forall v' s'' t',
    (let l := fresh (dom (heap s)) in
        let v := (get_field (heap s) props "context",
                  get_field (heap s) props "reactReduxForwardedRef", VRef l) in
        mkRes (Normal v)
          (with_memos (set_memoProps (Some (props, v)))
             (with_heap (insert l (restOfProps (heap s) props)) s)) [])
    = mkRes (Normal v') s'' t' ->
    t' = [] /\ cells s'' = cells s /\ heap s ⊆ heap s''
  /\ (exists c, memos s'' = set_memoProps c (memos s))
  /\ fst (fst v') = get_field (heap s) props "context"
  /\ snd (fst v') = get_field (heap s) props "reactReduxForwardedRef"
  /\ allocated (heap s'') (snd v')
  /\ own_props (heap s'') (snd v') = restOfProps (heap s) props
  /\ match memoProps (memos s'') with
  | Some (p, (c, f, W)) =>
      allocated (heap s'') p /\ allocated (heap s'') W
      /\ own_props (heap s'') W = restOfProps (heap s'') p
      /\ c = get_field (heap s'') p "context"
      /\ f = get_field (heap s'') p "reactReduxForwardedRef"
  | None => True
  end).
  { cbn. intros v' s'' t' [= <- <- <-].
    pose proof (alloc_grows (heap s) (restOfProps (heap s) props)) as G.
    cbn. rewrite !lookup_insert_eq. cbn.
    assert (P : restOfProps (<[fresh (dom (heap s)):=restOfProps (heap s) props]> (heap s)) props = restOfProps (heap s) props).
    { unfold restOfProps. f_equal. apply own_props_mono; assumption. }
    rewrite P.
    repeat split; eauto using allocated_mono, get_field_mono;
      symmetry; apply get_field_mono; assumption. }
  destruct (memoProps (memos s)) as [[p [[c f] W]]|] eqn:C.
  - destruct (same_value p props) eqn:Eq.
    + apply same_value_true in Eq. subst p. clear Miss.
      injection E as <- <- <-. destruct Ok as (Ap & AW & OW & -> & ->).
      rewrite C. repeat split; auto. exists (memoProps (memos s)).
      destruct s as [? [] ? ? ? ? ?]; reflexivity.
    + apply Miss, E.
  - apply Miss, E.
Qed.

Lemma useContextToUse_eq cfg w propsContext s :
  exists v c,
    useContextToUse cfg w propsContext s
    = mkRes (Normal v) (with_memos (set_memoContextToUse c) s) [].
Proof.
  unfold useContextToUse. rewrite useMemo_eq. unfold cellHits.
  destruct (memoContextToUse (memos s)) as [[d v]|] eqn:C.
  - destruct (same_context_deps d (propsContext, Context_ cfg)).
    + exists v, (memoContextToUse (memos s)).
      destruct s as [? [] ? ? ? ? ?]; reflexivity.
    + cbn. eauto.
  - cbn. eauto.
Qed.

Lemma resolveStore_eq cfg w props contextValue s :
  resolveStore cfg w props contextValue s
  = let didStoreComeFromProps := storeCameFromProps (heap s) props in
    let didStoreComeFromContext := storeCameFromContext (heap s) contextValue in
    if negb (String.eqb (NODE_ENV w) "production")
       && negb didStoreComeFromProps && negb didStoreComeFromContext
    then mkRes (Abrupt (ThrowError (storeNotFoundMessage (displayName cfg)))) s []
    else if didStoreComeFromProps
    then mkRes (Normal (true, get_field (heap s) props "store")) s []
    else if nullish contextValue then mkRes (Abrupt ThrowTypeError) s []
    else mkRes (Normal (false, get_field (heap s) contextValue "store")) s [].
Proof.
  unfold resolveStore, read_prop, when, bind, gets, throw, ret. cbn.
  destruct (negb (String.eqb (NODE_ENV w) "production")); cbn;
    destruct (storeCameFromProps (heap s) props) eqn:P; cbn;
    try (destruct (storeCameFromContext (heap s) contextValue); cbn);
    try (destruct (nullish contextValue); reflexivity).
  all: assert (N : nullish props = false)
    by (unfold storeCameFromProps, get_field in P; destruct props;
        try reflexivity; cbn in P; rewrite lookup_empty in P; discriminate).
  all: rewrite N; reflexivity.
Qed.

Lemma useChildPropsSelector_post cfg store s sel s' t :
  useMemo memoChildPropsSelector set_memoChildPropsSelector same_value
    (createChildSelector cfg store) store s = mkRes (Normal sel) s' t ->
  (exists c, s' = with_memos (set_memoChildPropsSelector c) s)
  /\ (forall e, In e t -> exists d, e = ESelectorFactory d).
Proof.
  rewrite useMemo_eq. unfold cellHits.
  destruct (memoChildPropsSelector (memos s)) as [[d v]|] eqn:C;
    [destruct (same_value d store)|].
  1: { intros [= <- <- <-]. split; [|intros e []].
       exists (memoChildPropsSelector (memos s)).
       destruct s as [? [] ? ? ? ? ?]; reflexivity. }
  all: unfold createChildSelector, read_prop, bind, emit, gets, throw, ret;
    destruct (nullish store); cbn; [discriminate|];
    intros [= <- <- <-]; split; eauto;
    intros e [<-|[]]; eauto.
Qed.

Lemma usePreviousStateUpdateResult_eq s :
  usePreviousStateUpdateResult s
  = match fst (stateUpdates s) with
    | Some p =>
        if truthy (error p) then mkRes (Abrupt (ThrowValue (error p))) s []
        else mkRes (Normal (stateUpdates s)) s []
    | None => mkRes (Normal (stateUpdates s)) s []
    end.
Proof.
  unfold usePreviousStateUpdateResult, when, bind, gets, throw, ret. cbn.
  destruct (fst (stateUpdates s)) as [p|]; [destruct (truthy (error p))|];
    reflexivity.
Qed.

Lemma useRefs_eq wrapperProps s :
  useRefs wrapperProps s
  = mkRes (Normal tt)
      (if refsCreated s then s
       else with_refsCreated true
              (with_refs (fun _ => mkRefs VUndefined wrapperProps VUndefined false) s))
      [].
Proof.
  unfold useRefs, when, bind, gets, modify, ret. cbn.
  destruct (refsCreated s); reflexivity.
Qed.

Lemma computeChildProps_eq w store sel wrapperProps s :
  computeChildProps w store sel wrapperProps s
  = mkRes (completionOf (specMergedProps w store sel (refs s) wrapperProps)) s
      (if truthy (childPropsFromStoreUpdate (refs s))
          && strict_eq wrapperProps (lastWrapperProps (refs s))
       then []
       else match getState w store with
            | Returns state => [EGetState store; ESelector state wrapperProps]
            | Throws _ => [EGetState store]
            end).
Proof.
  unfold computeChildProps, specMergedProps, call, bind, gets, emit, throw, ret.
  cbn.
  destruct (truthy (childPropsFromStoreUpdate (refs s))
            && strict_eq wrapperProps (lastWrapperProps (refs s))); cbn;
    [reflexivity|].
  destruct (getState w store) as [state|e]; cbn; [|reflexivity].
  destruct (sel state wrapperProps); reflexivity.
Qed.

Lemma useActualChildProps_eq cfg w store sel n wrapperProps s :
  useActualChildProps cfg w store sel n wrapperProps s
  = match (if pure cfg
           then cellHits (memoActualChildProps (memos s)) same_child_deps
                  (store, n, wrapperProps)
           else None) with
    | Some v => mkRes (Normal v) s []
    | None =>
        match computeChildProps w store sel wrapperProps s with
        | mkRes (Normal v) s1 t1 =>
            mkRes (Normal v)
              (if pure cfg
               then with_memos
                      (set_memoActualChildProps
                         (Some ((store, n, wrapperProps), v))) s1
               else s1) t1
        | mkRes (Abrupt e) s1 t1 => mkRes (Abrupt e) s1 t1
        end
    end.
Proof.
  unfold useActualChildProps, usePureOnlyMemo.
  destruct (pure cfg).
  - rewrite useMemo_eq. reflexivity.
  - destruct (computeChildProps w store sel wrapperProps s) as [[v|e] s1 t1];
      reflexivity.
Qed.

Lemma nodeOk_mono cfg h h' store d cv v :
  h ⊆ h' -> (d = false -> allocated h cv) ->
  nodeOk cfg h store d cv v -> nodeOk cfg h' store d cv v.
Proof.
  unfold nodeOk. intros S A. destruct (shouldHandleStateChanges cfg); auto.
  intros [(l & E & L) N]. split; auto. exists l. split; auto.
  destruct d.
  - eapply lookup_weaken; eauto.
  - rewrite (get_field_mono h h' cv "subscription" S (A eq_refl)).
    eapply lookup_weaken; eauto.
Qed.

Lemma providesOk_mono h h' d cv sub v :
  h ⊆ h' -> (d = false -> allocated h cv) ->
  providesOk h d cv sub v -> providesOk h' d cv sub v.
Proof.
  unfold providesOk. intros S A. destruct d; auto.
  intros (l & E & L). exists l. split; auto.
  rewrite (own_props_mono h h' cv S (A eq_refl)).
  eapply lookup_weaken; eauto.
Qed.

Lemma propsCellOk_mono s s' :
  heap s ⊆ heap s' -> memoProps (memos s') = memoProps (memos s) ->
  propsCellOk s -> propsCellOk s'.
Proof.
  unfold propsCellOk. intros S ->.
  destruct (memoProps (memos s)) as [[p [[c f] W]]|]; auto.
  intros (Ap & AW & O & -> & ->).
  repeat split; eauto using allocated_mono.
  - rewrite (own_props_mono _ _ W S AW). unfold restOfProps.
    rewrite (own_props_mono _ _ p S Ap). exact O.
  - symmetry. apply get_field_mono; auto.
  - symmetry. apply get_field_mono; auto.
Qed.

Lemma subscriptionCellOk_mono cfg s s' :
  heap s ⊆ heap s' -> memoSubscription (memos s') = memoSubscription (memos s) ->
  subscriptionCellOk cfg s -> subscriptionCellOk cfg s'.
Proof.
  unfold subscriptionCellOk. intros S ->.
  destruct (memoSubscription (memos s)) as [[[[st d] cv] v]|]; auto.
  intros [N A]. split; eauto using nodeOk_mono.
  intros D. eapply allocated_mono; eauto.
Qed.

Lemma overriddenCellOk_mono s s' :
  heap s ⊆ heap s' ->
  memoOverriddenContextValue (memos s') = memoOverriddenContextValue (memos s) ->
  overriddenCellOk s -> overriddenCellOk s'.
Proof.
  unfold overriddenCellOk. intros S ->.
  destruct (memoOverriddenContextValue (memos s)) as [[[[d cv] sub] v]|]; auto.
  intros [N A]. split; eauto using providesOk_mono.
  intros D. eapply allocated_mono; eauto.
Qed.

Lemma same_subscription_deps_true a b :
  same_subscription_deps a b = true -> a = b.
Proof.
  destruct a as [[a1 a2] a3], b as [[b1 b2] b3]. unfold same_subscription_deps.
  cbn. rewrite !andb_true_iff. intros [[E1 E2] E3].
  apply same_value_true in E1, E3. apply eqb_prop in E2. congruence.
Qed.

Lemma same_overridden_deps_true a b :
  same_overridden_deps a b = true -> a = b.
Proof.
  destruct a as [[a1 a2] a3], b as [[b1 b2] b3]. unfold same_overridden_deps.
  cbn. rewrite !andb_true_iff. intros [[E1 E2] E3].
  apply same_value_true in E2, E3. apply eqb_prop in E1. congruence.
Qed.

Lemma useSubscription_post cfg store d cv s v s' t :
  useSubscription cfg store d cv s = mkRes (Normal v) s' t ->
  subscriptionCellOk cfg s -> (d = false -> allocated (heap s) cv) ->
  t = [] /\ cells s' = cells s /\ heap s ⊆ heap s'
  /\ (exists c, memos s' = set_memoSubscription c (memos s))
  /\ nodeOk cfg (heap s') store d cv v
  /\ allocated (heap s') (fst v)
  /\ subscriptionCellOk cfg s'.
Proof.
  unfold useSubscription. rewrite useMemo_eq. unfold cellHits.
  intros E Ok A.
  assert (Miss :
    match
      (if negb (shouldHandleStateChanges cfg) then ret (VNull, NullCallback)
       else
         parentSub <- (if d then ret VNull else read_prop cv "subscription") ;;
         subscription <- new_Subscription store parentSub ;;
         ret (subscription, BoundNotifyNestedSubs subscription)) s
    with
    | mkRes (Normal v) s1 t1 =>
        mkRes (Normal v)
          (with_memos (set_memoSubscription (Some ((store, d, cv), v))) s1) t1
    | mkRes (Abrupt t) s1 t1 => mkRes (Abrupt t) s1 t1
    end = mkRes (Normal v) s' t ->
    t = [] /\ cells s' = cells s /\ heap s ⊆ heap s'
    /\ (exists c, memos s' = set_memoSubscription c (memos s))
    /\ nodeOk cfg (heap s') store d cv v
    /\ allocated (heap s') (fst v)
    /\ subscriptionCellOk cfg s').
  { clear E Ok. unfold nodeOk, subscriptionCellOk, nodeOk.
    destruct (shouldHandleStateChanges cfg) eqn:Sh; cbn.
    - unfold new_Subscription, alloc, read_prop, bind, gets, modify, throw, ret.
      destruct d; cbn.
      + intros [= <- <- <-]. cbn. rewrite ?Sh, ?lookup_insert_eq.
        pose proof (alloc_grows (heap s)
          (<["store":=store]> (<["parentSub":=VNull]> ∅))) as G.
        repeat split; eauto;
          try (eexists; split; [reflexivity|apply lookup_insert_eq]).
        discriminate.
      + destruct (nullish cv); cbn; [discriminate|].
        intros [= <- <- <-]. cbn. rewrite ?Sh, ?lookup_insert_eq.
        pose proof (alloc_grows (heap s)
          (<["store":=store]>
             (<["parentSub":=get_field (heap s) cv "subscription"]> ∅))) as G.
        rewrite (get_field_mono _ _ cv "subscription" G (A eq_refl)).
        repeat split; eauto;
          try (eexists; split; [reflexivity|apply lookup_insert_eq]).
        intros _. eapply allocated_mono; eauto.
    - intros [= <- <- <-]. cbn. rewrite ?Sh. repeat split; eauto. }
  destruct (memoSubscription (memos s)) as [[dd vv]|] eqn:C; [|exact (Miss E)].
  destruct (same_subscription_deps dd (store, d, cv)) eqn:Q; [|exact (Miss E)].
  clear Miss. apply same_subscription_deps_true in Q. subst dd.
  injection E as <- <- <-.
  unfold subscriptionCellOk in *. rewrite C in *. destruct Ok as [N A'].
  repeat split; auto.
  - exists (memoSubscription (memos s)). destruct s as [? [] ? ? ? ? ?]; reflexivity.
  - unfold nodeOk in N. destruct (shouldHandleStateChanges cfg).
    + destruct N as [(l & -> & L) _]. cbn. eauto.
    + subst vv. exact I.
Qed.

Lemma useOverriddenContextValue_post d cv sub s v s' t :
  useOverriddenContextValue d cv sub s = mkRes (Normal v) s' t ->
  overriddenCellOk s -> (d = false -> allocated (heap s) cv) ->
  t = [] /\ cells s' = cells s /\ heap s ⊆ heap s'
  /\ (exists c, memos s' = set_memoOverriddenContextValue c (memos s))
  /\ providesOk (heap s') d cv sub v
  /\ overriddenCellOk s'.
Proof.
  unfold useOverriddenContextValue. rewrite useMemo_eq. unfold cellHits.
  intros E Ok A.
  assert (Miss :
    match
      (if d then ret cv
       else h <- gets heap ;;
            alloc (<["subscription" := sub]> (own_props h cv))) s
    with
    | mkRes (Normal v) s1 t1 =>
        mkRes (Normal v)
          (with_memos (set_memoOverriddenContextValue (Some ((d, cv, sub), v))) s1) t1
    | mkRes (Abrupt t) s1 t1 => mkRes (Abrupt t) s1 t1
    end = mkRes (Normal v) s' t ->
    t = [] /\ cells s' = cells s /\ heap s ⊆ heap s'
    /\ (exists c, memos s' = set_memoOverriddenContextValue c (memos s))
    /\ providesOk (heap s') d cv sub v
    /\ overriddenCellOk s').
  { clear E Ok. unfold overriddenCellOk, providesOk.
    unfold alloc, bind, gets, modify, ret. destruct d; cbn.
    - intros [= <- <- <-]. cbn. repeat split; eauto; discriminate.
    - intros [= <- <- <-]. cbn.
      pose proof (alloc_grows (heap s)
        (<["subscription":=sub]> (own_props (heap s) cv))) as G.
      rewrite (own_props_mono _ _ cv G (A eq_refl)).
      repeat split; eauto;
        try (eexists; split; [reflexivity|apply lookup_insert_eq]).
      intros _. eapply allocated_mono; eauto. }
  destruct (memoOverriddenContextValue (memos s)) as [[dd vv]|] eqn:C;
    [|exact (Miss E)].
  destruct (same_overridden_deps dd (d, cv, sub)) eqn:Q; [|exact (Miss E)].
  clear Miss. apply same_overridden_deps_true in Q. subst dd.
  injection E as <- <- <-.
  unfold overriddenCellOk in *. rewrite C in *. destruct Ok as [N A'].
  repeat split; auto.
  exists (memoOverriddenContextValue (memos s)).
  destruct s as [? [] ? ? ? ? ?]; reflexivity.
Qed.

(** ** A render that returns ran every hook to its end *)

Lemma ConnectFunction_normal cfg w props s x s' t :
  ConnectFunction cfg w props s = mkRes (Normal x) s' t ->
  exists d s1 t1 ctx c2 rs sel s4 t4 sub s5 t5 ov s6 t6 acp t9,
    let s2 := with_memos (set_memoContextToUse c2) s1 in
    let cv := useContext w ctx in
    useWrapperProps props s = mkRes (Normal d) s1 t1
    /\ useContextToUse cfg w (fst (fst d)) s1 = mkRes (Normal ctx) s2 []
    /\ resolveStore cfg w props cv s2 = mkRes (Normal rs) s2 []
    /\ useMemo memoChildPropsSelector set_memoChildPropsSelector same_value
         (createChildSelector cfg (snd rs)) (snd rs) s2 = mkRes (Normal sel) s4 t4
    /\ useSubscription cfg (snd rs) (fst rs) cv s4 = mkRes (Normal sub) s5 t5
    /\ useOverriddenContextValue (fst rs) cv (fst sub) s5 = mkRes (Normal ov) s6 t6
    /\ usePreviousStateUpdateResult s6 = mkRes (Normal (stateUpdates s6)) s6 []
    /\ useActualChildProps cfg w (snd rs) sel (snd (stateUpdates s6)) (snd d)
         (refsAtRender s6 (snd d)) = mkRes (Normal acp) s' t9
    /\ x = mkRendered acp (snd (fst d))
             (if shouldHandleStateChanges cfg then Some (ctx, ov) else None)
             (snd d, acp, snd sub) (snd rs, fst sub, sel, snd sub)
    /\ t = (t1 ++ t4 ++ t5 ++ t6 ++ t9)%list.
Proof.
  unfold ConnectFunction, bind.
  destruct (useWrapperProps props s) as [[d|e] s1 t1] eqn:E1; [|discriminate].
  destruct (useContextToUse_eq cfg w (fst (fst d)) s1) as (ctx & c2 & E2).
  rewrite E2.
  set (s2 := with_memos (set_memoContextToUse c2) s1) in *.
  set (cv := useContext w ctx).
  pose proof (resolveStore_eq cfg w props cv s2) as R.
  destruct (resolveStore cfg w props cv s2) as [[rs|e] s3 t3] eqn:E3;
    [|discriminate].
  assert (s3 = s2 /\ t3 = []) as [-> ->].
  { cbn in R. repeat match type of R with
      | _ = (if ?b then _ else _) => destruct b end; injection R; auto. }
  clear R.
  destruct (useMemo memoChildPropsSelector _ _ _ _ s2) as [[sel|e] s4 t4] eqn:E4;
    [|discriminate].
  destruct (useSubscription cfg (snd rs) (fst rs) cv s4) as [[sub|e] s5 t5] eqn:E5;
    [|discriminate].
  destruct (useOverriddenContextValue (fst rs) cv (fst sub) s5)
    as [[ov|e] s6 t6] eqn:E6; [|discriminate].
  destruct (usePreviousStateUpdateResult s6) as [[u|e] s7 t7] eqn:E7;
    [|discriminate].
  assert (u = stateUpdates s6 /\ s7 = s6 /\ t7 = []) as (-> & -> & ->).
  { rewrite usePreviousStateUpdateResult_eq in E7.
    destruct (fst (stateUpdates s6)) as [p|]; [destruct (truthy (error p))|];
      try discriminate; injection E7; auto. }
  rewrite useRefs_eq. fold (refsAtRender s6 (snd d)).
  destruct (useActualChildProps cfg w (snd rs) sel (snd (stateUpdates s6))
              (snd d) (refsAtRender s6 (snd d))) as [[acp|e] s9 t9] eqn:E9;
    [|discriminate].
  cbn. intros [= <- <- <-].
  exists d, s1, t1, ctx, c2, rs, sel, s4, t4, sub, s5, t5, ov, s6, t6, acp, t9.
  cbn. repeat split; auto.
  rewrite !app_nil_r. reflexivity.
Qed.

Lemma storeCameFromProps_mono (h h' : gmap loc (gmap string value)) props :
  h ⊆ h' -> allocated h props ->
  allocated h (get_field h props "store") ->
  storeCameFromProps h' props = storeCameFromProps h props.
Proof.
  intros S A B. unfold storeCameFromProps.
  rewrite (get_field_mono h h' props "store" S A).
  rewrite !(get_field_mono h h' (get_field h props "store") _ S B).
  reflexivity.
Qed.

Lemma refsAtRender_frame s W :
  heap (refsAtRender s W) = heap s /\ memos (refsAtRender s W) = memos s
  /\ stateUpdates (refsAtRender s W) = stateUpdates s
  /\ closure (refsAtRender s W) = closure s
  /\ onStateChange (refsAtRender s W) = onStateChange s
  /\ refsCreated (refsAtRender s W) = true.
Proof. unfold refsAtRender. destruct (refsCreated s) eqn:E; cbn; repeat split; auto. Qed.

Lemma useActualChildProps_post cfg w store sel n W s v s' t :
  useActualChildProps cfg w store sel n W s = mkRes (Normal v) s' t ->
  heap s' = heap s /\ cells s' = cells s
  /\ (exists c, memos s' = set_memoActualChildProps c (memos s))
  /\ (forall e, In e t ->
        e = EGetState store \/ exists st, e = ESelector st W).
Proof.
  rewrite useActualChildProps_eq, computeChildProps_eq.
  destruct (if pure cfg then _ else None) as [v'|].
  - intros [= <- <- <-]. repeat split; auto; [|intros e []].
    exists (memoActualChildProps (memos s)).
    destruct s as [? [] ? ? ? ? ?]; reflexivity.
  - destruct (completionOf _); [|discriminate].
    intros [= <- <- <-].
    assert (T : forall e, In e
      (if truthy (childPropsFromStoreUpdate (refs s))
          && strict_eq W (lastWrapperProps (refs s))
       then []
       else match getState w store with
            | Returns state => [EGetState store; ESelector state W]
            | Throws _ => [EGetState store]
            end) -> e = EGetState store \/ exists st, e = ESelector st W).
    { destruct (_ && _); [intros e []|].
      destruct (getState w store); cbn; intros x; intuition eauto. }
    destruct (pure cfg); cbn; repeat split; auto.
    + eauto.
    + exists (memoActualChildProps (memos s)).
      destruct s as [? [] ? ? ? ? ?]; reflexivity.
Qed.

Lemma cells_eq s s' :
  cells s' = cells s ->
  stateUpdates s' = stateUpdates s /\ refsCreated s' = refsCreated s
  /\ refs s' = refs s /\ closure s' = closure s
  /\ onStateChange s' = onStateChange s.
Proof. unfold cells. intros [= -> -> -> -> ->]. auto. Qed.

Lemma ConnectFunction_returns cfg w props s x s' t :
  renderable cfg w props s ->
  ConnectFunction cfg w props s = mkRes (Normal x) s' t ->
  let W := fst (fst (captureArgs x)) in
  let store := fst (fst (fst (subscribeArgs x))) in
  let subscription := snd (fst (fst (subscribeArgs x))) in
  let sel := snd (fst (subscribeArgs x)) in
  let notify := snd (subscribeArgs x) in
  let fromProps := storeCameFromProps (heap s) props in
  exists ctx ov s8 t0 t9,
    let cv := useContext w ctx in
    heap s ⊆ heap s'
    /\ allocated (heap s') W
    /\ own_props (heap s') W = restOfProps (heap s) props
    /\ childRef x = get_field (heap s) props "reactReduxForwardedRef"
    /\ store = (if fromProps then get_field (heap s) props "store"
               else get_field (heap s) cv "store")
    /\ nodeOk cfg (heap s') store fromProps cv (subscription, notify)
    /\ providesOk (heap s') fromProps cv subscription ov
    /\ provider x = (if shouldHandleStateChanges cfg then Some (ctx, ov) else None)
    /\ captureArgs x = (W, childProps x, notify)
    /\ (forall e, In e t ->
          (exists d, e = ESelectorFactory d) \/ e = EGetState store
          \/ exists st, e = ESelector st W)
    /\ stateUpdates s' = stateUpdates s /\ closure s' = closure s
    /\ onStateChange s' = onStateChange s
    /\ refs s' = refs (refsAtRender s W) /\ refsCreated s' = true
    /\ refs s8 = refs (refsAtRender s W)
    /\ memoActualChildProps (memos s8) = memoActualChildProps (memos s)
    /\ useActualChildProps cfg w store sel (snd (stateUpdates s)) W s8
       = mkRes (Normal (childProps x)) s' t9
    /\ t = (t0 ++ t9)%list
    /\ (forall e, In e t0 -> exists d, e = ESelectorFactory d)
    /\ propsCellOk s' /\ subscriptionCellOk cfg s' /\ overriddenCellOk s'.
Proof.
  intros (Ap & As & Ac & Ok1 & Ok5 & Ok6) E.
  apply ConnectFunction_normal in E.
  destruct E as (d & s1 & t1 & ctx & c2 & rs & sel & s4 & t4 & sub & s5 & t5
                 & ov & s6 & t6 & acp & t9 & E).
  cbn zeta in E.
  destruct E as (E1 & E2 & E3 & E4 & E5 & E6 & E7 & E9 & -> & ->).
  set (s2 := with_memos (set_memoContextToUse c2) s1) in *.
  set (cv := useContext w ctx) in *.
  (* the props memo *)
  destruct (useWrapperProps_post _ _ _ _ _ E1 Ok1 Ap)
    as (-> & C1 & G1 & [c1 M1] & D1 & D2 & AW & OW & Ok1').
  apply cells_eq in C1. destruct C1 as (U1 & R1 & F1 & L1 & O1).
  (* the store *)
  rewrite resolveStore_eq in E3. cbn zeta in E3.
  change (heap s2) with (heap s1) in E3.
  rewrite (storeCameFromProps_mono _ _ props G1 Ap As) in E3.
  assert (Acv1 : allocated (heap s1) cv) by (eapply allocated_mono; eauto).
  assert (R : rs = (storeCameFromProps (heap s) props,
                    if storeCameFromProps (heap s) props
                    then get_field (heap s) props "store"
                    else get_field (heap s) cv "store")).
  { destruct (negb _ && negb _ && negb _); [discriminate|].
    destruct (storeCameFromProps (heap s) props).
    - injection E3 as <-. rewrite (get_field_mono _ _ props "store" G1 Ap).
      reflexivity.
    - destruct (nullish cv); [discriminate|]. injection E3 as <-.
      rewrite (get_field_mono _ _ cv "store" G1 (Ac ctx)). reflexivity. }
  clear E3. subst rs. cbn [fst snd] in *.
  set (fromProps := storeCameFromProps (heap s) props) in *.
  set (store := if fromProps then _ else _) in *.
  (* the selector memo *)
  apply useChildPropsSelector_post in E4. destruct E4 as [[c4 ->] T4].
  (* the subscription memo *)
  assert (Ok5' : subscriptionCellOk cfg
                   (with_memos (set_memoChildPropsSelector c4) s2)).
  { apply (subscriptionCellOk_mono cfg s); auto. cbn. rewrite M1. reflexivity. }
  destruct (useSubscription_post _ _ _ _ _ _ _ _ E5 Ok5' (fun _ => Acv1))
    as (-> & C5 & G5 & [c5 M5] & N5 & A5 & Ok5'').
  apply cells_eq in C5. destruct C5 as (U5 & R5 & F5 & L5 & O5).
  cbn in G5, U5, R5, F5, L5, O5, M5.
  assert (Acv5 : allocated (heap s5) cv) by (eapply allocated_mono; eauto).
  (* the context value for the descendants *)
  assert (Ok6' : overriddenCellOk s5).
  { apply (overriddenCellOk_mono s); [etrans; eauto| |exact Ok6].
    rewrite M5. cbn. rewrite M1. reflexivity. }
  destruct (useOverriddenContextValue_post _ _ _ _ _ _ _ E6 Ok6' (fun _ => Acv5))
    as (-> & C6 & G6 & [c6 M6] & P6 & Ok6'').
  apply cells_eq in C6. destruct C6 as (U6 & R6 & F6 & L6 & O6).
  (* the child props *)
  destruct (refsAtRender_frame s6 (snd d)) as (H8 & M8 & U8 & L8 & O8 & R8).
  destruct (useActualChildProps_post _ _ _ _ _ _ _ _ _ _ E9)
    as (H9 & C9 & [c9 M9] & T9).
  apply cells_eq in C9. destruct C9 as (U9 & R9 & F9 & L9 & O9).
  assert (G : heap s ⊆ heap s').
  { rewrite H9, H8. etrans; [exact G1|]. etrans; [exact G5|exact G6]. }
  assert (G' : heap s5 ⊆ heap s') by (rewrite H9, H8; exact G6).
  assert (G1' : heap s1 ⊆ heap s') by (etrans; [exact G5|exact G']).
  exists ctx, ov, (refsAtRender s6 (snd d)), t4, t9. cbn zeta.
  cbn [captureArgs subscribeArgs childProps childRef provider fst snd].
  repeat apply conj; auto.
  - eapply allocated_mono; eauto.
  - rewrite (own_props_mono _ _ (snd d) G1' AW). exact OW.
  - destruct sub as [sb nf].
    apply (nodeOk_mono cfg (heap s5)); [exact G'|intros _; exact Acv5|exact N5].
  - apply (providesOk_mono (heap s6)); [rewrite H9, H8; reflexivity| |exact P6].
    intros _. eapply allocated_mono; [exact G6|exact Acv5].
  - intros e. rewrite !in_app_iff. cbn. intros [[]|[I|[[]|[[]|I]]]].
    + left. apply T4, I.
    + right. apply T9, I.
  - congruence.
  - congruence.
  - congruence.
  - rewrite F9. unfold refsAtRender. rewrite R6, R5. cbn. rewrite R1.
    destruct (refsCreated s); cbn; congruence.
  - congruence.
  - unfold refsAtRender. rewrite R6, R5. cbn. rewrite R1.
    destruct (refsCreated s); cbn; congruence.
  - rewrite M8, M6, M5. cbn. rewrite M1. reflexivity.
  - rewrite <- E9. f_equal. congruence.
  - apply (propsCellOk_mono s1); auto.
    rewrite M9, M8, M6, M5. reflexivity.
  - apply (subscriptionCellOk_mono cfg s5); auto.
    rewrite M9, M8, M6. reflexivity.
  - apply (overriddenCellOk_mono s6); auto.
    + rewrite H9, H8. reflexivity.
    + rewrite M9, M8. reflexivity.
Qed.

(** ** Renders *)

Lemma useWrapperProps_returns props s :
  exists d s1, useWrapperProps props s = mkRes (Normal d) s1 [].
Proof.
  rewrite useWrapperProps_eq.
  destruct (cellHits _ _ _); cbn; eauto.
Qed.

Lemma storeCameFromContext_mono (h h' : gmap loc (gmap string value)) cv :
  h ⊆ h' -> allocated h cv ->
  storeCameFromContext h' cv = storeCameFromContext h cv.
Proof.
  intros S A. unfold storeCameFromContext.
  rewrite (get_field_mono h h' cv "store" S A). reflexivity.
Qed.

Lemma derivations_of_render (t : list event) store W :
  (forall e, In e t ->
     (exists d, e = ESelectorFactory d) \/ e = EGetState store
     \/ exists st, e = ESelector st W) ->
  (forall st o, In (ESelector st o) t -> o = W)
  /\ (forall st, In (EGetState st) t -> st = store).
Proof.
  intros H. split.
  - intros st o I. destruct (H _ I) as [[d E]|[E|[st' E]]]; congruence.
  - intros st I. destruct (H _ I) as [[d E]|[E|[st' E]]]; congruence.
Qed.

Lemma derivations_app (a b : list event) :
  derivations (a ++ b) = derivations a + derivations b.
Proof.
  unfold derivations. rewrite List.filter_app, List.length_app. reflexivity.
Qed.

Lemma derivations_of_factory (t : list event) :
  (forall e, In e t -> exists d, e = ESelectorFactory d) ->
  derivations t = 0.
Proof.
  induction t as [|e t IH]; intros H; [reflexivity|].
  destruct (H e (or_introl eq_refl)) as [d ->]. cbn.
  apply IH. intros e' I. apply H. right. exact I.
Qed.

(** C6, as amended.  At every render with live inputs: when the owner
    props carry a [store] with truthy [getState] and [dispatch], the
    resolution yields that store whatever the ambient context holds and
    whatever the build, and a render that returns has used it and has
    read the state of no other store; when neither
    the owner props nor any context yields a store and the build is not
    a production build, the render throws the error that names the
    component; nothing catches it, the reducer state, the refs and the
    closure are as before, and neither the store nor the selector has
    been called. *)
Theorem C6_store_from_props_first_else_context_else_error cfg w props s :
  renderable cfg w props s ->
  let r := ConnectFunction cfg w props s in
  (storeCameFromProps (heap s) props = true ->
   (forall contextValue,
      resolveStore cfg w props contextValue s
      = mkRes (Normal (true, get_field (heap s) props "store")) s [])
   /\ forall x, outcome r = Normal x ->
       fst (fst (fst (subscribeArgs x))) = get_field (heap s) props "store"
       /\ (forall st, In (EGetState st) (trace r) ->
             st = get_field (heap s) props "store"))
  /\ (storeCameFromProps (heap s) props = false ->
      (forall c, storeCameFromContext (heap s) (useContext w c) = false) ->
      NODE_ENV w <> "production" ->
      outcome r = Abrupt (ThrowError (storeNotFoundMessage (displayName cfg)))
      /\ trace r = []
      /\ cells (final r) = cells s
      /\ exists rest,
           storeNotFoundMessage (displayName cfg)
           = "Could not find " ++ dquote ++ "store" ++ dquote
             ++ " in the context of " ++ dquote ++ displayName cfg ++ rest).
Proof.
  intros Rn r. split.
  - intros P. split.
    { intros cv. rewrite resolveStore_eq. cbn zeta. rewrite P.
      rewrite !andb_false_r. reflexivity. }
    intros x E.
    destruct r as [o s' t] eqn:R. cbn in E. subst o.
    destruct (ConnectFunction_returns _ _ _ _ _ _ _ Rn R)
      as (ctx & ov & s8 & t0 & t9 & F).
    cbn zeta in F. rewrite P in F.
    destruct F as (_ & _ & _ & _ & St & _ & _ & _ & _ & Ev & _).
    split; [exact St|]. cbn.
    intros st I. rewrite <- St.
    apply (derivations_of_render t _ _ Ev). exact I.
  - intros P C N. subst r.
    destruct Rn as (Ap & As & Ac & Ok1 & _).
    unfold ConnectFunction, bind.
    destruct (useWrapperProps_returns props s) as (d & s1 & E1).
    rewrite E1.
    destruct (useWrapperProps_post _ _ _ _ _ E1 Ok1 Ap)
      as (_ & C1 & G1 & _).
    destruct (useContextToUse_eq cfg w (fst (fst d)) s1) as (ctx & c2 & ->).
    rewrite resolveStore_eq. cbn zeta.
    change (heap (with_memos (set_memoContextToUse c2) s1)) with (heap s1).
    rewrite (storeCameFromProps_mono _ _ props G1 Ap As), P.
    rewrite (storeCameFromContext_mono _ _ _ G1 (Ac ctx)), C.
    assert (String.eqb (NODE_ENV w) "production" = false) as ->
      by (apply String.eqb_neq; exact N).
    cbn. repeat split; auto.
    unfold storeNotFoundMessage. eexists. reflexivity.
Qed.

(** C7.  A render with live inputs returns.  If the instance handles
    state changes, its notification node is an object whose parent is
    [null] when the store came from the owner props and the
    subscription of the ambient context value otherwise, and the value
    given to [ContextToUse.Provider] is the ambient context value itself
    when the store came from the owner props and otherwise an object
    with the properties of the ambient context value and [subscription]
    replaced by the instance's own node.  If the instance does not
    handle state changes there is no node, no notifier and no Provider. *)
Theorem C7_node_parent_and_provided_context cfg w props s x s' t :
  renderable cfg w props s ->
  ConnectFunction cfg w props s = mkRes (Normal x) s' t ->
  let store := fst (fst (fst (subscribeArgs x))) in
  let subscription := snd (fst (fst (subscribeArgs x))) in
  let notifyNestedSubs := snd (subscribeArgs x) in
  let fromProps := storeCameFromProps (heap s) props in
  if shouldHandleStateChanges cfg then
    exists ContextToUse overriddenContextValue l,
      let contextValue := useContext w ContextToUse in
      provider x = Some (ContextToUse, overriddenContextValue)
      /\ subscription = VRef l
      /\ notifyNestedSubs = BoundNotifyNestedSubs subscription
      /\ get_field (heap s') subscription "store" = store
      /\ get_field (heap s') subscription "parentSub"
         = (if fromProps then VNull
            else get_field (heap s') contextValue "subscription")
      /\ (if fromProps then overriddenContextValue = contextValue
          else own_props (heap s') overriddenContextValue
               = <["subscription" := subscription]>
                   (own_props (heap s') contextValue))
  else
    subscription = VNull /\ notifyNestedSubs = NullCallback
    /\ provider x = None.
Proof.
  intros Rn R.
  destruct (ConnectFunction_returns _ _ _ _ _ _ _ Rn R)
    as (ctx & ov & s8 & t0 & t9 & F).
  cbn zeta in *.
  destruct F as (_ & _ & _ & _ & _ & N & P & Pr & _).
  unfold nodeOk in N. unfold providesOk in P.
  destruct (shouldHandleStateChanges cfg).
  - destruct N as [(l & E & L) B]. cbn [fst snd] in *.
    exists ctx, ov, l. repeat split; auto.
    + rewrite E. unfold get_field. cbn. rewrite L. cbn.
      rewrite lookup_insert_eq. reflexivity.
    + rewrite E. unfold get_field at 1. cbn. rewrite L. cbn.
      rewrite lookup_insert_ne by discriminate.
      rewrite lookup_insert_eq. reflexivity.
    + destruct (storeCameFromProps (heap s) props); [exact P|].
      destruct P as (l' & -> & L'). cbn. rewrite L'. reflexivity.
  - injection N as N1 N2. auto.
Qed.

(** C9, as amended.  The owner-props object of a render that returns
    holds every property of the props object except
    [reactReduxForwardedRef]; the [context] property is read for the
    choice of the context but stays in it.  That object is the one every
    call of the selector in the render receives and the one the commit
    records in [lastWrapperProps]. *)
Theorem C9_owner_props_drop_the_forwarded_ref_only cfg w props s x s' t :
  renderable cfg w props s ->
  ConnectFunction cfg w props s = mkRes (Normal x) s' t ->
  let wrapperProps := fst (fst (captureArgs x)) in
  own_props (heap s') wrapperProps
    = delete "reactReduxForwardedRef" (own_props (heap s) props)
  /\ own_props (heap s') wrapperProps !! "reactReduxForwardedRef" = None
  /\ (forall k, k <> "reactReduxForwardedRef" ->
        own_props (heap s') wrapperProps !! k = own_props (heap s) props !! k)
  /\ own_props (heap s') wrapperProps !! "context"
     = own_props (heap s) props !! "context"
  /\ (forall state ownProps, In (ESelector state ownProps) t ->
        ownProps = wrapperProps)
  /\ lastWrapperProps (refs (final (commit x s'))) = wrapperProps.
Proof.
  intros Rn R.
  destruct (ConnectFunction_returns _ _ _ _ _ _ _ Rn R)
    as (ctx & ov & s8 & t0 & t9 & F).
  cbn zeta in *.
  destruct F as (_ & _ & O & _ & _ & _ & _ & _ & Ca & Ev & _).
  unfold restOfProps in O. rewrite O.
  repeat split.
  - apply lookup_delete_eq.
  - intros k K. apply lookup_delete_ne. congruence.
  - apply lookup_delete_ne. discriminate.
  - apply (derivations_of_render t _ _ Ev).
  - unfold commit. apply captureWrapperProps_records.
Qed.

(** C3, as amended.  In a render that returns, the merged props are
    those of the last computation when the instance is pure and the
    store, the reducer's payload and the owner-props object are the
    ones of that computation; the selector is not run then.  In every
    other render they are what the rule of section 4.4 gives on the
    refs of that moment: the pending store-derived props when there are
    some and the owner props are reference-equal to the recorded ones,
    and otherwise the selector's value on the store's current state and
    the current owner props, for which the selector runs once.  As what
    is pending was derived from the recorded owner props, the merged
    props are then in both cases a value of the selector for the current
    owner props. *)
Theorem C3_merged_props_rule_unless_memoized cfg w props s x s' t :
  renderable cfg w props s ->
  ConnectFunction cfg w props s = mkRes (Normal x) s' t ->
  let wrapperProps := fst (fst (captureArgs x)) in
  let store := fst (fst (fst (subscribeArgs x))) in
  let childPropsSelector := snd (fst (subscribeArgs x)) in
  let current := refs (refsAtRender s wrapperProps) in
  match (if pure cfg
         then cellHits (memoActualChildProps (memos s)) same_child_deps
                (store, snd (stateUpdates s), wrapperProps)
         else None) with
  | Some memoized => childProps x = memoized /\ derivations t = 0
  | None =>
      specMergedProps w store childPropsSelector current wrapperProps
        = Returns (childProps x)
      /\ derivations t
         = (if truthy (childPropsFromStoreUpdate current)
               && strict_eq wrapperProps (lastWrapperProps current)
            then 0 else 1)
      /\ (forall state ownProps, In (ESelector state ownProps) t ->
            ownProps = wrapperProps /\ getState w store = Returns state)
      /\ (pendingFromRecorded childPropsSelector current ->
          exists state,
            childPropsSelector state wrapperProps = Returns (childProps x))
  end.
Proof.
  intros Rn R.
  destruct (ConnectFunction_returns _ _ _ _ _ _ _ Rn R)
    as (ctx & ov & s8 & t0 & t9 & F).
  cbn zeta in *.
  destruct F as (_ & _ & _ & _ & _ & _ & _ & _ & _ & Ev & _ & _ & _ & _ & _
                 & R8 & M8 & E9 & -> & T0 & _).
  rewrite useActualChildProps_eq, M8 in E9.
  rewrite derivations_app, (derivations_of_factory t0 T0).
  destruct (if pure cfg then _ else None) as [memoized|].
  - injection E9 as <- _ <-. auto.
  - rewrite computeChildProps_eq, R8 in E9.
    set (current := refs (refsAtRender s (fst (fst (captureArgs x))))) in *.
    destruct (specMergedProps w _ _ current _) as [v|e] eqn:Sp; cbn in E9;
      [|discriminate].
    injection E9 as <- _ <-.
    pose proof (specMergedProps_derived _ _ _ _ _ _ Sp) as Dv.
    unfold specMergedProps in Sp.
    destruct (truthy (childPropsFromStoreUpdate current) && _).
    + split; [reflexivity|split; [reflexivity|split; [|exact Dv]]].
      intros st o I; apply in_app_iff in I.
      destruct I as [I|[]]; destruct (T0 _ I) as [? [=]].
    + destruct (getState w _) as [state|e] eqn:G; [|discriminate].
      split; [reflexivity|split; [reflexivity|split; [|exact Dv]]].
      intros st o I; apply in_app_iff in I.
      destruct I as [I|[[=]|[[= <- <-]|[]]]]; auto.
      destruct (T0 _ I) as [? [=]].
Qed.

(** *** Renders of the concrete instance *)

Lemma res_eta {A} (r : Res A) : r = mkRes (outcome r) (final r) (trace r).
Proof. destruct r; reflexivity. Qed.

Ltac decided := apply (bool_decide_unpack _); vm_compute; exact I.

Section RenderExamples.

Import Example.

Lemma unmounted_renderable pure_ n p :
  p = props \/ p = propsWithStore ->
  renderable (config pure_) (world n) p unmounted.
Proof.
  intros [-> | ->];
    (refine (conj _ (conj _ (conj _ (conj I (conj I I)))));
     [decided|decided|intros c; decided]).
Qed.

Lemma orphan_renderable pure_ env :
  renderable (config pure_) (orphan env) props unmounted.
Proof.
  refine (conj _ (conj _ (conj _ (conj I (conj I I)))));
    [decided|decided|intros c; decided].
Qed.

(** The notifier of the examples is the one the first render binds. *)
Lemma firstRender_notifier :
  snd (subscribeArgs (rendered firstRender)) = notifier.
Proof. vm_compute. reflexivity. Qed.

Lemma firstRender_returns :
  firstRender
  = mkRes (Normal (rendered firstRender)) (final firstRender) (trace firstRender).
Proof.
  assert (O : outcome firstRender = Normal (rendered firstRender))
    by (vm_compute; reflexivity).
  pose proof (res_eta firstRender) as Q. rewrite O in Q. exact Q.
Qed.

Lemma firstRenderWithStore_returns :
  firstRenderWithStore
  = mkRes (Normal (rendered firstRenderWithStore)) (final firstRenderWithStore)
      (trace firstRenderWithStore).
Proof.
  assert (O : outcome firstRenderWithStore = Normal (rendered firstRenderWithStore))
    by (vm_compute; reflexivity).
  pose proof (res_eta firstRenderWithStore) as Q. rewrite O in Q. exact Q.
Qed.

(** C3, as stated, fails.  The pure instance is mounted with the store
    in state 0 and shows [A0]; nothing is pending.  The store moves to
    state 1, for which the selector returns [A1], and before the
    notification reaches the instance React renders it again with the
    same props object, as it does after a change of the context value.
    The rule asks for [A1]; the render returns the memoized [A0] without
    running the selector. *)
Lemma C3_counterexample :
  let s := mounted true in
  let r := ConnectFunction (config true) (world 1) props s in
  let x := rendered r in
  outcome r = Normal x
  /\ truthy (childPropsFromStoreUpdate (refs s)) = false
  /\ specMergedProps (world 1) (fst (fst (fst (subscribeArgs x))))
       (snd (fst (subscribeArgs x))) (refs s) (fst (fst (captureArgs x)))
     = Returns A1
  /\ childProps x = A0
  /\ Returns (childProps x) <> Returns A1
  /\ derivations (trace r) = 0.
Proof. vm_compute. repeat split; congruence. Qed.

Lemma C3_witness :
  let x := rendered firstRender in
  let wrapperProps := fst (fst (captureArgs x)) in
  let store := fst (fst (fst (subscribeArgs x))) in
  let childPropsSelector := snd (fst (subscribeArgs x)) in
  let current := refs (refsAtRender unmounted wrapperProps) in
  renderable (config true) (world 0) props unmounted
  /\ firstRender = mkRes (Normal x) (final firstRender) (trace firstRender)
  /\ specMergedProps (world 0) store childPropsSelector current wrapperProps
     = Returns (childProps x)
  /\ derivations (trace firstRender)
     = (if truthy (childPropsFromStoreUpdate current)
           && strict_eq wrapperProps (lastWrapperProps current)
        then 0 else 1)
  /\ (forall state ownProps,
        In (ESelector state ownProps) (trace firstRender) ->
        ownProps = wrapperProps /\ getState (world 0) store = Returns state)
  /\ (pendingFromRecorded childPropsSelector current ->
      exists state,
        childPropsSelector state wrapperProps = Returns (childProps x)).
Proof.
  split; [apply unmounted_renderable; auto|].
  split; [exact firstRender_returns|].
  exact (C3_merged_props_rule_unless_memoized (config true) (world 0) props
           unmounted _ _ _ (unmounted_renderable true 0 props (or_introl eq_refl))
           firstRender_returns).
Defined.

(** C6, as stated, fails.  In a production build the check is skipped:
    with no store in the props and no Provider, the render fails on the
    read of [contextValue.store] with a TypeError, not with the error
    that names the component. *)
Lemma C6_counterexample :
  let w := orphan "production" in
  let r := ConnectFunction (config true) w props unmounted in
  storeCameFromProps (heap unmounted) props = false
  /\ (forall c, storeCameFromContext (heap unmounted) (useContext w c) = false)
  /\ outcome r = Abrupt ThrowTypeError
  /\ outcome r
     <> Abrupt (ThrowError (storeNotFoundMessage (displayName (config true)))).
Proof.
  vm_compute. repeat split; congruence.
Qed.

Lemma C6_witness :
  let w := orphan "development" in
  let r := ConnectFunction (config true) w props unmounted in
  let x := rendered firstRenderWithStore in
  (renderable (config true) w props unmounted
   /\ storeCameFromProps (heap unmounted) props = false
   /\ (forall c, storeCameFromContext (heap unmounted) (useContext w c) = false)
   /\ NODE_ENV w <> "production")
  /\ (outcome r = Abrupt (ThrowError (storeNotFoundMessage (displayName (config true))))
      /\ trace r = []
      /\ cells (final r) = cells unmounted
      /\ exists rest,
           storeNotFoundMessage (displayName (config true))
           = "Could not find " ++ dquote ++ "store" ++ dquote
             ++ " in the context of " ++ dquote ++ displayName (config true)
             ++ rest)
  /\ (renderable (config true) (world 0) propsWithStore unmounted
      /\ storeCameFromProps (heap unmounted) propsWithStore = true
      /\ outcome firstRenderWithStore = Normal x)
  /\ ((forall contextValue,
         resolveStore (config true) (world 0) propsWithStore contextValue
           unmounted
         = mkRes (Normal (true, get_field (heap unmounted) propsWithStore "store"))
             unmounted [])
      /\ fst (fst (fst (subscribeArgs x)))
         = get_field (heap unmounted) propsWithStore "store"
      /\ (forall st, In (EGetState st) (trace firstRenderWithStore) ->
            st = get_field (heap unmounted) propsWithStore "store")).
Proof.
  assert (P : storeCameFromProps (heap unmounted) props = false)
    by (vm_compute; reflexivity).
  assert (C : forall c, storeCameFromContext (heap unmounted)
                          (useContext (orphan "development") c) = false)
    by (intros c; vm_compute; reflexivity).
  assert (N : NODE_ENV (orphan "development") <> "production")
    by (vm_compute; congruence).
  assert (Q : storeCameFromProps (heap unmounted) propsWithStore = true)
    by (vm_compute; reflexivity).
  assert (O : outcome firstRenderWithStore = Normal (rendered firstRenderWithStore))
    by (rewrite firstRenderWithStore_returns at 1; reflexivity).
  split; [exact (conj (orphan_renderable true "development") (conj P (conj C N)))|].
  split.
  { exact (proj2 (C6_store_from_props_first_else_context_else_error
                    (config true) (orphan "development") props unmounted
                    (orphan_renderable true "development")) P C N). }
  split; [exact (conj (unmounted_renderable true 0 propsWithStore
                         (or_intror eq_refl)) (conj Q O))|].
  destruct (proj1 (C6_store_from_props_first_else_context_else_error
                     (config true) (world 0) propsWithStore unmounted
                     (unmounted_renderable true 0 propsWithStore
                        (or_intror eq_refl))) Q) as [Phase Whole].
  exact (conj Phase (Whole _ O)).
Defined.

Lemma C7_witness :
  let x := rendered firstRender in
  let s' := final firstRender in
  let store := fst (fst (fst (subscribeArgs x))) in
  let subscription := snd (fst (fst (subscribeArgs x))) in
  let notifyNestedSubs := snd (subscribeArgs x) in
  let fromProps := storeCameFromProps (heap unmounted) props in
  renderable (config true) (world 0) props unmounted
  /\ firstRender = mkRes (Normal x) s' (trace firstRender)
  /\ exists ContextToUse overriddenContextValue l,
       let contextValue := useContext (world 0) ContextToUse in
       provider x = Some (ContextToUse, overriddenContextValue)
       /\ subscription = VRef l
       /\ notifyNestedSubs = BoundNotifyNestedSubs subscription
       /\ get_field s'.(heap) subscription "store" = store
       /\ get_field s'.(heap) subscription "parentSub"
          = (if fromProps then VNull
             else get_field s'.(heap) contextValue "subscription")
       /\ (if fromProps then overriddenContextValue = contextValue
           else own_props s'.(heap) overriddenContextValue
                = <["subscription" := subscription]>
                    (own_props s'.(heap) contextValue)).
Proof.
  split; [apply unmounted_renderable; auto|].
  split; [exact firstRender_returns|].
  exact (C7_node_parent_and_provided_context (config true) (world 0) props
           unmounted _ _ _ (unmounted_renderable true 0 props (or_introl eq_refl))
           firstRender_returns).
Defined.

(** C9, as stated, fails.  The props object holds a forwarded ref and a
    context override.  The owner-props object of the render, the one
    the selector receives and the commit records, still holds the
    [context] property. *)
Lemma C9_counterexample :
  let x := rendered firstRender in
  let wrapperProps := fst (fst (captureArgs x)) in
  outcome firstRender = Normal x
  /\ own_props (heap unmounted) props !! "context" = Some (VRef 9)
  /\ own_props (heap (final firstRender)) wrapperProps !! "context"
     = Some (VRef 9)
  /\ own_props (heap (final firstRender)) wrapperProps !! "context" <> None
  /\ own_props (heap (final firstRender)) wrapperProps
       !! "reactReduxForwardedRef" = None
  /\ trace firstRender
     = [ESelectorFactory (VRef 11); EGetState store;
        ESelector (VNum 0) wrapperProps]
  /\ lastWrapperProps (refs (final (commit x (final firstRender))))
     = wrapperProps.
Proof. vm_compute. repeat split; congruence. Qed.

Lemma C9_witness :
  let x := rendered firstRender in
  let s' := final firstRender in
  let wrapperProps := fst (fst (captureArgs x)) in
  renderable (config true) (world 0) props unmounted
  /\ firstRender = mkRes (Normal x) s' (trace firstRender)
  /\ own_props (heap s') wrapperProps
     = delete "reactReduxForwardedRef" (own_props (heap unmounted) props)
  /\ own_props (heap s') wrapperProps !! "reactReduxForwardedRef" = None
  /\ (forall k, k <> "reactReduxForwardedRef" ->
        own_props (heap s') wrapperProps !! k
        = own_props (heap unmounted) props !! k)
  /\ own_props (heap s') wrapperProps !! "context"
     = own_props (heap unmounted) props !! "context"
  /\ (forall state ownProps,
        In (ESelector state ownProps) (trace firstRender) ->
        ownProps = wrapperProps)
  /\ lastWrapperProps (refs (final (commit x s'))) = wrapperProps.
Proof.
  split; [apply unmounted_renderable; auto|].
  split; [exact firstRender_returns|].
  exact (C9_owner_props_drop_the_forwarded_ref_only (config true) (world 0)
           props unmounted _ _ _
           (unmounted_renderable true 0 props (or_introl eq_refl))
           firstRender_returns).
Defined.

End RenderExamples.

(** * Further properties

    The reducer, the callbacks taken one by one and in sequence, the
    whole update cycle, the mount, the hooks of the render, and the two
    functions that build the component. *)

(** ** Frames *)

Lemma captureWrapperProps_frame notify (s : Inst) wrapperProps actualChildProps :
  let r := captureWrapperProps wrapperProps actualChildProps notify s in
  heap (final r) = heap s /\ memos (final r) = memos s
  /\ stateUpdates (final r) = stateUpdates s
  /\ refsCreated (final r) = refsCreated s
  /\ closure (final r) = closure s.
Proof.
  run. destruct (truthy (childPropsFromStoreUpdate (refs s))); cbn;
    [destruct notify|]; cbn; auto.
Qed.

Lemma checkForUpdates_frame w store childPropsSelector notify (s : Inst) :
  let r := checkForUpdates w store childPropsSelector notify s in
  heap (final r) = heap s /\ memos (final r) = memos s
  /\ refsCreated (final r) = refsCreated s.
Proof.
  run. destruct (didUnsubscribe (closure s)); cbn; [auto|].
  destruct (getState w store) as [state|e]; cbn; [|auto].
  destruct (childPropsSelector state (lastWrapperProps (refs s))) as [v|e]; cbn;
    repeat match goal with
           | |- context [if ?b then _ else _] => destruct b; cbn
           | |- context [match ?c with NullCallback => _ | _ => _ end] =>
               destruct c; cbn
           end; auto.
Qed.

Lemma renderable_frame cfg w props s s' :
  heap s' = heap s -> memos s' = memos s ->
  renderable cfg w props s -> renderable cfg w props s'.
Proof.
  unfold renderable, propsCellOk, subscriptionCellOk, overriddenCellOk.
  intros -> ->. auto.
Qed.

(** A render that returns leaves the instance renderable. *)
Lemma renderable_after_render cfg w props s x s' t w2 props2 :
  renderable cfg w props s ->
  ConnectFunction cfg w props s = mkRes (Normal x) s' t ->
  allocated (heap s) props2 ->
  allocated (heap s) (get_field (heap s) props2 "store") ->
  (forall c, allocated (heap s) (useContext w2 c)) ->
  renderable cfg w2 props2 s'.
Proof.
  intros Rn R Ap As Ac.
  destruct (ConnectFunction_returns _ _ _ _ _ _ _ Rn R)
    as (ctx & ov & s8 & t0 & t9 & F).
  cbn zeta in F.
  destruct F as (G & _ & _ & _ & _ & _ & _ & _ & _ & _ & _ & _ & _ & _ & _
                 & _ & _ & _ & _ & _ & Ok1 & Ok5 & Ok6).
  repeat split; auto.
  - eapply allocated_mono; eauto.
  - rewrite (get_field_mono _ _ props2 "store" G Ap).
    eapply allocated_mono; eauto.
  - intros c. eapply allocated_mono; eauto.
Qed.

Lemma renderable_grows cfg w props s s' :
  heap s ⊆ heap s' -> memos s' = memos s ->
  renderable cfg w props s ->
  forall p, allocated (heap s') p ->
    get_field (heap s') p "store" = get_field (heap s) props "store" ->
    renderable cfg w p s'.
Proof.
  intros G Mm (Ap & As & Ac & Ok1 & Ok5 & Ok6) p A St.
  repeat split.
  - exact A.
  - rewrite St. eapply allocated_mono; eauto.
  - intros c. eapply allocated_mono; eauto.
  - apply (propsCellOk_mono s); auto. congruence.
  - apply (subscriptionCellOk_mono cfg s); auto. congruence.
  - apply (overriddenCellOk_mono s); auto. congruence.
Qed.

Lemma truthy_not_nullish v : truthy v = true -> nullish v = false.
Proof. destruct v; cbn; congruence. Qed.

Lemma with_memos_cells f s : cells (with_memos f s) = cells s.
Proof. reflexivity. Qed.

(** ** The reducer and the callbacks *)


(** X2.  A live change-detection pass whose store read returns never
    throws, whatever the selector does: an exception of the selector is
    caught and latched.  The pass reads the store once and runs the
    selector once, on the recorded owner props; then it either requests
    one render or cascades at most once, never both; it requests the
    render exactly when the output is not reference-equal to the
    recorded child props.  It leaves the heap, the memo cells and the
    recorded owner props alone. *)
Theorem checkForUpdates_defers_selector_errors
  (w : World) (store : value) (childPropsSelector : Selector)
  (subscription : value) (s : Inst) state :
  didUnsubscribe (closure s) = false ->
  getState w store = Returns state ->
  let r := checkForUpdates w store childPropsSelector
             (BoundNotifyNestedSubs subscription) s in
  let derived := childPropsSelector state (lastWrapperProps (refs s)) in
  outcome r = Normal tt
  /\ trace r
     = ([EGetState store; ESelector state (lastWrapperProps (refs s))]
        ++ (if strict_eq (newChildPropsOf derived) (lastChildProps (refs s))
            then if renderIsScheduled (refs s) then []
                 else [ENotifyNestedSubs subscription]
            else [EDispatch (mkAction "STORE_UPDATED"
                               (mkPayload (errorOf derived)))]))%list
  /\ derivations (trace r) = 1
  /\ rendersRequested (trace r) + cascades (trace r) <= 1
  /\ (rendersRequested (trace r) = 1 <->
      strict_eq (newChildPropsOf derived) (lastChildProps (refs s)) = false)
  /\ lastThrownError (closure (final r)) = latchAfter derived
  /\ heap (final r) = heap s /\ memos (final r) = memos s
  /\ lastWrapperProps (refs (final r)) = lastWrapperProps (refs s).
Proof.
  intros H G r derived. subst r derived.
  destruct (strict_eq
              (newChildPropsOf (childPropsSelector state (lastWrapperProps (refs s))))
              (lastChildProps (refs s))) eqn:E.
  - rewrite (checkForUpdates_unchanged w store childPropsSelector subscription
               s state H G E).
    cbn. destruct (renderIsScheduled (refs s)); cbn;
      repeat split; eauto; try lia; try discriminate.
  - rewrite (checkForUpdates_changed w store childPropsSelector subscription
               s state H G E).
    cbn. repeat split; eauto 6.
Qed.

(** X3.  The read of the store is outside the try block: when
    [store.getState] throws, a live pass throws the same value to its
    caller at once.  The selector is not run, no render is requested,
    nothing is latched for the teardown and no cell changes. *)
Theorem checkForUpdates_lets_store_errors_through
  (w : World) (store : value) (childPropsSelector : Selector)
  (notifyNestedSubs : callback) (s : Inst) e :
  didUnsubscribe (closure s) = false ->
  getState w store = Throws e ->
  let r := checkForUpdates w store childPropsSelector notifyNestedSubs s in
  outcome r = Abrupt (ThrowValue e)
  /\ trace r = [EGetState store]
  /\ final r = s.
Proof.
  intros H G r. subst r.
  rewrite (checkForUpdates_getState_throws w store childPropsSelector
             notifyNestedSubs s e H G).
  repeat split.
Qed.

(** X4.  The post-commit step is idempotent: run a second time with the
    same arguments it returns normally, makes no call and changes
    nothing.  The first run requests no render, and it cascades once
    exactly when props from a store update were pending and the
    instance has a notifier. *)
Theorem captureWrapperProps_is_idempotent
  (wrapperProps actualChildProps : value) (notifyNestedSubs : callback)
  (s : Inst) :
  let once := captureWrapperProps wrapperProps actualChildProps
                notifyNestedSubs s in
  let twice := captureWrapperProps wrapperProps actualChildProps
                 notifyNestedSubs (final once) in
  outcome twice = Normal tt
  /\ trace twice = []
  /\ final twice = final once
  /\ cascades (trace once)
     = (if truthy (childPropsFromStoreUpdate (refs s)) then
          match notifyNestedSubs with
          | BoundNotifyNestedSubs _ => 1
          | NullCallback => 0
          end
        else 0)
  /\ rendersRequested (trace once) = 0.
Proof.
  run. destruct (truthy (childPropsFromStoreUpdate (refs s))) eqn:T; cbn.
  - destruct notifyNestedSubs; cbn; repeat split.
  - rewrite T. cbn. repeat split.
Qed.

(** X5.  While a render is scheduled the instance holds back its
    descendants: any sequence of store notifications reaching a live
    instance whose [renderIsScheduled] is set returns normally, runs the
    selector once per notification, never calls [notifyNestedSubs] and
    leaves the render scheduled and the recorded owner props as they
    were; and if the pending props were the recorded child props before,
    they still are afterwards. *)
Theorem scheduled_render_holds_back_cascades
  (store : value) (childPropsSelector : Selector) (subscription : value)
  (ws : list World) (s : Inst) :
  didUnsubscribe (closure s) = false ->
  renderIsScheduled (refs s) = true ->
  Forall (fun w => exists state, getState w store = Returns state) ws ->
  let r := notifications ws store childPropsSelector
             (BoundNotifyNestedSubs subscription) s in
  outcome r = Normal tt
  /\ cascades (trace r) = 0
  /\ derivations (trace r) = length ws
  /\ renderIsScheduled (refs (final r)) = true
  /\ lastWrapperProps (refs (final r)) = lastWrapperProps (refs s)
  /\ (childPropsFromStoreUpdate (refs s) = lastChildProps (refs s) ->
      childPropsFromStoreUpdate (refs (final r)) = lastChildProps (refs (final r))).
Proof.
  revert s. induction ws as [|w ws IH]; intros s U R F; cbn.
  - repeat split; auto.
  - inversion F as [|? ? [state G] F']; subst.
    unfold bind.
    destruct (strict_eq
                (newChildPropsOf (childPropsSelector state (lastWrapperProps (refs s))))
                (lastChildProps (refs s))) eqn:E.
    + rewrite (checkForUpdates_unchanged w store childPropsSelector subscription
                 s state U G E).
      rewrite R.
      set (s1 := with_closure _ s).
      specialize (IH s1 U R F').
      destruct (notifications ws store childPropsSelector _ s1) as [o s2 t2].
      cbn in *. destruct IH as (-> & Ca & De & Sc & Lw & Pe).
      repeat split; auto.
    + rewrite (checkForUpdates_changed w store childPropsSelector subscription
                 s state U G E).
      set (s1 := with_stateUpdates _ _).
      specialize (IH s1 U eq_refl F').
      destruct (notifications ws store childPropsSelector _ s1) as [o s2 t2].
      cbn in *. destruct IH as (-> & Ca & De & Sc & Lw & Pe).
      repeat split; auto.
Qed.

(** ** The update cycle and the mount *)

(** X6.  The update cycle.  A store notification reaches a mounted,
    live instance and the selector returns truthy props that are not
    the recorded ones: the pass requests one render.  When React then
    renders the instance with the owner props it recorded, the render
    hands the pending props to the wrapped component as they are,
    without reading the store or running the selector again; and the
    commit of that render notifies the nested subscribers exactly once,
    clears what was pending and records the props as rendered. *)
Theorem update_cycle_renders_pending_props
  (cfg : Config) (w w' : World) (props store : value)
  (childPropsSelector : Selector) (subscription : value) (s : Inst)
  state v x s' t :
  didUnsubscribe (closure s) = false ->
  refsCreated s = true ->
  getState w store = Returns state ->
  childPropsSelector state (lastWrapperProps (refs s)) = Returns v ->
  strict_eq v (lastChildProps (refs s)) = false ->
  truthy v = true ->
  shouldHandleStateChanges cfg = true ->
  renderable cfg w' props s ->
  childPropsCellOk s ->
  let pass := checkForUpdates w store childPropsSelector
                (BoundNotifyNestedSubs subscription) s in
  ConnectFunction cfg w' props (final pass) = mkRes (Normal x) s' t ->
  let wrapperProps := fst (fst (captureArgs x)) in
  strict_eq wrapperProps (lastWrapperProps (refs s)) = true ->
  let done := commit x s' in
  rendersRequested (trace pass) = 1
  /\ childProps x = v
  /\ (forall e, In e t -> exists d, e = ESelectorFactory d)
  /\ outcome done = Normal tt
  /\ trace done = [ENotifyNestedSubs (snd (fst (fst (subscribeArgs x))))]
  /\ refs (final done) = mkRefs v wrapperProps VNull false.
Proof.
  intros U C G D E T Sh Rn Ce pass.
  subst pass.
  rewrite (checkForUpdates_changed w store childPropsSelector subscription
             s state U G); rewrite D; [|exact E].
  cbn [final trace newChildPropsOf errorOf].
  set (s1 := with_stateUpdates _ _).
  intros R Same. set (wrapperProps := fst (fst (captureArgs x))) in *.
  assert (Rn1 : renderable cfg w' props s1)
    by (apply (renderable_frame cfg w' props s); auto).
  destruct (ConnectFunction_returns _ _ _ _ _ _ _ Rn1 R)
    as (ctx & ov & s8 & t0 & t9 & F).
  cbn zeta in F. fold wrapperProps in F.
  destruct F as (_ & _ & _ & _ & _ & N & _ & _ & Ca & _ & _ & _ & _ & Rf & _
                 & R8 & M8 & E9 & -> & T0 & _).
  assert (Q : refs (refsAtRender s1 wrapperProps)
              = mkRefs v (lastWrapperProps (refs s)) v true).
  { unfold refsAtRender. subst s1. cbn. rewrite C. reflexivity. }
  rewrite Q in R8, Rf.
  rewrite useActualChildProps_eq, M8 in E9.
  assert (Miss : (if pure cfg
                  then cellHits (memoActualChildProps (memos s1)) same_child_deps
                         (fst (fst (fst (subscribeArgs x))),
                          snd (stateUpdates s1), wrapperProps)
                  else None) = None).
  { destruct (pure cfg); [|reflexivity].
    unfold childPropsCellOk in Ce. subst s1. cbn.
    destruct (memoActualChildProps (memos s)) as [[[[st n] W] u]|];
      [|reflexivity].
    cbn. unfold same_child_deps. cbn.
    replace (Nat.eqb n (snd (stateUpdates s) + 1)) with false
      by (symmetry; apply Nat.eqb_neq; lia).
    rewrite andb_false_r. reflexivity. }
  rewrite Miss in E9.
  rewrite computeChildProps_eq, R8 in E9. unfold specMergedProps in E9.
  cbn [childPropsFromStoreUpdate lastWrapperProps] in E9.
  rewrite T, Same in E9. cbn in E9.
  assert (childProps x = v /\ t9 = []) as [Cv ->].
  { destruct (pure cfg); injection E9; auto. }
  unfold nodeOk in N. rewrite Sh in N. destruct N as [_ B]. cbn in B.
  unfold commit. rewrite Ca. cbn [fst snd]. rewrite B.
  rewrite captureWrapperProps_commits. rewrite Rf. cbn. rewrite T. cbn.
  rewrite Cv.
  repeat split; auto.
  intros e I. rewrite app_nil_r in I. auto.
Qed.

(** X7.  The mount.  After the first render of an instance that
    handles state changes, the two layout effects record the rendered
    props, install the callback, subscribe, and check the store once:
    the selector runs on the state the store holds then and the owner
    props just rendered.  If its output is reference-equal to the
    rendered child props no render is requested and the nested
    subscribers are notified once; if the store has moved in between,
    exactly one render is requested and nobody is notified.  The effect
    returns the teardown. *)
Theorem mount_checks_the_store_once
  (cfg : Config) (w w2 : World) (props : value) (s : Inst) x s' t state :
  renderable cfg w props s ->
  refsCreated s = false ->
  shouldHandleStateChanges cfg = true ->
  ConnectFunction cfg w props s = mkRes (Normal x) s' t ->
  let wrapperProps := fst (fst (captureArgs x)) in
  let store := fst (fst (fst (subscribeArgs x))) in
  let subscription := snd (fst (fst (subscribeArgs x))) in
  let childPropsSelector := snd (fst (subscribeArgs x)) in
  getState w2 store = Returns state ->
  let derived := childPropsSelector state wrapperProps in
  let unchanged := strict_eq (newChildPropsOf derived) (childProps x) in
  let m := mountEffects cfg w2 x s' in
  outcome m = Normal true
  /\ trace m
     = ([ETrySubscribe; EGetState store; ESelector state wrapperProps]
        ++ (if unchanged then [ENotifyNestedSubs subscription]
            else [EDispatch (mkAction "STORE_UPDATED"
                               (mkPayload (errorOf derived)))]))%list
  /\ rendersRequested (trace m) = (if unchanged then 0 else 1)
  /\ onStateChange (final m) = true
  /\ didUnsubscribe (closure (final m)) = false
  /\ lastWrapperProps (refs (final m)) = wrapperProps
  /\ lastChildProps (refs (final m)) = newChildPropsOf derived
  /\ renderIsScheduled (refs (final m)) = negb unchanged.
Proof.
  intros Rn C Sh R wrapperProps store subscription childPropsSelector G
    derived unchanged m.
  destruct (ConnectFunction_returns _ _ _ _ _ _ _ Rn R)
    as (ctx & ov & s8 & t0 & t9 & F).
  cbn zeta in F.
  fold wrapperProps store subscription childPropsSelector in F.
  destruct F as (_ & _ & _ & _ & _ & N & _ & _ & Ca & _ & _ & _ & _ & Rf & _).
  unfold nodeOk in N. rewrite Sh in N. destruct N as [_ B]. cbn in B.
  assert (Q : refs s' = mkRefs VUndefined wrapperProps VUndefined false).
  { rewrite Rf. unfold refsAtRender. rewrite C. reflexivity. }
  subst m. remember (mountEffects cfg w2 x s') as m eqn:Em.
  unfold mountEffects, commit in Em. rewrite Ca, Sh in Em. cbn [fst snd] in Em.
  fold store childPropsSelector in Em. rewrite B in Em.
  unfold bind at 1 in Em. rewrite captureWrapperProps_commits, Q in Em.
  cbn [truthy] in Em.
  set (s1 := with_refs _ s') in Em.
  unfold subscribeUpdates, bind, modify, emit, ret in Em. cbn [negb] in Em.
  set (s2 := with_onStateChange true _) in Em.
  assert (U2 : didUnsubscribe (closure s2) = false) by reflexivity.
  assert (W2 : lastWrapperProps (refs s2) = wrapperProps) by reflexivity.
  assert (L2 : lastChildProps (refs s2) = childProps x) by reflexivity.
  assert (S2 : renderIsScheduled (refs s2) = false) by reflexivity.
  subst unchanged derived.
  destruct (strict_eq (newChildPropsOf (childPropsSelector state wrapperProps))
              (childProps x)) eqn:E.
  - rewrite (checkForUpdates_unchanged w2 store childPropsSelector subscription
               s2 state U2 G E) in Em.
    rewrite S2 in Em. cbn in Em. subst m. cbn.
    repeat split; auto.
    apply strict_eq_true in E. auto.
  - rewrite (checkForUpdates_changed w2 store childPropsSelector subscription
               s2 state U2 G E) in Em.
    cbn in Em. subst m. cbn. repeat split; auto.
Qed.

(** X8.  An instance built with [shouldHandleStateChanges] false
    never leaves its render: a render that returns has no notification
    node and wraps the child in no Provider, and the effects of its
    commit make no call at all (no subscription, no store read, no
    selector run, no cascade), return no teardown, and touch neither
    the closure nor the reducer state.  Nothing is ever pending for
    such an instance, so the commit never calls the notifier it does
    not have. *)
Theorem instance_without_subscription_makes_no_calls
  (cfg : Config) (w w2 : World) (props : value) (s : Inst) x s' t :
  renderable cfg w props s ->
  shouldHandleStateChanges cfg = false ->
  (refsCreated s = true -> truthy (childPropsFromStoreUpdate (refs s)) = false) ->
  ConnectFunction cfg w props s = mkRes (Normal x) s' t ->
  let m := mountEffects cfg w2 x s' in
  provider x = None
  /\ snd (fst (fst (subscribeArgs x))) = VNull
  /\ commit x s' = mkRes (Normal tt) (final (commit x s')) []
  /\ m = mkRes (Normal false) (final (commit x s')) []
  /\ lastWrapperProps (refs (final m)) = fst (fst (captureArgs x))
  /\ lastChildProps (refs (final m)) = childProps x
  /\ truthy (childPropsFromStoreUpdate (refs (final m))) = false
  /\ closure (final m) = closure s
  /\ onStateChange (final m) = onStateChange s
  /\ stateUpdates (final m) = stateUpdates s.
Proof.
  intros Rn Sh P R m.
  destruct (ConnectFunction_returns _ _ _ _ _ _ _ Rn R)
    as (ctx & ov & s8 & t0 & t9 & F).
  cbn zeta in F.
  destruct F as (_ & _ & _ & _ & _ & N & _ & Pr & Ca & _ & Su & Cl & On & Rf & _).
  unfold nodeOk in N. rewrite Sh in N, Pr. injection N as N1 N2.
  assert (T : truthy (childPropsFromStoreUpdate (refs s')) = false).
  { rewrite Rf. unfold refsAtRender. destruct (refsCreated s); auto. }
  assert (Cm : commit x s'
               = mkRes (Normal tt)
                   (with_refs (fun _ => mkRefs (childProps x)
                                 (fst (fst (captureArgs x)))
                                 (childPropsFromStoreUpdate (refs s')) false) s')
                   []).
  { unfold commit. rewrite Ca. cbn [fst snd]. run. rewrite T. cbn.
    destruct s' as [? ? ? ? [? ? ? ?] ? ?]; reflexivity. }
  subst m. unfold mountEffects, bind. rewrite Cm, Sh.
  unfold subscribeUpdates, ret. cbn.
  repeat split; auto.
Qed.

(** ** The hooks of the render, whatever the cells hold *)

Lemma useWrapperProps_frame props s :
  exists d s1,
    useWrapperProps props s = mkRes (Normal d) s1 []
    /\ cells s1 = cells s /\ heap s ⊆ heap s1
    /\ exists c, memos s1 = set_memoProps c (memos s).
Proof.
  rewrite useWrapperProps_eq.
  destruct (cellHits _ _ _) as [v|]; cbn.
  - exists v, s. repeat split; auto. exists (memoProps (memos s)).
    destruct s as [? [] ? ? ? ? ?]; reflexivity.
  - eexists _, _. repeat split; eauto. apply alloc_grows.
Qed.

Lemma useChildPropsSelector_frame cfg store s :
  nullish store = false ->
  exists sel c t,
    useMemo memoChildPropsSelector set_memoChildPropsSelector same_value
      (createChildSelector cfg store) store s
    = mkRes (Normal sel) (with_memos (set_memoChildPropsSelector c) s) t
    /\ (forall e, In e t -> exists d, e = ESelectorFactory d).
Proof.
  intros N.
  destruct (useMemo memoChildPropsSelector set_memoChildPropsSelector same_value
              (createChildSelector cfg store) store s) as [[sel|e] s' t] eqn:E.
  - destruct (useChildPropsSelector_post _ _ _ _ _ _ E) as [[c ->] T]. eauto.
  - exfalso. rewrite useMemo_eq in E. unfold cellHits in E.
    destruct (memoChildPropsSelector (memos s)) as [[d v]|];
      [destruct (same_value d store); [discriminate|]|].
    all: unfold createChildSelector, read_prop, bind, emit, gets, throw, ret in E;
      rewrite N in E; cbn in E; discriminate.
Qed.

Lemma useSubscription_frame cfg store d cv s :
  (d = false -> nullish cv = false) ->
  exists v s5,
    useSubscription cfg store d cv s = mkRes (Normal v) s5 []
    /\ cells s5 = cells s /\ heap s ⊆ heap s5
    /\ exists c, memos s5 = set_memoSubscription c (memos s).
Proof.
  intros N. unfold useSubscription. rewrite useMemo_eq. unfold cellHits.
  assert (Miss : exists v s5,
    match
      (if negb (shouldHandleStateChanges cfg) then ret (VNull, NullCallback)
       else
         parentSub <- (if d then ret VNull else read_prop cv "subscription") ;;
         subscription <- new_Subscription store parentSub ;;
         ret (subscription, BoundNotifyNestedSubs subscription)) s
    with
    | mkRes (Normal v) s1 t1 =>
        mkRes (Normal v)
          (with_memos (set_memoSubscription (Some ((store, d, cv), v))) s1) t1
    | mkRes (Abrupt t) s1 t1 => mkRes (Abrupt t) s1 t1
    end = mkRes (Normal v) s5 []
    /\ cells s5 = cells s /\ heap s ⊆ heap s5
    /\ exists c, memos s5 = set_memoSubscription c (memos s)).
  { destruct (shouldHandleStateChanges cfg); cbn.
    - unfold new_Subscription, alloc, read_prop, bind, gets, modify, throw, ret.
      destruct d; cbn.
      + eexists _, _. repeat split; eauto. apply alloc_grows.
      + rewrite (N eq_refl). cbn.
        eexists _, _. repeat split; eauto. apply alloc_grows.
    - eexists _, _. repeat split; eauto. }
  destruct (memoSubscription (memos s)) as [[dd vv]|] eqn:C; [|exact Miss].
  destruct (same_subscription_deps dd (store, d, cv)); [|exact Miss].
  exists vv, s. repeat split; auto.
  exists (memoSubscription (memos s)). destruct s as [? [] ? ? ? ? ?]; reflexivity.
Qed.

Lemma useOverriddenContextValue_frame d cv sub s :
  exists v s6,
    useOverriddenContextValue d cv sub s = mkRes (Normal v) s6 []
    /\ cells s6 = cells s /\ heap s ⊆ heap s6
    /\ exists c, memos s6 = set_memoOverriddenContextValue c (memos s).
Proof.
  unfold useOverriddenContextValue. rewrite useMemo_eq. unfold cellHits.
  assert (Miss : exists v s6,
    match
      (if d then ret cv
       else h <- gets heap ;;
            alloc (<["subscription" := sub]> (own_props h cv))) s
    with
    | mkRes (Normal v) s1 t1 =>
        mkRes (Normal v)
          (with_memos (set_memoOverriddenContextValue (Some ((d, cv, sub), v))) s1) t1
    | mkRes (Abrupt t) s1 t1 => mkRes (Abrupt t) s1 t1
    end = mkRes (Normal v) s6 []
    /\ cells s6 = cells s /\ heap s ⊆ heap s6
    /\ exists c, memos s6 = set_memoOverriddenContextValue c (memos s)).
  { unfold alloc, bind, gets, modify, ret. destruct d; cbn.
    - eexists _, _. repeat split; eauto.
    - eexists _, _. repeat split; eauto. apply alloc_grows. }
  destruct (memoOverriddenContextValue (memos s)) as [[dd vv]|] eqn:C; [|exact Miss].
  destruct (same_overridden_deps dd (d, cv, sub)); [|exact Miss].
  exists vv, s. repeat split; auto.
  exists (memoOverriddenContextValue (memos s)).
  destruct s as [? [] ? ? ? ? ?]; reflexivity.
Qed.

(** X9.  A render propagates the error of a store update.  When the
    reducer state carries a truthy error and the store can be resolved
    (from the owner props, or from every context), the render throws
    exactly that error.  It does so before the child props are
    computed: the store is not read and the selector is not run, and
    the reducer state, the refs and the closure are as before. *)
Theorem render_throws_the_error_of_the_update
  (cfg : Config) (w : World) (props : value) (s : Inst) e n :
  renderable cfg w props s ->
  stateUpdates s = (Some (mkPayload e), n) ->
  truthy e = true ->
  (storeCameFromProps (heap s) props = true
   \/ forall c, storeCameFromContext (heap s) (useContext w c) = true) ->
  let r := ConnectFunction cfg w props s in
  outcome r = Abrupt (ThrowValue e)
  /\ (forall ev, In ev (trace r) -> exists d, ev = ESelectorFactory d)
  /\ cells (final r) = cells s.
Proof.
  intros (Ap & As & Ac & _) U T St r. subst r.
  unfold ConnectFunction, bind.
  destruct (useWrapperProps_frame props s) as (d & s1 & -> & C1 & G1 & _).
  destruct (useContextToUse_eq cfg w (fst (fst d)) s1) as (ctx & c2 & ->).
  set (s2 := with_memos (set_memoContextToUse c2) s1).
  set (cv := useContext w ctx).
  rewrite resolveStore_eq. cbn zeta.
  change (heap s2) with (heap s1).
  rewrite (storeCameFromProps_mono _ _ props G1 Ap As).
  rewrite (storeCameFromContext_mono _ _ cv G1 (Ac ctx)).
  assert (exists rs, (if negb (String.eqb (NODE_ENV w) "production")
                 && negb (storeCameFromProps (heap s) props)
                 && negb (storeCameFromContext (heap s) cv)
              then mkRes (Abrupt (ThrowError (storeNotFoundMessage (displayName cfg)))) s2 []
              else if storeCameFromProps (heap s) props
              then mkRes (Normal (true, get_field (heap s1) props "store")) s2 []
              else if nullish cv then mkRes (Abrupt ThrowTypeError) s2 []
              else mkRes (Normal (false, get_field (heap s1) cv "store")) s2 [])
             = mkRes (Normal rs) s2 []
             /\ nullish (snd rs) = false
             /\ (fst rs = false -> nullish cv = false)) as (rs & -> & Ns & Nc).
  { destruct (storeCameFromProps (heap s) props) eqn:P.
    - rewrite andb_false_r. cbn. eexists. split; [reflexivity|]. cbn.
      split; [|discriminate].
      rewrite (get_field_mono _ _ props "store" G1 Ap).
      unfold storeCameFromProps in P. apply andb_true_iff in P.
      destruct P as [P _]. apply andb_true_iff in P. destruct P as [P _].
      apply truthy_not_nullish, P.
    - destruct St as [St|St]; [discriminate|].
      specialize (St ctx). fold cv in St. rewrite St. rewrite andb_false_r.
      unfold storeCameFromContext in St. apply andb_true_iff in St.
      destruct St as [Tc Ts]. rewrite (truthy_not_nullish _ Tc).
      eexists. split; [reflexivity|]. cbn.
      rewrite (get_field_mono _ _ cv "store" G1 (Ac ctx)).
      split; [apply truthy_not_nullish, Ts|reflexivity]. }
  destruct (useChildPropsSelector_frame cfg (snd rs) s2 Ns) as (sel & c4 & t4 & -> & T4).
  set (s4 := with_memos (set_memoChildPropsSelector c4) s2).
  destruct (useSubscription_frame cfg (snd rs) (fst rs) cv s4 Nc)
    as (sub & s5 & -> & C5 & _).
  destruct (useOverriddenContextValue_frame (fst rs) cv (fst sub) s5)
    as (ov & s6 & -> & C6 & _).
  assert (C : cells s6 = cells s).
  { rewrite C6, C5. subst s4 s2. rewrite !with_memos_cells. exact C1. }
  rewrite usePreviousStateUpdateResult_eq.
  apply cells_eq in C. destruct C as (Us & _).
  rewrite Us, U. cbn. rewrite T. cbn.
  rewrite !app_nil_r. repeat split; auto.
  unfold cells. apply cells_eq in C6, C5, C1.
  destruct C6 as (? & ? & ? & ? & ?), C5 as (? & ? & ? & ? & ?),
    C1 as (? & ? & ? & ? & ?). cbn in *. congruence.
Qed.

Lemma same_context_deps_true a b : same_context_deps a b = true -> a = b.
Proof.
  destruct a as [a1 a2], b as [b1 b2]. unfold same_context_deps. cbn.
  rewrite andb_true_iff. intros [E1 E2].
  apply same_value_true in E1, E2. congruence.
Qed.

Lemma ConnectFunction_hooks cfg w props s x s' t :
  renderable cfg w props s ->
  ConnectFunction cfg w props s = mkRes (Normal x) s' t ->
  let store := fst (fst (fst (subscribeArgs x))) in
  let sel := snd (fst (subscribeArgs x)) in
  let pc := get_field (heap s) props "context" in
  exists ctx s1 t4 t9,
    let cv := useContext w ctx in
    heap s ⊆ heap s1
    /\ match cellHits (memoContextToUse (memos s)) same_context_deps
               (pc, Context_ cfg) with
       | Some c => ctx = c
       | None => ctx = contextRule cfg w (heap s1) pc
       end
    /\ (if shouldHandleStateChanges cfg
        then exists ov, provider x = Some (ctx, ov) else provider x = None)
    /\ store = (if storeCameFromProps (heap s) props
                then get_field (heap s) props "store"
                else get_field (heap s) cv "store")
    /\ (storeCameFromProps (heap s) props = false ->
        nullish cv = false
        /\ (NODE_ENV w <> "production" -> truthy store = true))
    /\ match cellHits (memoChildPropsSelector (memos s)) same_value store with
       | Some v => sel = v /\ t4 = []
       | None =>
           sel = selectorFactory cfg (get_field (heap s1) store "dispatch")
           /\ t4 = [ESelectorFactory (get_field (heap s1) store "dispatch")]
       end
    /\ t = (t4 ++ t9)%list
    /\ (forall e, In e t9 ->
          e = EGetState store
          \/ exists st, e = ESelector st (fst (fst (captureArgs x))))
    /\ cellHits (memoChildPropsSelector (memos s')) same_value store = Some sel.
Proof.
  intros (Ap & As & Ac & Ok1 & Ok5 & Ok6) E.
  apply ConnectFunction_normal in E.
  destruct E as (d & s1 & t1 & ctx & c2 & rs & sel & s4 & t4 & sub & s5 & t5
                 & ov & s6 & t6 & acp & t9 & E).
  cbn zeta in E.
  destruct E as (E1 & E2 & E3 & E4 & E5 & E6 & E7 & E9 & -> & ->).
  cbn [subscribeArgs captureArgs provider fst snd].
  set (s2 := with_memos (set_memoContextToUse c2) s1) in *.
  set (cv := useContext w ctx) in *.
  destruct (useWrapperProps_post _ _ _ _ _ E1 Ok1 Ap)
    as (-> & C1 & G1 & [c1 M1] & D1 & D2 & AW & OW & Ok1').
  (* the context *)
  assert (Cx : match cellHits (memoContextToUse (memos s)) same_context_deps
                       (get_field (heap s) props "context", Context_ cfg) with
               | Some c => ctx = c
               | None => ctx = contextRule cfg w (heap s1)
                                 (get_field (heap s) props "context")
               end).
  { unfold useContextToUse in E2. rewrite useMemo_eq in E2.
    rewrite D1, M1 in E2.
    change (memoContextToUse (set_memoProps c1 (memos s)))
      with (memoContextToUse (memos s)) in E2.
    destruct (cellHits _ _ _) as [c|].
    - injection E2; auto.
    - unfold bind, gets, ret in E2. cbn in E2. injection E2. auto. }
  (* the store *)
  rewrite resolveStore_eq in E3. cbn zeta in E3.
  change (heap s2) with (heap s1) in E3.
  rewrite (storeCameFromProps_mono _ _ props G1 Ap As) in E3.
  rewrite (storeCameFromContext_mono _ _ cv G1 (Ac ctx)) in E3.
  assert (R : rs = (storeCameFromProps (heap s) props,
                    if storeCameFromProps (heap s) props
                    then get_field (heap s) props "store"
                    else get_field (heap s) cv "store")
              /\ (storeCameFromProps (heap s) props = false ->
                  nullish cv = false
                  /\ (NODE_ENV w <> "production" ->
                      truthy (get_field (heap s) cv "store") = true))).
  { destruct (storeCameFromProps (heap s) props).
    - rewrite andb_false_r in E3. cbn in E3. injection E3 as <-.
      rewrite (get_field_mono _ _ props "store" G1 Ap).
      split; [reflexivity|discriminate].
    - destruct (String.eqb (NODE_ENV w) "production") eqn:Env; cbn in E3.
      + destruct (nullish cv); [discriminate|]. injection E3 as <-.
        rewrite (get_field_mono _ _ cv "store" G1 (Ac ctx)).
        split; [reflexivity|]. intros _. split; [reflexivity|].
        apply String.eqb_eq in Env. congruence.
      + destruct (storeCameFromContext (heap s) cv) eqn:Sc; [|discriminate].
        cbn in E3.
        destruct (nullish cv); [discriminate|]. injection E3 as <-.
        rewrite (get_field_mono _ _ cv "store" G1 (Ac ctx)).
        split; [reflexivity|]. intros _. split; [reflexivity|]. intros _.
        unfold storeCameFromContext in Sc. apply andb_true_iff in Sc. tauto. }
  destruct R as [-> Rc]. clear E3. cbn [fst snd] in *.
  set (store := if storeCameFromProps (heap s) props then _ else _) in *.
  (* the selector *)
  assert (Sl : match cellHits (memoChildPropsSelector (memos s)) same_value store with
               | Some v => sel = v /\ t4 = []
               | None =>
                   sel = selectorFactory cfg (get_field (heap s1) store "dispatch")
                   /\ t4 = [ESelectorFactory (get_field (heap s1) store "dispatch")]
               end
               /\ cellHits (memoChildPropsSelector (memos s4)) same_value store
                  = Some sel).
  { rewrite useMemo_eq in E4.
    change (memoChildPropsSelector (memos s2))
      with (memoChildPropsSelector (memos s1)) in E4.
    rewrite M1 in E4.
    change (memoChildPropsSelector (set_memoProps c1 (memos s)))
      with (memoChildPropsSelector (memos s)) in E4.
    assert (SS : same_value store store = true)
      by (apply bool_decide_eq_true; reflexivity).
    destruct (cellHits (memoChildPropsSelector (memos s)) same_value store)
      as [v|] eqn:Hit.
    - injection E4 as <- <- <-. split; [auto|].
      change (memoChildPropsSelector (memos s2))
        with (memoChildPropsSelector (memos s1)).
      rewrite M1. exact Hit.
    - unfold createChildSelector, read_prop, bind, emit, gets, throw, ret in E4.
      destruct (nullish store); cbn in E4; [discriminate|].
      injection E4 as <- <- <-. split; [auto|].
      cbn. rewrite SS. reflexivity. }
  destruct Sl as [Sl Cell].
  pose proof (useChildPropsSelector_post _ _ _ _ _ _ E4) as [[c4 ->] _].
  (* the remaining hooks *)
  assert (Nc : fst (storeCameFromProps (heap s) props, store) = false ->
               nullish cv = false).
  { cbn. intros P. apply (Rc P). }
  cbn [fst] in Nc.
  destruct (useSubscription_frame cfg store (storeCameFromProps (heap s) props) cv
              (with_memos (set_memoChildPropsSelector c4) s2) Nc)
    as (sub' & s5' & E5' & _ & _ & [c5 M5]).
  rewrite E5' in E5. injection E5 as -> -> <-.
  destruct (useOverriddenContextValue_frame (storeCameFromProps (heap s) props)
              cv (fst sub) s5) as (ov' & s6' & E6' & _ & _ & [c6 M6]).
  rewrite E6' in E6. injection E6 as -> -> <-.
  destruct (useActualChildProps_post _ _ _ _ _ _ _ _ _ _ E9)
    as (_ & _ & [c9 M9] & T9).
  destruct (refsAtRender_frame s6 (snd d)) as (_ & M8 & _).
  exists ctx, s1, t4, t9. cbn zeta.
  repeat apply conj; auto.
  - destruct (shouldHandleStateChanges cfg); eauto.
  - intros P. destruct (Rc P) as [N Tr]. split; [exact N|].
    intros Env. subst store. rewrite P. auto.
  - rewrite M9, M8, M6, M5. exact Cell.
Qed.




(** X11.  Which context an instance uses.  In a render that computes
    it (the first, or one whose [context] prop changed), the context is
    the [context] prop when that prop is truthy, has a truthy
    [Consumer] and react-is accepts the consumer, and the context given
    to [connectAdvanced] otherwise; in particular a missing or falsy
    [context] prop is ignored.  This is the context whose value
    supplies the store when the owner props carry none, and the one
    whose Provider wraps the child. *)
Theorem context_prop_overrides_the_default_context
  (cfg : Config) (w : World) (props : value) (s : Inst) x s' t :
  renderable cfg w props s ->
  let propsContext := get_field (heap s) props "context" in
  allocated (heap s) propsContext ->
  cellHits (memoContextToUse (memos s)) same_context_deps
    (propsContext, Context_ cfg) = None ->
  ConnectFunction cfg w props s = mkRes (Normal x) s' t ->
  let ContextToUse :=
    if truthy propsContext
       && truthy (get_field (heap s) propsContext "Consumer")
       && isContextConsumer w (get_field (heap s) propsContext "Consumer")
    then propsContext else Context_ cfg in
  let contextValue := useContext w ContextToUse in
  (if shouldHandleStateChanges cfg
   then exists overriddenContextValue,
          provider x = Some (ContextToUse, overriddenContextValue)
   else provider x = None)
  /\ (storeCameFromProps (heap s) props = false ->
      fst (fst (fst (subscribeArgs x))) = get_field (heap s) contextValue "store"
      /\ nullish contextValue = false)
  /\ (truthy propsContext = false -> ContextToUse = Context_ cfg).
Proof.
  intros Rn propsContext Apc Miss R ContextToUse contextValue.
  destruct (ConnectFunction_hooks _ _ _ _ _ _ _ Rn R)
    as (ctx & s1 & t4 & t9 & F).
  cbn zeta in F. fold propsContext in F. rewrite Miss in F.
  destruct F as (G1 & -> & Pr & St & Nn & _).
  unfold contextRule in *.
  rewrite (get_field_mono _ _ propsContext "Consumer" G1 Apc) in *.
  fold ContextToUse in Pr, St, Nn. fold contextValue in St, Nn.
  split; [exact Pr|]. split.
  - intros P. rewrite P in St. split; [exact St|]. apply (Nn P).
  - intros F. subst ContextToUse. rewrite F. reflexivity.
Qed.

(** ** What the cells hold after a render *)

Lemma useMemo_hit {D A : Type} (cell : Memos -> option (D * A)) set_cell same
  (callback : M A) (deps : D) (s : Inst) v :
  cellHits (cell (memos s)) same deps = Some v ->
  useMemo cell set_cell same callback deps s = mkRes (Normal v) s [].
Proof. intros H. rewrite useMemo_eq, H. reflexivity. Qed.

Lemma useMemo_stores {D A : Type} (cell : Memos -> option (D * A)) set_cell same
  (callback : M A) (deps : D) (s s' : Inst) v t :
  (forall c m, cell (set_cell c m) = c) ->
  same deps deps = true ->
  useMemo cell set_cell same callback deps s = mkRes (Normal v) s' t ->
  cellHits (cell (memos s')) same deps = Some v.
Proof.
  intros Law Refl. rewrite useMemo_eq.
  destruct (cellHits (cell (memos s)) same deps) as [u|] eqn:Hit.
  - intros [= <- <- <-]. exact Hit.
  - destruct (callback s) as [[u|e] s1 t1]; [|discriminate].
    intros [= <- <- <-]. cbn. rewrite Law. cbn. rewrite Refl. reflexivity.
Qed.

Lemma same_value_refl v : same_value v v = true.
Proof. apply bool_decide_eq_true. reflexivity. Qed.

Lemma same_context_deps_refl d : same_context_deps d d = true.
Proof. unfold same_context_deps. rewrite !same_value_refl. reflexivity. Qed.

Lemma same_subscription_deps_refl d : same_subscription_deps d d = true.
Proof.
  unfold same_subscription_deps. rewrite !same_value_refl, eqb_reflx. reflexivity.
Qed.

Lemma same_overridden_deps_refl d : same_overridden_deps d d = true.
Proof.
  unfold same_overridden_deps. rewrite !same_value_refl, eqb_reflx. reflexivity.
Qed.

Lemma same_child_deps_refl d : same_child_deps d d = true.
Proof.
  unfold same_child_deps. rewrite !same_value_refl, Nat.eqb_refl. reflexivity.
Qed.

(** What the six cells hold after a render that returns. *)
Lemma ConnectFunction_cells cfg w props s x s' t :
  renderable cfg w props s ->
  ConnectFunction cfg w props s = mkRes (Normal x) s' t ->
  exists d ctx ov,
    let cv := useContext w ctx in
    let fromProps := storeCameFromProps (heap s) props in
    let W := fst (fst (captureArgs x)) in
    let store := fst (fst (fst (subscribeArgs x))) in
    let sub := (snd (fst (fst (subscribeArgs x))), snd (subscribeArgs x)) in
    x = mkRendered (childProps x) (snd (fst d))
          (if shouldHandleStateChanges cfg then Some (ctx, ov) else None)
          (snd d, childProps x, snd sub)
          (store, fst sub, snd (fst (subscribeArgs x)), snd sub)
    /\ heap s ⊆ heap s'
    /\ store = (if fromProps then get_field (heap s) props "store"
                else get_field (heap s) cv "store")
    /\ (fromProps = false -> nullish cv = false)
    /\ (negb (String.eqb (NODE_ENV w) "production") && negb fromProps
        && negb (storeCameFromContext (heap s) cv) = false)
    /\ match fst (stateUpdates s') with
       | Some p => truthy (error p) = false
       | None => True
       end
    /\ refsCreated s' = true
    /\ cellHits (memoProps (memos s')) same_props_deps props = Some d
    /\ cellHits (memoContextToUse (memos s')) same_context_deps
         (fst (fst d), Context_ cfg) = Some ctx
    /\ cellHits (memoChildPropsSelector (memos s')) same_value store
       = Some (snd (fst (subscribeArgs x)))
    /\ cellHits (memoSubscription (memos s')) same_subscription_deps
         (store, fromProps, cv) = Some sub
    /\ cellHits (memoOverriddenContextValue (memos s')) same_overridden_deps
         (fromProps, cv, fst sub) = Some ov
    /\ (pure cfg = true ->
        cellHits (memoActualChildProps (memos s')) same_child_deps
          (store, snd (stateUpdates s'), W) = Some (childProps x)).
Proof.
  intros (Ap & As & Ac & Ok1 & Ok5 & Ok6) E.
  apply ConnectFunction_normal in E.
  destruct E as (d & s1 & t1 & ctx & c2 & rs & sel & s4 & t4 & sub & s5 & t5
                 & ov & s6 & t6 & acp & t9 & E).
  cbn zeta in E.
  destruct E as (E1 & E2 & E3 & E4 & E5 & E6 & E7 & E9 & -> & ->).
  cbn [subscribeArgs captureArgs provider childProps fst snd].
  set (s2 := with_memos (set_memoContextToUse c2) s1) in *.
  set (cv := useContext w ctx) in *.
  destruct (useWrapperProps_post _ _ _ _ _ E1 Ok1 Ap)
    as (-> & C1 & G1 & [c1 M1] & D1 & D2 & AW & OW & Ok1').
  (* the cells written by the first two hooks *)
  pose proof (useMemo_stores memoProps set_memoProps same_props_deps _ props
                s s1 d [] (fun _ _ => eq_refl) (same_value_refl props) E1) as H1.
  pose proof (useMemo_stores memoContextToUse set_memoContextToUse
                same_context_deps _ (fst (fst d), Context_ cfg) s1 s2 ctx []
                (fun _ _ => eq_refl) (same_context_deps_refl _) E2) as H2.
  (* the store *)
  rewrite resolveStore_eq in E3. cbn zeta in E3.
  change (heap s2) with (heap s1) in E3.
  rewrite (storeCameFromProps_mono _ _ props G1 Ap As) in E3.
  rewrite (storeCameFromContext_mono _ _ cv G1 (Ac ctx)) in E3.
  assert (R : rs = (storeCameFromProps (heap s) props,
                    if storeCameFromProps (heap s) props
                    then get_field (heap s) props "store"
                    else get_field (heap s) cv "store")
              /\ (storeCameFromProps (heap s) props = false -> nullish cv = false)
              /\ negb (String.eqb (NODE_ENV w) "production")
                 && negb (storeCameFromProps (heap s) props)
                 && negb (storeCameFromContext (heap s) cv) = false).
  { destruct (negb (String.eqb (NODE_ENV w) "production")
              && negb (storeCameFromProps (heap s) props)
              && negb (storeCameFromContext (heap s) cv)); [discriminate|].
    destruct (storeCameFromProps (heap s) props).
    - injection E3 as <-. rewrite (get_field_mono _ _ props "store" G1 Ap).
      repeat split. discriminate.
    - destruct (nullish cv); [discriminate|]. injection E3 as <-.
      rewrite (get_field_mono _ _ cv "store" G1 (Ac ctx)). repeat split. }
  destruct R as (-> & Nc & Chk). clear E3. cbn [fst snd] in *.
  set (fromProps := storeCameFromProps (heap s) props) in *.
  set (store := if fromProps then _ else _) in *.
  pose proof (useMemo_stores memoChildPropsSelector set_memoChildPropsSelector
                same_value _ store s2 s4 sel t4
                (fun _ _ => eq_refl) (same_value_refl _) E4) as H4.
  pose proof (useChildPropsSelector_post _ _ _ _ _ _ E4) as [[c4 ->] _].
  pose proof (useMemo_stores memoSubscription set_memoSubscription
                same_subscription_deps _ (store, fromProps, cv) _ s5 sub t5
                (fun _ _ => eq_refl) (same_subscription_deps_refl _) E5) as H5.
  destruct (useSubscription_frame cfg store fromProps cv
              (with_memos (set_memoChildPropsSelector c4) s2) Nc)
    as (sub' & s5' & E5' & _ & G5 & [c5 M5]).
  rewrite E5' in E5. injection E5 as -> -> <-.
  pose proof (useMemo_stores memoOverriddenContextValue
                set_memoOverriddenContextValue same_overridden_deps _
                (fromProps, cv, fst sub) s5 s6 ov t6
                (fun _ _ => eq_refl) (same_overridden_deps_refl _) E6) as H6.
  destruct (useOverriddenContextValue_frame fromProps cv (fst sub) s5)
    as (ov' & s6' & E6' & C6 & G6 & [c6 M6]).
  rewrite E6' in E6. injection E6 as -> -> <-.
  destruct (useActualChildProps_post _ _ _ _ _ _ _ _ _ _ E9)
    as (H9 & C9 & [c9 M9] & T9).
  destruct (refsAtRender_frame s6 (snd d)) as (H8 & M8 & U8 & _ & _ & R8).
  apply cells_eq in C9. destruct C9 as (U9 & R9 & _).
  exists d, ctx, ov. cbn zeta.
  repeat apply conj; auto.
  - rewrite H9, H8. etrans; [exact G1|]. etrans; [exact G5|exact G6].
  - rewrite U9, U8. rewrite usePreviousStateUpdateResult_eq in E7.
    destruct (fst (stateUpdates s6)) as [p|]; [|exact I].
    destruct (truthy (error p)); [discriminate|reflexivity].
  - congruence.
  - rewrite M9, M8, M6, M5. exact H1.
  - rewrite M9, M8, M6, M5. exact H2.
  - rewrite M9, M8, M6, M5. exact H4.
  - rewrite M9, M8, M6. destruct sub; exact H5.
  - rewrite M9, M8. exact H6.
  - intros Pu. unfold useActualChildProps, usePureOnlyMemo in E9.
    rewrite Pu in E9. rewrite U9, U8.
    exact (useMemo_stores memoActualChildProps set_memoActualChildProps
             same_child_deps _ _ _ _ _ _ (fun _ _ => eq_refl)
             (same_child_deps_refl _) E9).
Qed.

(** X12.  The render of a pure instance is idempotent.  After a render
    that returned, rendering again with the same props object, the same
    context values and the same reducer state returns the very same
    result (child props, forwarded ref, context value for the
    descendants, notification node and selector), calls neither the
    store nor the selector nor the factory, and changes nothing,
    whatever the store holds by then and whatever the effects did to
    the refs in between. *)
Theorem pure_rerender_is_stable
  (cfg : Config) (w w2 : World) (props : value) (s s2 : Inst) x s' t :
  renderable cfg w props s ->
  ConnectFunction cfg w props s = mkRes (Normal x) s' t ->
  pure cfg = true ->
  heap s2 = heap s' -> memos s2 = memos s' ->
  stateUpdates s2 = stateUpdates s' -> refsCreated s2 = true ->
  (forall c, useContext w2 c = useContext w c) ->
  NODE_ENV w2 = NODE_ENV w ->
  ConnectFunction cfg w2 props s2 = mkRes (Normal x) s2 [].
Proof.
  intros Rn R Pu Hh Hm Hu Hr Cx Env.
  destruct (ConnectFunction_cells _ _ _ _ _ _ _ Rn R) as (d & ctx & ov & F).
  cbn zeta in F.
  destruct F as (Ex & G & St & Nc & Chk & Er & _ & H1 & H2 & H4 & H5 & H6 & H9).
  specialize (H9 Pu).
  assert (Wd : fst (fst (captureArgs x)) = snd d) by (rewrite Ex; reflexivity).
  rewrite Wd in H9.
  destruct Rn as (Ap & As & Ac & _).
  set (store := fst (fst (fst (subscribeArgs x)))) in *.
  set (sel := snd (fst (subscribeArgs x))) in *.
  set (sub := (snd (fst (fst (subscribeArgs x))), snd (subscribeArgs x))) in *.
  set (fromProps := storeCameFromProps (heap s) props) in *.
  rewrite <- Hm in H1, H2, H4, H5, H6, H9. rewrite <- Hu in H9, Er.
  unfold ConnectFunction, bind.
  unfold useWrapperProps. rewrite (useMemo_hit _ _ _ _ _ _ _ H1).
  unfold useContextToUse. rewrite (useMemo_hit _ _ _ _ _ _ _ H2).
  rewrite Cx.
  set (cv := useContext w ctx) in *.
  rewrite resolveStore_eq. cbn zeta. rewrite Env, Hh.
  rewrite (storeCameFromProps_mono _ _ props G Ap As).
  rewrite (storeCameFromContext_mono _ _ cv G (Ac ctx)).
  fold fromProps. rewrite Chk.
  assert (Rs : (if fromProps
                then mkRes (Normal (true, get_field (heap s') props "store")) s2 []
                else if nullish cv then mkRes (Abrupt ThrowTypeError) s2 []
                else mkRes (Normal (false, get_field (heap s') cv "store")) s2 [])
               = mkRes (Normal (fromProps, store)) s2 []).
  { rewrite St. destruct fromProps.
    - rewrite (get_field_mono _ _ props "store" G Ap). reflexivity.
    - rewrite (Nc eq_refl).
      rewrite (get_field_mono _ _ cv "store" G (Ac ctx)). reflexivity. }
  rewrite Rs. cbn [fst snd].
  rewrite (useMemo_hit _ _ _ _ _ _ _ H4).
  unfold useSubscription. rewrite (useMemo_hit _ _ _ _ _ _ _ H5).
  unfold useOverriddenContextValue. cbn [fst snd].
  rewrite (useMemo_hit _ _ _ _ _ _ _ H6).
  rewrite usePreviousStateUpdateResult_eq.
  assert (Pv : match fst (stateUpdates s2) with
               | Some p =>
                   if truthy (error p)
                   then mkRes (Abrupt (ThrowValue (error p))) s2 []
                   else mkRes (Normal (stateUpdates s2)) s2 []
               | None => mkRes (Normal (stateUpdates s2)) s2 []
               end = mkRes (Normal (stateUpdates s2)) s2 []).
  { destruct (fst (stateUpdates s2)) as [p|]; [rewrite Er|]; reflexivity. }
  rewrite Pv. rewrite useRefs_eq, Hr.
  unfold useActualChildProps, usePureOnlyMemo. rewrite Pu.
  rewrite (useMemo_hit _ _ _ _ _ _ _ H9).
  cbn. f_equal. f_equal. symmetry. exact Ex.
Qed.

(** ** What a render reuses *)

Lemma ConnectFunction_reuses cfg w props s x s' t :
  renderable cfg w props s ->
  ConnectFunction cfg w props s = mkRes (Normal x) s' t ->
  exists ctx ov,
    let cv := useContext w ctx in
    let fromProps := storeCameFromProps (heap s) props in
    let store := fst (fst (fst (subscribeArgs x))) in
    let subscription := snd (fst (fst (subscribeArgs x))) in
    provider x = (if shouldHandleStateChanges cfg then Some (ctx, ov) else None)
    /\ (forall v,
          cellHits (memoSubscription (memos s)) same_subscription_deps
            (store, fromProps, cv) = Some v ->
          (subscription, snd (subscribeArgs x)) = v)
    /\ (forall v,
          cellHits (memoOverriddenContextValue (memos s)) same_overridden_deps
            (fromProps, cv, subscription) = Some v ->
          ov = v).
Proof.
  intros (Ap & As & Ac & Ok1 & Ok5 & Ok6) E.
  apply ConnectFunction_normal in E.
  destruct E as (d & s1 & t1 & ctx & c2 & rs & sel & s4 & t4 & sub & s5 & t5
                 & ov & s6 & t6 & acp & t9 & E).
  cbn zeta in E.
  destruct E as (E1 & E2 & E3 & E4 & E5 & E6 & E7 & E9 & -> & ->).
  cbn [subscribeArgs captureArgs provider fst snd].
  set (s2 := with_memos (set_memoContextToUse c2) s1) in *.
  set (cv := useContext w ctx) in *.
  destruct (useWrapperProps_post _ _ _ _ _ E1 Ok1 Ap)
    as (-> & C1 & G1 & [c1 M1] & _).
  rewrite resolveStore_eq in E3. cbn zeta in E3.
  change (heap s2) with (heap s1) in E3.
  rewrite (storeCameFromProps_mono _ _ props G1 Ap As) in E3.
  assert (R : fst rs = storeCameFromProps (heap s) props
              /\ (fst rs = false -> nullish cv = false)).
  { destruct (negb _ && negb _ && negb _); [discriminate|].
    destruct (storeCameFromProps (heap s) props).
    - injection E3 as <-. split; [reflexivity|discriminate].
    - destruct (nullish cv); [discriminate|]. injection E3 as <-. auto. }
  destruct R as [Fp Nc]. clear E3.
  pose proof (useChildPropsSelector_post _ _ _ _ _ _ E4) as [[c4 ->] _].
  destruct (useSubscription_frame cfg (snd rs) (fst rs) cv
              (with_memos (set_memoChildPropsSelector c4) s2) Nc)
    as (sub' & s5' & E5' & _ & _ & [c5 M5]).
  pose proof E5 as E5''. rewrite E5' in E5''. injection E5'' as -> -> <-.
  exists ctx, ov. cbn zeta. rewrite <- Fp. fold cv.
  split; [reflexivity|]. split.
  - intros v Hit. unfold useSubscription in E5. rewrite useMemo_eq in E5.
    change (memoSubscription (memos (with_memos (set_memoChildPropsSelector c4) s2)))
      with (memoSubscription (memos s1)) in E5.
    rewrite M1 in E5.
    change (memoSubscription (set_memoProps c1 (memos s)))
      with (memoSubscription (memos s)) in E5.
    rewrite Hit in E5. injection E5 as <- _. destruct v; reflexivity.
  - intros v Hit. unfold useOverriddenContextValue in E6.
    rewrite useMemo_eq, M5 in E6.
    change (memoOverriddenContextValue
              (set_memoSubscription c5
                 (memos (with_memos (set_memoChildPropsSelector c4) s2))))
      with (memoOverriddenContextValue (memos s1)) in E6.
    rewrite M1 in E6.
    change (memoOverriddenContextValue (set_memoProps c1 (memos s)))
      with (memoOverriddenContextValue (memos s)) in E6.
    rewrite Hit in E6. injection E6 as <- _. reflexivity.
Qed.

(** X13.  The notification node and the context value for the
    descendants are kept across renders.  When an instance that handles
    state changes is rendered again, pure or not and whatever its props,
    and the render resolves the same store from the same source and
    reads the same value from its context, then its subscription, its
    notifier and the value it gives to the Provider are the ones of the
    earlier render: no new node is created, so the subscription effect
    has nothing to redo, and the descendants see no new context
    value. *)
Theorem notification_node_is_kept_across_renders
  (cfg : Config) (w w2 : World) (props props2 : value) (s s2 : Inst)
  x s' t x2 s2' t2 ctx ov ctx2 ov2 :
  renderable cfg w props s ->
  ConnectFunction cfg w props s = mkRes (Normal x) s' t ->
  renderable cfg w2 props2 s2 ->
  ConnectFunction cfg w2 props2 s2 = mkRes (Normal x2) s2' t2 ->
  memoSubscription (memos s2) = memoSubscription (memos s') ->
  memoOverriddenContextValue (memos s2) = memoOverriddenContextValue (memos s') ->
  provider x = Some (ctx, ov) ->
  provider x2 = Some (ctx2, ov2) ->
  useContext w2 ctx2 = useContext w ctx ->
  fst (fst (fst (subscribeArgs x2))) = fst (fst (fst (subscribeArgs x))) ->
  storeCameFromProps (heap s2) props2 = storeCameFromProps (heap s) props ->
  snd (fst (fst (subscribeArgs x2))) = snd (fst (fst (subscribeArgs x)))
  /\ snd (subscribeArgs x2) = snd (subscribeArgs x)
  /\ ov2 = ov.
Proof.
  intros Rn R Rn2 R2 M5 M6 Pr Pr2 Cv St Fp.
  destruct (ConnectFunction_cells _ _ _ _ _ _ _ Rn R) as (d & ctx' & ov' & F).
  cbn zeta in F.
  destruct F as (Ex & _ & _ & _ & _ & _ & _ & _ & _ & _ & H5 & H6 & _).
  assert (Pv : provider x
               = (if shouldHandleStateChanges cfg then Some (ctx', ov') else None))
    by (rewrite Ex; reflexivity).
  rewrite Pr in Pv.
  destruct (shouldHandleStateChanges cfg) eqn:Sh; [|discriminate].
  injection Pv as <- <-.
  destruct (ConnectFunction_reuses _ _ _ _ _ _ _ Rn2 R2) as (c2 & o2 & F2).
  cbn zeta in F2. rewrite Sh, Pr2 in F2.
  destruct F2 as ([= <- <-] & S2 & O2).
  rewrite Cv, St, Fp, M5 in S2. specialize (S2 _ H5).
  injection S2 as Es En.
  rewrite Cv, Fp, Es, M6 in O2. specialize (O2 _ H6).
  auto.
Qed.

(** ** connectAdvanced and wrapWithConnect *)

Lemma rest_lookup (m : gmap string value) (names : list string) k :
  foldr delete m names !! k = if bool_decide (k ∈ names) then None else m !! k.
Proof.
  induction names as [|n names IH]; cbn.
  - rewrite bool_decide_eq_false_2; [reflexivity|]. apply not_elem_of_nil.
  - destruct (decide (n = k)) as [->|Ne].
    + rewrite lookup_delete_eq.
      rewrite bool_decide_eq_true_2; [reflexivity|]. apply elem_of_cons; auto.
    + rewrite lookup_delete_ne by exact Ne. rewrite IH.
      destruct (bool_decide (k ∈ names)) eqn:B.
      * apply bool_decide_eq_true in B.
        rewrite bool_decide_eq_true_2; [reflexivity|]. apply elem_of_cons; auto.
      * apply bool_decide_eq_false in B.
        rewrite bool_decide_eq_false_2; [reflexivity|].
        rewrite elem_of_cons. intros [E|I]; congruence.
Qed.

Lemma orDefault_truthy v : truthy (Wrap.orDefault v (VBool false)) = truthy v.
Proof. unfold Wrap.orDefault. case_bool_decide; subst; reflexivity. Qed.

Lemma orDefault_undefined v : Wrap.orDefault v VUndefined = v.
Proof. unfold Wrap.orDefault. case_bool_decide; subst; reflexivity. Qed.

Lemma storeKey_accepted v :
  strict_eq (Wrap.orDefault v (VStr "store")) (VStr "store") = true
  <-> v = VUndefined \/ v = VStr "store".
Proof.
  unfold Wrap.orDefault. case_bool_decide as U.
  - subst. cbn. split; auto.
  - split.
    + intros E. apply strict_eq_true in E. auto.
    + intros [E|E]; [congruence|]. subst. reflexivity.
Qed.

Lemma undefined_strict v : strict_eq v VUndefined = true <-> v = VUndefined.
Proof.
  split; [apply strict_eq_true|intros ->; reflexivity].
Qed.

(** X14.  The options [connectAdvanced] refuses.  With options other
    than [null]: a production build accepts them all; any other build
    accepts them exactly when [renderCountProp] is absent, [withRef] is
    falsy and [storeKey] is absent or ['store'], and otherwise throws
    the error of the first of the three that is violated, in that
    order.  Called without options it takes the defaults of the
    parameter pattern. *)
Theorem connectAdvanced_rejects_removed_options
  (NODE_ENV : string) (h : gmap loc (gmap string value))
  (ReactReduxContext options : value) :
  options <> VNull ->
  let r := Wrap.connectAdvanced NODE_ENV h ReactReduxContext options in
  let renderCountProp := get_field h options "renderCountProp" in
  let withRef := get_field h options "withRef" in
  let storeKey := get_field h options "storeKey" in
  (NODE_ENV = "production" -> exists o, r = Normal o)
  /\ (NODE_ENV <> "production" ->
      ((exists o, r = Normal o) <->
       renderCountProp = VUndefined /\ truthy withRef = false
       /\ (storeKey = VUndefined \/ storeKey = VStr "store"))
      /\ (renderCountProp <> VUndefined ->
          r = Abrupt (ThrowError Wrap.renderCountPropRemoved))
      /\ (renderCountProp = VUndefined -> truthy withRef = true ->
          r = Abrupt (ThrowError Wrap.withRefRemoved))
      /\ (renderCountProp = VUndefined -> truthy withRef = false ->
          storeKey <> VUndefined -> storeKey <> VStr "store" ->
          r = Abrupt (ThrowError Wrap.storeKeyRemoved)))
  /\ (options = VUndefined ->
      forall o, r = Normal o ->
        o = Wrap.mkOptions Wrap.DefaultGetDisplayName (VStr "connectAdvanced")
              VUndefined (VBool true) (VStr "store") (VBool false) (VBool false)
              ReactReduxContext ∅).
Proof.
  intros N r renderCountProp withRef storeKey.
  subst r. unfold Wrap.connectAdvanced, Wrap.destructure.
  rewrite bool_decide_eq_false_2 by exact N.
  cbn [Wrap.renderCountProp Wrap.withRef Wrap.storeKey].
  change (default VUndefined (own_props h options !! "renderCountProp"))
    with renderCountProp.
  change (default VUndefined (own_props h options !! "withRef")) with withRef.
  change (default VUndefined (own_props h options !! "storeKey")) with storeKey.
  rewrite orDefault_undefined, orDefault_truthy.
  split; [|split].
  - intros ->. cbn. eauto.
  - intros Env. apply String.eqb_neq in Env. rewrite Env. cbn [negb].
    destruct (strict_eq renderCountProp VUndefined) eqn:Er; cbn [negb].
    + apply undefined_strict in Er.
      destruct (truthy withRef) eqn:Tw.
      * split; [split; [intros [o [=]]|intros (_ & [=] & _)]|].
        split; [congruence|]. split; [reflexivity|]. discriminate.
      * destruct (strict_eq (Wrap.orDefault storeKey (VStr "store")) (VStr "store"))
          eqn:Es; cbn [negb].
        -- apply storeKey_accepted in Es.
           split; [split; eauto|].
           split; [congruence|]. split; [discriminate|].
           intros _ _ N1 N2. destruct Es; congruence.
        -- assert (Ns : ~ (storeKey = VUndefined \/ storeKey = VStr "store"))
             by (intros K; apply storeKey_accepted in K; congruence).
           split; [split; [intros [o [=]]|intros (_ & _ & K); tauto]|].
           split; [congruence|]. split; [discriminate|]. reflexivity.
    + assert (Nr : renderCountProp <> VUndefined)
        by (intros K; apply undefined_strict in K; congruence).
      split; [split; [intros [o [=]]|intros (K & _); congruence]|].
      split; [reflexivity|]. split; congruence.
  - intros -> o. cbn.
    destruct (negb (String.eqb NODE_ENV "production")); cbn; intros [= <-];
      reflexivity.
Qed.

Lemma wrapWithConnect_normal NODE_ENV host h o WC c :
  Wrap.wrapWithConnect NODE_ENV host h o WC = Normal c ->
  let name :=
    Wrap.orElse (get_field h WC "displayName")
      (Wrap.orElse (get_field h WC "name") (VStr "Component")) in
  (NODE_ENV <> "production" -> Wrap.isValidElementType host WC = true)
  /\ nullish WC = false
  /\ Wrap.applyGetDisplayName host (Wrap.getDisplayName o) name
     = Normal (Wrap.displayName c)
  /\ c = Wrap.mkConnected (Wrap.displayName c) WC
           (Wrap.selectorFactoryOptions o (Wrap.displayName c) name WC)
           (default VUndefined (Wrap.connectOptions o !! "pure"))
           (truthy (Wrap.forwardRef o)).
Proof.
  intros E name. unfold Wrap.wrapWithConnect in E. fold name in E.
  destruct (negb (String.eqb NODE_ENV "production")
            && negb (Wrap.isValidElementType host WC)) eqn:Chk.
  { destruct (Wrap.ToString host (Wrap.methodName o)); [|discriminate].
    destruct (Wrap.stringifyComponent host WC) as [v|]; [|discriminate].
    destruct (Wrap.ToString host v); discriminate. }
  destruct (nullish WC); [discriminate|].
  destruct (Wrap.applyGetDisplayName host (Wrap.getDisplayName o) name)
    as [d|]; [|discriminate].
  injection E as <-. cbn. repeat split; auto.
  intros Env. apply String.eqb_neq in Env. rewrite Env in Chk. cbn in Chk.
  destruct (Wrap.isValidElementType host WC); [reflexivity|discriminate].
Qed.

(** X15.  What the selector factory is told.  Every property of the
    options object that [connectAdvanced] does not name itself and that
    is not [displayName], [wrappedComponentName] or [WrappedComponent]
    reaches the factory unchanged, [pure] among them; [displayName] and
    [WrappedComponent] are the computed ones, whatever the options
    held; [methodName] and [shouldHandleStateChanges] arrive with their
    defaults filled in; [withRef], [forwardRef] and [context] are not
    passed on.  The [pure] and [forwardRef] options decide the
    memoization and the ref forwarding of the component. *)
Theorem selector_factory_receives_the_other_options
  (NODE_ENV : string) (host : Wrap.Host) (h : gmap loc (gmap string value))
  (ReactReduxContext WrappedComponent : value) (l : loc) o c :
  Wrap.connectAdvanced NODE_ENV h ReactReduxContext (VRef l) = Normal o ->
  Wrap.wrapWithConnect NODE_ENV host h o WrappedComponent = Normal c ->
  let given := own_props h (VRef l) in
  let passed := Wrap.factoryOptions c in
  (forall k, k ∉ Wrap.optionNames ->
     k ∉ ["displayName"; "wrappedComponentName"; "WrappedComponent"] ->
     passed !! k = Wrap.Given <$> given !! k)
  /\ passed !! "displayName" = Some (Wrap.Given (Wrap.displayName c))
  /\ passed !! "WrappedComponent" = Some (Wrap.Given WrappedComponent)
  /\ passed !! "methodName"
     = Some (Wrap.Given (Wrap.orDefault (get_field h (VRef l) "methodName")
                           (VStr "connectAdvanced")))
  /\ passed !! "shouldHandleStateChanges"
     = Some (Wrap.Given (Wrap.orDefault
                           (get_field h (VRef l) "shouldHandleStateChanges")
                           (VBool true)))
  /\ passed !! "withRef" = None
  /\ passed !! "forwardRef" = None
  /\ passed !! "context" = None
  /\ Wrap.pure c = get_field h (VRef l) "pure"
  /\ Wrap.forwardsRef c = truthy (get_field h (VRef l) "forwardRef").
Proof.
  intros A Wc given passed.
  assert (O : Wrap.destructure h ReactReduxContext (VRef l) = Normal o).
  { unfold Wrap.connectAdvanced in A.
    destruct (Wrap.destructure h ReactReduxContext (VRef l)) as [o'|];
      [|discriminate].
    repeat match type of A with
           | (if ?b then _ else _) = _ => destruct b; try discriminate
           end; congruence. }
  unfold Wrap.destructure in O. cbn [bool_decide] in O.
  rewrite bool_decide_eq_false_2 in O by discriminate.
  injection O as <-.
  apply wrapWithConnect_normal in Wc. cbn zeta in Wc.
  destruct Wc as (_ & _ & _ & Ec).
  subst passed. rewrite Ec. cbn [Wrap.factoryOptions Wrap.pure Wrap.forwardsRef].
  unfold Wrap.selectorFactoryOptions.
  cbn [Wrap.connectOptions Wrap.storeKey Wrap.shouldHandleStateChanges
       Wrap.renderCountProp Wrap.methodName Wrap.getDisplayName Wrap.forwardRef].
  fold given.
  assert (Rest : forall k,
            (Wrap.Given <$> foldr delete given Wrap.optionNames) !! k
            = if bool_decide (k ∈ Wrap.optionNames) then None
              else Wrap.Given <$> given !! k).
  { intros k. rewrite lookup_fmap, rest_lookup.
    destruct (bool_decide (k ∈ Wrap.optionNames)); reflexivity. }
  repeat split.
  - intros k K1 K2.
    pose proof K1 as K1'.
    unfold Wrap.optionNames in K1.
    repeat rewrite not_elem_of_cons in K1. repeat rewrite not_elem_of_cons in K2.
    rewrite !lookup_insert_ne by (intros E; symmetry in E; intuition).
    rewrite Rest, bool_decide_eq_false_2 by exact K1'. reflexivity.
  - rewrite !lookup_insert_ne by discriminate. apply lookup_insert_eq.
  - apply lookup_insert_eq.
  - rewrite !lookup_insert_ne by discriminate. apply lookup_insert_eq.
  - rewrite !lookup_insert_ne by discriminate. apply lookup_insert_eq.
  - rewrite !lookup_insert_ne by discriminate. rewrite Rest. reflexivity.
  - rewrite !lookup_insert_ne by discriminate. rewrite Rest. reflexivity.
  - rewrite !lookup_insert_ne by discriminate. rewrite Rest. reflexivity.
  - rewrite !lookup_delete_ne by discriminate. reflexivity.
  - apply orDefault_truthy.
Qed.

(** X16.  The name of the connected component.  The wrapped
    component's name is its [displayName] if that is truthy, else its
    [name] if that is truthy, else ['Component'], and this is what the
    factory receives as [wrappedComponentName].  Without a
    [getDisplayName] option the component is called
    [ConnectAdvanced(name)]; with one, it is called what that function
    returns for the name. *)
Theorem display_name_falls_back_to_Component
  (NODE_ENV : string) (host : Wrap.Host) (h : gmap loc (gmap string value))
  (o : Wrap.Options) (WrappedComponent : value) c :
  Wrap.wrapWithConnect NODE_ENV host h o WrappedComponent = Normal c ->
  let displayName := get_field h WrappedComponent "displayName" in
  let name := get_field h WrappedComponent "name" in
  let wrappedComponentName :=
    if truthy displayName then displayName
    else if truthy name then name else VStr "Component" in
  Wrap.factoryOptions c !! "wrappedComponentName"
    = Some (Wrap.Given wrappedComponentName)
  /\ match Wrap.getDisplayName o with
     | Wrap.DefaultGetDisplayName =>
         (forall n, wrappedComponentName = VStr n ->
            Wrap.displayName c = VStr ("ConnectAdvanced(" ++ n ++ ")"))
         /\ (truthy displayName = false -> truthy name = false ->
             Wrap.displayName c = VStr "ConnectAdvanced(Component)")
     | Wrap.Given f =>
         Wrap.callFunction host f wrappedComponentName
         = Normal (Wrap.displayName c)
     end.
Proof.
  intros Wc displayName name wrappedComponentName.
  apply wrapWithConnect_normal in Wc. cbn zeta in Wc.
  destruct Wc as (_ & _ & Dn & Ec).
  unfold Wrap.orElse in Dn, Ec.
  fold displayName name in Dn, Ec. fold wrappedComponentName in Dn, Ec.
  split.
  - rewrite Ec. cbn [Wrap.factoryOptions]. unfold Wrap.selectorFactoryOptions.
    rewrite lookup_insert_ne by discriminate. apply lookup_insert_eq.
  - destruct (Wrap.getDisplayName o) as [f|]; cbn in Dn; [exact Dn|].
    split.
    + intros n E. rewrite E in Dn. cbn in Dn. congruence.
    + intros T1 T2. subst wrappedComponentName. rewrite T1, T2 in Dn.
      cbn in Dn. injection Dn as <-. reflexivity.
Qed.

(** X17.  Outside production [wrapWithConnect] builds no component
    from a value react-is does not accept as an element type.  The
    error names the method and shows the value as [JSON.stringify]
    gives it ([undefined] included), or as [String] gives it when
    [JSON.stringify] throws. *)
Theorem wrapWithConnect_rejects_what_is_no_component
  (NODE_ENV : string) (host : Wrap.Host) (h : gmap loc (gmap string value))
  (o : Wrap.Options) (WrappedComponent : value) :
  NODE_ENV <> "production" ->
  Wrap.isValidElementType host WrappedComponent = false ->
  let r := Wrap.wrapWithConnect NODE_ENV host h o WrappedComponent in
  (forall c, r <> Normal c)
  /\ (forall name, Wrap.methodName o = VStr name ->
      match Wrap.JSON_stringify host WrappedComponent with
      | Returns (VStr text) =>
          r = Abrupt (ThrowError
                 ("You must pass a component to the function returned by "
                  ++ name ++ ". Instead received " ++ text))
      | Returns VUndefined =>
          r = Abrupt (ThrowError
                 ("You must pass a component to the function returned by "
                  ++ name ++ ". Instead received undefined"))
      | Returns _ => True
      | Throws _ =>
          match Wrap.ToString host WrappedComponent with
          | Normal text =>
              r = Abrupt (ThrowError
                     ("You must pass a component to the function returned by "
                      ++ name ++ ". Instead received " ++ text))
          | Abrupt t => r = Abrupt t
          end
      end).
Proof.
  intros Env V r. subst r. unfold Wrap.wrapWithConnect.
  apply String.eqb_neq in Env. rewrite Env, V. cbn [negb andb].
  split.
  - intros c.
    destruct (Wrap.ToString host (Wrap.methodName o)); [|discriminate].
    destruct (Wrap.stringifyComponent host WrappedComponent) as [v|];
      [|discriminate].
    destruct (Wrap.ToString host v); discriminate.
  - intros name ->. cbn [Wrap.ToString]. unfold Wrap.stringifyComponent.
    destruct (Wrap.JSON_stringify host WrappedComponent) as [v|e].
    + destruct v; auto.
    + destruct (Wrap.ToString host WrappedComponent); reflexivity.
Qed.

(** X18.  With [forwardRef], the ref given to the outer component
    reaches the wrapped one and nothing else.  The forwarding wrapper
    always builds its props object without calling anything; a render
    of [Connect] with that object hands the ref to the wrapped
    component, and the owner props the selector sees are the props the
    owner gave, without any [reactReduxForwardedRef] of their own.  The
    props are as React hands them to the wrapper, without [key] and
    [ref]. *)
Theorem forwarded_ref_reaches_the_wrapped_component
  (cfg : Config) (w : World) (props ref : value) (s : Inst) x s' t :
  renderable cfg w props s ->
  own_props (heap s) props !! "key" = None ->
  own_props (heap s) props !! "ref" = None ->
  let forwarded := Wrap.forwardConnectRef props ref s in
  (forall p, outcome forwarded = Normal p ->
     ConnectFunction cfg w p (final forwarded) = mkRes (Normal x) s' t ->
     let wrapperProps := fst (fst (captureArgs x)) in
     childRef x = ref
     /\ own_props (heap s') wrapperProps
        = delete "reactReduxForwardedRef" (own_props (heap s) props)
     /\ (own_props (heap s) props !! "reactReduxForwardedRef" = None ->
         own_props (heap s') wrapperProps = own_props (heap s) props))
  /\ exists p, outcome forwarded = Normal p /\ trace forwarded = [].
Proof.
  intros Rn _ _ forwarded. subst forwarded.
  unfold Wrap.forwardConnectRef, alloc, bind, gets, modify, ret. cbn.
  set (l := fresh (dom (heap s))).
  set (o := <["reactReduxForwardedRef" := ref]> (own_props (heap s) props)).
  split; [|eauto].
  intros p [= <-] R.
  set (s1 := with_heap (insert l o) s) in *.
  assert (G : heap s ⊆ heap s1) by apply alloc_grows.
  assert (L : heap s1 !! l = Some o) by apply lookup_insert_eq.
  assert (O : own_props (heap s1) (VRef l) = o) by (cbn; rewrite lookup_insert_eq; reflexivity).
  pose proof Rn as (Ap & _).
  assert (Rn1 : renderable cfg w (VRef l) s1).
  { apply (renderable_grows cfg w props s); auto.
    - cbn. rewrite lookup_insert_eq. eauto.
    - unfold get_field. change (heap s1) with (<[l := o]> (heap s)).
      cbn [own_props]. rewrite lookup_insert_eq. cbn. subst o.
      rewrite lookup_insert_ne by discriminate. reflexivity. }
  destruct (ConnectFunction_returns _ _ _ _ _ _ _ Rn1 R)
    as (ctx & ov & s8 & t0 & t9 & F).
  cbn zeta in F.
  destruct F as (_ & _ & OW & Rf & _).
  unfold restOfProps in OW. rewrite O in OW.
  assert (D : delete "reactReduxForwardedRef" o
              = delete "reactReduxForwardedRef" (own_props (heap s) props))
    by (subst o; apply delete_insert_eq).
  rewrite D in OW.
  repeat split.
  - rewrite Rf. unfold get_field. rewrite O. subst o.
    rewrite lookup_insert_eq. reflexivity.
  - exact OW.
  - intros Nn. rewrite OW. apply delete_id. exact Nn.
Qed.

(** ** The further properties on the concrete instance *)


Section FurtherExamples.

Import Example Scenario.

Lemma committed_renderable n :
  renderable (config true) (world n) props committed.
Proof.
  apply (renderable_frame _ _ _ (final firstRender));
    try (unfold committed, commit; apply captureWrapperProps_frame).
  apply (renderable_after_render (config true) (world 0) props unmounted
           (rendered firstRender) (final firstRender) (trace firstRender)).
  - apply unmounted_renderable; auto.
  - exact firstRender_returns.
  - decided.
  - decided.
  - intros c; decided.
Qed.

Lemma notified_renderable n :
  renderable (config true) (world n) props notified.
Proof.
  apply (renderable_frame _ _ _ committed);
    try apply checkForUpdates_frame.
  apply committed_renderable.
Qed.

Lemma failed_renderable n :
  renderable (config true) (world n) props failed.
Proof.
  apply (renderable_frame _ _ _ committed);
    try apply checkForUpdates_frame.
  apply committed_renderable.
Qed.

Lemma notified_memos : memos notified = memos (final firstRender).
Proof.
  etrans; [apply checkForUpdates_frame|].
  unfold committed, commit. apply captureWrapperProps_frame.
Qed.

Lemma secondRender_returns :
  secondRender
  = mkRes (Normal (rendered secondRender)) (final secondRender) (trace secondRender).
Proof.
  assert (O : outcome secondRender = Normal (rendered secondRender))
    by (vm_compute; reflexivity).
  pose proof (res_eta secondRender) as Q. rewrite O in Q. exact Q.
Qed.

Lemma quiet_renderable :
  renderable quiet (world 0) props unmounted.
Proof.
  refine (conj _ (conj _ (conj _ (conj I (conj I I)))));
    [decided|decided|intros c; decided].
Qed.

Lemma quietRender_returns :
  quietRender
  = mkRes (Normal (rendered quietRender)) (final quietRender) (trace quietRender).
Proof.
  assert (O : outcome quietRender = Normal (rendered quietRender))
    by (vm_compute; reflexivity).
  pose proof (res_eta quietRender) as Q. rewrite O in Q. exact Q.
Qed.

Lemma forwardedRender_returns :
  forwardedRender
  = mkRes (Normal (rendered forwardedRender)) (final forwardedRender)
      (trace forwardedRender).
Proof.
  assert (O : outcome forwardedRender = Normal (rendered forwardedRender))
    by (vm_compute; reflexivity).
  pose proof (res_eta forwardedRender) as Q. rewrite O in Q. exact Q.
Qed.

Lemma defers_selector_errors_witness :
  let r := checkForUpdates (world 2) store selector
             (BoundNotifyNestedSubs (VRef 33)) (live false) in
  (didUnsubscribe (closure (live false)) = false
   /\ getState (world 2) store = Returns (VNum 2))
  /\ outcome r = Normal tt
  /\ lastThrownError (closure (final r)) = e1.
Proof.
  pose proof (checkForUpdates_defers_selector_errors (world 2) store selector
                (VRef 33) (live false) (VNum 2) eq_refl eq_refl)
    as (O & _ & _ & _ & _ & L & _).
  exact (conj (conj eq_refl eq_refl) (conj O L)).
Defined.

Lemma store_errors_witness :
  let r := checkForUpdates broken store selector NullCallback (live false) in
  (didUnsubscribe (closure (live false)) = false
   /\ getState broken store = Throws e1)
  /\ outcome r = Abrupt (ThrowValue e1)
  /\ trace r = [EGetState store]
  /\ final r = live false.
Proof.
  exact (conj (conj eq_refl eq_refl)
           (checkForUpdates_lets_store_errors_through broken store selector
              NullCallback (live false) e1 eq_refl eq_refl)).
Defined.

Lemma holds_back_cascades_witness :
  let r := notifications [world 1; world 0] store selector
             (BoundNotifyNestedSubs (VRef 33)) (live true) in
  (didUnsubscribe (closure (live true)) = false
   /\ renderIsScheduled (refs (live true)) = true
   /\ Forall (fun w => exists state, getState w store = Returns state)
        [world 1; world 0])
  /\ outcome r = Normal tt
  /\ cascades (trace r) = 0
  /\ renderIsScheduled (refs (final r)) = true.
Proof.
  assert (F : Forall (fun w => exists state, getState w store = Returns state)
                [world 1; world 0])
    by (repeat constructor; eexists; reflexivity).
  pose proof (scheduled_render_holds_back_cascades store selector (VRef 33)
                [world 1; world 0] (live true) eq_refl eq_refl F)
    as (O & C & _ & R & _).
  exact (conj (conj eq_refl (conj eq_refl F)) (conj O (conj C R))).
Defined.

Lemma update_cycle_witness :
  let x := rendered secondRender in
  let wrapperProps := fst (fst (captureArgs x)) in
  (didUnsubscribe (closure committed) = false
   /\ refsCreated committed = true
   /\ getState (world 1) store = Returns (VNum 1)
   /\ selector (VNum 1) (lastWrapperProps (refs committed)) = Returns A1
   /\ strict_eq A1 (lastChildProps (refs committed)) = false
   /\ truthy A1 = true
   /\ shouldHandleStateChanges (config true) = true
   /\ renderable (config true) (world 1) props committed
   /\ childPropsCellOk committed
   /\ strict_eq wrapperProps (lastWrapperProps (refs committed)) = true)
  /\ (let pass := checkForUpdates (world 1) store selector
                    (BoundNotifyNestedSubs (VRef 33)) committed in
      let done := commit x (final secondRender) in
      rendersRequested (trace pass) = 1
      /\ childProps x = A1
      /\ (forall e, In e (trace secondRender) -> exists d, e = ESelectorFactory d)
      /\ outcome done = Normal tt
      /\ trace done = [ENotifyNestedSubs (snd (fst (fst (subscribeArgs x))))]
      /\ refs (final done) = mkRefs A1 wrapperProps VNull false).
Proof.
  assert (H1 : didUnsubscribe (closure committed) = false) by (vm_compute; reflexivity).
  assert (H2 : refsCreated committed = true) by (vm_compute; reflexivity).
  assert (H4 : selector (VNum 1) (lastWrapperProps (refs committed)) = Returns A1)
    by (vm_compute; reflexivity).
  assert (H5 : strict_eq A1 (lastChildProps (refs committed)) = false)
    by (vm_compute; reflexivity).
  assert (H8 : childPropsCellOk committed) by (vm_compute; lia).
  assert (H9 : strict_eq (fst (fst (captureArgs (rendered secondRender))))
                 (lastWrapperProps (refs committed)) = true)
    by (vm_compute; reflexivity).
  exact (conj (conj H1 (conj H2 (conj eq_refl (conj H4 (conj H5 (conj eq_refl
            (conj eq_refl (conj (committed_renderable 1) (conj H8 H9)))))))))
          (update_cycle_renders_pending_props (config true) (world 1) (world 1)
                props store selector (VRef 33) committed (VNum 1) A1
                (rendered secondRender) (final secondRender) (trace secondRender)
                H1 H2 eq_refl H4 H5 eq_refl eq_refl (committed_renderable 1) H8
                secondRender_returns H9)).
Defined.

Lemma mount_witness :
  let x := rendered firstRender in
  let m := mountEffects (config true) (world 1) x (final firstRender) in
  (renderable (config true) (world 0) props unmounted
   /\ refsCreated unmounted = false
   /\ shouldHandleStateChanges (config true) = true
   /\ firstRender = mkRes (Normal x) (final firstRender) (trace firstRender)
   /\ getState (world 1) (fst (fst (fst (subscribeArgs x)))) = Returns (VNum 1))
  /\ outcome m = Normal true
  /\ onStateChange (final m) = true
  /\ lastWrapperProps (refs (final m)) = fst (fst (captureArgs x)).
Proof.
  assert (G : getState (world 1)
                (fst (fst (fst (subscribeArgs (rendered firstRender)))))
              = Returns (VNum 1)) by (vm_compute; reflexivity).
  pose proof (mount_checks_the_store_once (config true) (world 0) (world 1)
                props unmounted (rendered firstRender) (final firstRender)
                (trace firstRender) (VNum 1)
                (unmounted_renderable true 0 props (or_introl eq_refl))
                eq_refl eq_refl firstRender_returns G)
    as (O & _ & _ & S & _ & L & _).
  exact (conj (conj (unmounted_renderable true 0 props (or_introl eq_refl))
                 (conj eq_refl (conj eq_refl (conj firstRender_returns G))))
           (conj O (conj S L))).
Defined.

Lemma without_subscription_witness :
  let x := rendered quietRender in
  (renderable quiet (world 0) props unmounted
   /\ shouldHandleStateChanges quiet = false
   /\ (refsCreated unmounted = true ->
       truthy (childPropsFromStoreUpdate (refs unmounted)) = false)
   /\ quietRender = mkRes (Normal x) (final quietRender) (trace quietRender))
  /\ provider x = None
  /\ snd (fst (fst (subscribeArgs x))) = VNull
  /\ commit x (final quietRender)
     = mkRes (Normal tt) (final (commit x (final quietRender))) [].
Proof.
  pose proof (instance_without_subscription_makes_no_calls quiet (world 0)
                (world 1) props unmounted (rendered quietRender)
                (final quietRender) (trace quietRender)
                quiet_renderable eq_refl (fun _ => eq_refl) quietRender_returns)
    as (P & N & C & _).
  exact (conj (conj quiet_renderable
                 (conj eq_refl (conj (fun _ => eq_refl) quietRender_returns)))
           (conj P (conj N C))).
Defined.

Lemma render_throws_witness :
  let r := ConnectFunction (config true) (world 2) props failed in
  (renderable (config true) (world 2) props failed
   /\ stateUpdates failed = (Some (mkPayload e1), 1)
   /\ truthy e1 = true
   /\ (forall c, storeCameFromContext (heap failed) (useContext (world 2) c)
                 = true))
  /\ outcome r = Abrupt (ThrowValue e1)
  /\ (forall ev, In ev (trace r) -> exists d, ev = ESelectorFactory d)
  /\ cells (final r) = cells failed.
Proof.
  assert (U : stateUpdates failed = (Some (mkPayload e1), 1))
    by (vm_compute; reflexivity).
  assert (C : forall c, storeCameFromContext (heap failed)
                          (useContext (world 2) c) = true)
    by (intros c; vm_compute; reflexivity).
  exact (conj (conj (failed_renderable 2) (conj U (conj eq_refl C)))
           (render_throws_the_error_of_the_update (config true) (world 2) props
              failed e1 1 (failed_renderable 2) U eq_refl (or_intror C))).
Defined.


Lemma context_prop_witness :
  let x := rendered firstRender in
  let propsContext := get_field (heap unmounted) props "context" in
  (renderable (config true) (world 0) props unmounted
   /\ allocated (heap unmounted) propsContext
   /\ cellHits (memoContextToUse (memos unmounted)) same_context_deps
        (propsContext, Context_ (config true)) = None
   /\ firstRender = mkRes (Normal x) (final firstRender) (trace firstRender))
  /\ (storeCameFromProps (heap unmounted) props = false ->
      fst (fst (fst (subscribeArgs x)))
      = get_field (heap unmounted) (useContext (world 0) (VRef 9)) "store"
      /\ nullish (useContext (world 0) (VRef 9)) = false).
Proof.
  assert (A : allocated (heap unmounted)
                (get_field (heap unmounted) props "context")) by decided.
  pose proof (context_prop_overrides_the_default_context (config true) (world 0)
                props unmounted (rendered firstRender) (final firstRender)
                (trace firstRender)
                (unmounted_renderable true 0 props (or_introl eq_refl))
                A eq_refl firstRender_returns) as (_ & St & _).
  exact (conj (conj (unmounted_renderable true 0 props (or_introl eq_refl))
                 (conj A (conj eq_refl firstRender_returns))) St).
Defined.

Lemma pure_rerender_witness :
  let x := rendered firstRender in
  (renderable (config true) (world 0) props unmounted
   /\ firstRender = mkRes (Normal x) (final firstRender) (trace firstRender)
   /\ pure (config true) = true
   /\ heap committed = heap (final firstRender)
   /\ memos committed = memos (final firstRender)
   /\ stateUpdates committed = stateUpdates (final firstRender)
   /\ refsCreated committed = true
   /\ (forall c, useContext (world 4) c = useContext (world 0) c)
   /\ NODE_ENV (world 4) = NODE_ENV (world 0))
  /\ ConnectFunction (config true) (world 4) props committed
     = mkRes (Normal x) committed [].
Proof.
  assert (F : heap committed = heap (final firstRender)
              /\ memos committed = memos (final firstRender)
              /\ stateUpdates committed = stateUpdates (final firstRender)
              /\ refsCreated committed = refsCreated (final firstRender)
              /\ closure committed = closure (final firstRender))
    by (unfold committed, commit; apply captureWrapperProps_frame).
  destruct F as (Hh & Hm & Hu & _).
  assert (Hr : refsCreated committed = true) by (vm_compute; reflexivity).
  exact (conj (conj (unmounted_renderable true 0 props (or_introl eq_refl))
                 (conj firstRender_returns
                    (conj eq_refl (conj Hh (conj Hm (conj Hu (conj Hr
                       (conj (fun _ => eq_refl) eq_refl))))))))
           (pure_rerender_is_stable (config true) (world 0) (world 4) props
              unmounted committed (rendered firstRender) (final firstRender)
              (trace firstRender)
              (unmounted_renderable true 0 props (or_introl eq_refl))
              firstRender_returns eq_refl Hh Hm Hu Hr (fun _ => eq_refl) eq_refl)).
Defined.

Lemma node_is_kept_witness :
  let x := rendered firstRender in
  let x2 := rendered secondRender in
  (renderable (config true) (world 0) props unmounted
   /\ firstRender = mkRes (Normal x) (final firstRender) (trace firstRender)
   /\ renderable (config true) (world 1) props notified
   /\ secondRender = mkRes (Normal x2) (final secondRender) (trace secondRender)
   /\ memoSubscription (memos notified)
      = memoSubscription (memos (final firstRender))
   /\ memoOverriddenContextValue (memos notified)
      = memoOverriddenContextValue (memos (final firstRender))
   /\ provider x = Some (VRef 9, VRef 34)
   /\ provider x2 = Some (VRef 9, VRef 34)
   /\ useContext (world 1) (VRef 9) = useContext (world 0) (VRef 9)
   /\ fst (fst (fst (subscribeArgs x2))) = fst (fst (fst (subscribeArgs x)))
   /\ storeCameFromProps (heap notified) props
      = storeCameFromProps (heap unmounted) props)
  /\ snd (fst (fst (subscribeArgs x2))) = snd (fst (fst (subscribeArgs x)))
  /\ snd (subscribeArgs x2) = snd (subscribeArgs x).
Proof.
  assert (M5 : memoSubscription (memos notified)
               = memoSubscription (memos (final firstRender)))
    by (rewrite notified_memos; reflexivity).
  assert (M6 : memoOverriddenContextValue (memos notified)
               = memoOverriddenContextValue (memos (final firstRender)))
    by (rewrite notified_memos; reflexivity).
  assert (P1 : provider (rendered firstRender) = Some (VRef 9, VRef 34))
    by (vm_compute; reflexivity).
  assert (P2 : provider (rendered secondRender) = Some (VRef 9, VRef 34))
    by (vm_compute; reflexivity).
  assert (St : fst (fst (fst (subscribeArgs (rendered secondRender))))
               = fst (fst (fst (subscribeArgs (rendered firstRender)))))
    by (vm_compute; reflexivity).
  assert (Fp : storeCameFromProps (heap notified) props
               = storeCameFromProps (heap unmounted) props)
    by (vm_compute; reflexivity).
  pose proof (notification_node_is_kept_across_renders (config true) (world 0)
                (world 1) props props unmounted notified (rendered firstRender)
                (final firstRender) (trace firstRender) (rendered secondRender)
                (final secondRender) (trace secondRender)
                (VRef 9) (VRef 34) (VRef 9) (VRef 34)
                (unmounted_renderable true 0 props (or_introl eq_refl))
                firstRender_returns (notified_renderable 1) secondRender_returns
                M5 M6 P1 P2 eq_refl St Fp) as (Es & En & _).
  exact (conj (conj (unmounted_renderable true 0 props (or_introl eq_refl))
                 (conj firstRender_returns
                    (conj (notified_renderable 1)
                       (conj secondRender_returns
                          (conj M5 (conj M6 (conj P1 (conj P2
                             (conj eq_refl (conj St Fp))))))))))
           (conj Es En)).
Defined.

Lemma removed_options_witness :
  let r := Wrap.connectAdvanced "development" hw (VRef 3) (VRef 40) in
  VRef 40 <> VNull
  /\ ((exists o, r = Normal o) <->
      get_field hw (VRef 40) "renderCountProp" = VUndefined
      /\ truthy (get_field hw (VRef 40) "withRef") = false
      /\ (get_field hw (VRef 40) "storeKey" = VUndefined
          \/ get_field hw (VRef 40) "storeKey" = VStr "store")).
Proof.
  assert (N : VRef 40 <> VNull) by discriminate.
  assert (E : "development" <> "production") by discriminate.
  pose proof (connectAdvanced_rejects_removed_options "development" hw (VRef 3)
                (VRef 40) N) as (_ & D & _).
  exact (conj N (proj1 (D E))).
Defined.

Lemma connected_built :
  Wrap.connectAdvanced "development" hw (VRef 3) (VRef 40) = Normal options
  /\ Wrap.wrapWithConnect "development" host hw options (VRef 41)
     = Normal connected.
Proof. split; vm_compute; reflexivity. Qed.

Lemma other_options_witness :
  let passed := Wrap.factoryOptions connected in
  (Wrap.connectAdvanced "development" hw (VRef 3) (VRef 40) = Normal options
   /\ Wrap.wrapWithConnect "development" host hw options (VRef 41)
      = Normal connected)
  /\ passed !! "displayName" = Some (Wrap.Given (Wrap.displayName connected))
  /\ passed !! "WrappedComponent" = Some (Wrap.Given (VRef 41))
  /\ Wrap.pure connected = get_field hw (VRef 40) "pure".
Proof.
  pose proof (selector_factory_receives_the_other_options "development" host hw
                (VRef 3) (VRef 41) 40 options connected
                (proj1 connected_built) (proj2 connected_built))
    as (_ & D & W & _ & _ & _ & _ & _ & P & _).
  exact (conj connected_built (conj D (conj W P))).
Defined.

Lemma display_name_witness :
  Wrap.wrapWithConnect "development" host hw options (VRef 41) = Normal connected
  /\ Wrap.factoryOptions connected !! "wrappedComponentName"
     = Some (Wrap.Given
               (if truthy (get_field hw (VRef 41) "displayName")
                then get_field hw (VRef 41) "displayName"
                else if truthy (get_field hw (VRef 41) "name")
                then get_field hw (VRef 41) "name" else VStr "Component")).
Proof.
  exact (conj (proj2 connected_built)
           (proj1 (display_name_falls_back_to_Component "development" host hw
                     options (VRef 41) connected (proj2 connected_built)))).
Defined.

Lemma no_component_witness :
  let r := Wrap.wrapWithConnect "development" host hw options (VNum 5) in
  ("development" <> "production"
   /\ Wrap.isValidElementType host (VNum 5) = false)
  /\ forall c, r <> Normal c.
Proof.
  assert (E : "development" <> "production") by discriminate.
  exact (conj (conj E eq_refl)
           (proj1 (wrapWithConnect_rejects_what_is_no_component "development"
                     host hw options (VNum 5) E eq_refl))).
Defined.

Lemma forwarded_ref_witness :
  let x := rendered forwardedRender in
  (renderable (config true) (world 0) props unmounted
   /\ own_props (heap unmounted) props !! "key" = None
   /\ own_props (heap unmounted) props !! "ref" = None
   /\ outcome forwarded = Normal (VRef 32)
   /\ forwardedRender
      = mkRes (Normal x) (final forwardedRender) (trace forwardedRender))
  /\ childRef x = VRef 8.
Proof.
  assert (K : own_props (heap unmounted) props !! "key" = None)
    by (vm_compute; reflexivity).
  assert (R : own_props (heap unmounted) props !! "ref" = None)
    by (vm_compute; reflexivity).
  assert (O : outcome forwarded = Normal (VRef 32)) by (vm_compute; reflexivity).
  pose proof (proj1 (forwarded_ref_reaches_the_wrapped_component (config true)
                       (world 0) props (VRef 8) unmounted
                       (rendered forwardedRender) (final forwardedRender)
                       (trace forwardedRender)
                       (unmounted_renderable true 0 props (or_introl eq_refl))
                       K R) (VRef 32) O forwardedRender_returns) as (C & _).
  exact (conj (conj (unmounted_renderable true 0 props (or_introl eq_refl))
                 (conj K (conj R (conj O forwardedRender_returns)))) C).
Defined.


End FurtherExamples.
